(** * Working memory of a session: the read / reconstruct / write protocol

    A shallow embedding of [agent_memory_server/working_memory.py]:
    [list_sessions], [get_working_memory], [set_working_memory],
    [delete_working_memory] and [_reconstruct_working_memory_from_long_term],
    over an explicit model of the Redis keyspace, the clock, the log and the
    long-term search collaborator. *)

From Stdlib Require Import ZArith Lia Ascii DecimalString DecimalZ.
From stdpp Require Import base option list sorting strings pretty gmap.

Local Open Scope Z_scope.
Local Set Warnings "-register-all".

(** ** Python values *)

(** The exceptions of the module that are subclasses of Python's
    [Exception], the class the handlers of the module catch. *)
Inductive exn : Type :=
| ValueError (msg : string)
| TypeError (msg : string)
| AttributeError (msg : string)
| JSONDecodeError (msg : string)
| PydanticValidationError (msg : string)
| RedisError (msg : string)
| SearchError (msg : string).

(** [str(e)], as the log lines interpolate it. *)
Definition exn_str (e : exn) : string :=
  match e with
  | ValueError m | TypeError m | AttributeError m | JSONDecodeError m
  | PydanticValidationError m | RedisError m | SearchError m => m
  end.

(** The exceptions that are no [Exception], only a [BaseException]:
    [except Exception] does not catch them. [asyncio.CancelledError] is
    raised in a coroutine, at the [await] it is suspended at, when its task
    is cancelled. *)
Inductive base_exn : Type :=
| CancelledError
| KeyboardInterrupt
| SystemExit.

(** The outcome of a Python expression: a value, a raised [Exception], or
    a raised exception of the other kind. *)
Inductive result (A : Type) : Type :=
| Ok (a : A)
| Raise (e : exn)
| RaiseBase (b : base_exn).
Arguments Ok {A} a.
Arguments Raise {A} e.
Arguments RaiseBase {A} b.

Global Instance result_ret : MRet result := λ A a, Ok a.
Global Instance result_bind : MBind result := λ A B f r,
  match r with
  | Ok a => f a
  | Raise e => Raise e
  | RaiseBase b => RaiseBase b
  end.
Global Instance result_fmap : FMap result := λ A B f r,
  match r with
  | Ok a => Ok (f a)
  | Raise e => Raise e
  | RaiseBase b => RaiseBase b
  end.

(** A loop that builds a list by appending [f x] for each [x], and stops at
    the first exception. *)
Fixpoint for_each {A B} (f : A → result B) (xs : list A) : result (list B) :=
  match xs with
  | [] => Ok []
  | x :: xs' => y ← f x; ys ← for_each f xs'; Ok (y :: ys)
  end.

(** JSON-compatible values, as [json.loads] returns them and [json.dumps]
    takes them. A JSON object is the Python dict in insertion order.
    Numbers are the integers: this wire format carries no other number. *)
Inductive json : Type :=
| JNull
| JBool (b : bool)
| JInt (n : Z)
| JStr (s : string)
| JList (l : list json)
| JObj (kv : list (string * json)).

(** Python truthiness of a JSON-compatible value ([if x:], [x or y]). *)
Definition py_truthy (j : json) : bool :=
  match j with
  | JNull => false
  | JBool b => b
  | JInt n => negb (n =? 0)
  | JStr s => negb (String.eqb s "")
  | JList l => match l with [] => false | _ => true end
  | JObj kv => match kv with [] => false | _ => true end
  end.

(** [x or y]. *)
Definition py_or (x y : json) : json := if py_truthy x then x else y.

(** The first binding of a key in a dict. *)
Fixpoint assoc (k : string) (kv : list (string * json)) : option json :=
  match kv with
  | [] => None
  | (k', v) :: kv' => if String.eqb k k' then Some v else assoc k kv'
  end.

(** [d.get(k, dflt)]; a value that is not a dict has no [get]. *)
Definition py_get (d : json) (k : string) (dflt : json) : result json :=
  match d with
  | JObj kv => Ok (default dflt (assoc k kv))
  | _ => Raise (AttributeError "object has no attribute 'get'")
  end.

(** What a [for] loop iterates over: the items of a list, the characters of
    a string, the keys of a dict; nothing else here is iterable. (A
    character outside ASCII comes as its bytes; the loops of the module
    raise at the first item of a string, whatever it is.) *)
Fixpoint chars (s : string) : list json :=
  match s with
  | EmptyString => []
  | String c s' => JStr (String c EmptyString) :: chars s'
  end.

(** [iter(j)], as a [for] loop takes it. *)
Definition py_iter (j : json) : result (list json) :=
  match j with
  | JList l => Ok l
  | JStr s => Ok (chars s)
  | JObj kv => Ok (map (λ p, JStr (fst p)) kv)
  | _ => Raise (TypeError "object is not iterable")
  end.

(** ** Strings: [sep in s], [s.split(sep, 1)], [s.lower()]

    A text is the string of the bytes of its UTF-8 form. A separator of
    ASCII characters is found in a text at the same places, and splits it
    in the same two parts, on bytes and on characters. *)

(** [strip_prefix p s] is the rest of [s] after its prefix [p], if [p] is
    one. *)
Fixpoint strip_prefix (p s : string) : option string :=
  match p, s with
  | EmptyString, _ => Some s
  | String a p', String b s' =>
      if Ascii.eqb a b then strip_prefix p' s' else None
  | String _ _, EmptyString => None
  end.

(** The text before and the text after the leftmost occurrence of [sep]. *)
Fixpoint split_first (sep s : string) : option (string * string) :=
  match strip_prefix sep s with
  | Some rest => Some (EmptyString, rest)
  | None =>
      match s with
      | EmptyString => None
      | String c s' =>
          match split_first sep s' with
          | Some (a, b) => Some (String c a, b)
          | None => None
          end
      end
  end.

(** [sep in s]. *)
Definition str_in (sep s : string) : bool :=
  match split_first sep s with Some _ => true | None => false end.

(** [s.split(sep, 1)]: at most one split, at the leftmost [sep]. *)
Definition str_split1 (s sep : string) : list string :=
  match split_first sep s with
  | Some (a, b) => [a; b]
  | None => [s]
  end.

(** [s.lower()] is Python's own: the lower-casing of Unicode, with its
    table of characters and its special cases. The module is embedded over
    it, whatever function of texts it is, and every property below holds
    for every such function. *)
Class Lower : Type := str_lower : string → string.

(** [s.lower()] on a text of ASCII characters: the letters A to Z are
    lowered and every other character is kept. The examples, whose texts
    are all ASCII, are run with it. *)
Definition ascii_lower (c : ascii) : ascii :=
  let n := nat_of_ascii c in
  if (Nat.leb 65 n && Nat.leb n 90)%bool then ascii_of_nat (n + 32) else c.

Fixpoint lower_ascii (s : string) : string :=
  match s with
  | EmptyString => EmptyString
  | String c s' => String (ascii_lower c) (lower_ascii s')
  end.

(** ** Lists: [l.sort(key=..., reverse=...)] and slices *)

Section Sort.
Context {A : Type} (key : A → Z).

(** Where [x] goes in a sorted list: before the first element that does not
    have to come before it. Elements with equal keys keep the order they
    had, in both directions, as Python's sort does. *)
Fixpoint insert_by (reverse : bool) (x : A) (l : list A) : list A :=
  match l with
  | [] => [x]
  | y :: l' =>
      if (if reverse then key y <=? key x else key x <=? key y)
      then x :: y :: l'
      else y :: insert_by reverse x l'
  end.

(** [l.sort(key=key, reverse=reverse)]: the stable sort. *)
Definition list_sort (reverse : bool) (l : list A) : list A :=
  foldr (insert_by reverse) [] l.

End Sort.

(** [l[start:]], with Python's reading of a negative or too large index. *)
Definition slice_from {A} (start : Z) (l : list A) : list A :=
  let n := Z.of_nat (length l) in
  let i := if start <? 0 then Z.max (start + n) 0 else Z.min start n in
  drop (Z.to_nat i) l.

(** [l[:stop]]. *)
Definition slice_to {A} (stop : Z) (l : list A) : list A :=
  let n := Z.of_nat (length l) in
  let i := if stop <? 0 then Z.max (stop + n) 0 else Z.min stop n in
  take (Z.to_nat i) l.

(** ** Time *)

(** A [datetime] (timezone UTC) is the count of microseconds since the
    epoch, the resolution of Python's datetime. *)
Abbreviation datetime := Z (only parsing).

Definition MICRO : Z := 1000000.

(** The seconds of [datetime.min] and [datetime.max]: years 1 to 9999. *)
Definition MIN_SECONDS : Z := -62135596800.
Definition MAX_SECONDS : Z := 253402300799.

Definition valid_datetime (t : datetime) : Prop :=
  MIN_SECONDS * MICRO ≤ t ≤ MAX_SECONDS * MICRO + (MICRO - 1).

(** The whole seconds of an instant, rounded towards zero. *)
Definition timestamp_int (t : datetime) : Z := Z.quot t MICRO.

(** [int(n / q)] for two ints [0 ≤ n] and [0 < q < 2^53], as Python
    computes it. The division gives a float: the binary64 number nearest
    to the quotient, with a significand of 53 bits, a tie going to the even
    significand; [int] cuts the fraction of that float off. A quotient
    below 1 gives a float below 1. From 1 on, with [e] the binary logarithm
    of the whole part of the quotient, the float is a multiple of
    [2^(e-52)]: the quotient in units of [2^(e-52)] is [num / den] below,
    and its nearest integer is the significand. *)
Definition int_of_true_div (n q : Z) : Z :=
  let whole := n / q in
  if whole =? 0 then 0
  else
    let shift := 52 - Z.log2 whole in
    let num := if 0 <=? shift then n * 2 ^ shift else n in
    let den := if 0 <=? shift then q else q * 2 ^ (- shift) in
    let m := num / den in
    let r := num mod den in
    let significand :=
      if (den <? 2 * r) || ((den =? 2 * r) && Z.odd m) then m + 1 else m in
    if 0 <=? shift then significand / 2 ^ shift
    else significand * 2 ^ (- shift).

(** [int(t.timestamp())]. For a datetime with a timezone, [t.timestamp()]
    is [(t - epoch).total_seconds()], the count of microseconds divided by
    [10**6]: a float. The float of an instant before the epoch is the
    opposite of the float of the instant as far after it. *)
Definition int_timestamp (t : datetime) : Z :=
  Z.sgn t * int_of_true_div (Z.abs t) MICRO.

(** Less than [2^34] seconds away from the epoch, from August 1425 to May
    2514, the seconds of a float are the whole seconds of the instant
    ([int_timestamp_exact] below); further away a float can be the next
    whole second. *)
Definition EXACT_SECONDS : Z := 17179869184.

Definition exact_seconds (t : datetime) : Prop :=
  - (EXACT_SECONDS * MICRO) < t < EXACT_SECONDS * MICRO.

(** [datetime.fromtimestamp(x, UTC)] on what a JSON payload can hold. *)
Definition fromtimestamp (x : json) : result datetime :=
  match x with
  | JInt n =>
      if (MIN_SECONDS <=? n) && (n <=? MAX_SECONDS) then Ok (n * MICRO)
      else Raise (ValueError "year is out of range")
  | JBool b => Ok (if b then MICRO else 0)
  | _ => Raise (TypeError "an integer is required")
  end.

(** The text pydantic gives a datetime in a JSON dump, and its reading.
    The model writes the decimal count of microseconds where pydantic
    writes the ISO 8601 calendar form; both are read back exactly. *)
Definition isoformat (t : datetime) : string :=
  NilEmpty.string_of_int (Z.to_int t).

Definition fromisoformat (s : string) : option datetime :=
  Z.of_int <$> NilEmpty.int_of_string s.

(** ** The wire: byte strings and JSON text *)

(** A byte string held by the store is the text of a JSON value, or some
    text that is not JSON at all (the empty byte string is of that kind). *)
Inductive bytes : Type :=
| JsonText (j : json)
| NotJson (s : string).

(** [bool(data)] for what [redis_client.get] returns: [None] and the
    empty byte string are falsy. *)
Definition bytes_truthy (data : option bytes) : bool :=
  match data with
  | Some (JsonText _) => true
  | Some (NotJson s) => negb (String.eqb s "")
  | None => false
  end.

(** [json.dumps(x, default=json_datetime_handler)] on a JSON-compatible
    [x] (the handler is only asked about datetime objects, and the dict
    [set_working_memory] builds holds none). *)
Definition json_dumps (x : json) : bytes := JsonText x.

(** [json.loads(data)]. *)
Definition json_loads (data : option bytes) : result json :=
  match data with
  | Some (JsonText j) => Ok j
  | Some (NotJson _) => Raise (JSONDecodeError "Expecting value")
  | None => Raise (TypeError "the JSON object must be str, bytes or bytearray")
  end.

(** ** The models *)

(** Reading one keyword argument of a model's constructor. *)
Definition kwargs (j : json) : result (list (string * json)) :=
  match j with
  | JObj kv => Ok kv
  | _ => Raise (TypeError "argument after ** must be a mapping")
  end.

Definition required (kv : list (string * json)) (k : string) : result json :=
  match assoc k kv with
  | Some v => Ok v
  | None => Raise (PydanticValidationError "Field required")
  end.

Definition as_str (j : json) : result string :=
  match j with
  | JStr s => Ok s
  | _ => Raise (PydanticValidationError "Input should be a valid string")
  end.

Definition as_int (j : json) : result Z :=
  match j with
  | JInt n => Ok n
  | _ => Raise (PydanticValidationError "Input should be a valid integer")
  end.

Definition as_dict (j : json) : result (list (string * json)) :=
  match j with
  | JObj kv => Ok kv
  | _ => Raise (PydanticValidationError "Input should be a valid dictionary")
  end.

Definition as_datetime (j : json) : result datetime :=
  match j with
  | JStr s =>
      match fromisoformat s with
      | Some t => Ok t
      | None => Raise (PydanticValidationError "Input should be a valid datetime")
      end
  | _ => Raise (PydanticValidationError "Input should be a valid datetime")
  end.

(** A field of type [T | None]. *)
Definition optional {A} (f : json → result A) (j : json) : result (option A) :=
  match j with
  | JNull => Ok None
  | _ => Some <$> f j
  end.

Definition dump_optional {A} (f : A → json) (o : option A) : json :=
  match o with
  | Some a => f a
  | None => JNull
  end.

Definition dump_datetime (t : datetime) : json := JStr (isoformat t).

Module MemoryMessage.

(** Modelled from the spec: the class [MemoryMessage] of
    [agent_memory_server.models], which src/ does not hold; its fields are
    those of the spec's Message, [{id, role, content, created_at,
    persisted_at?}]. *)
Record t : Type := mk {
  id : string;
  role : string;
  content : string;
  created_at : datetime;
  persisted_at : option datetime
}.

(** Modelled from the spec: [message.model_dump(mode="json")] of the
    absent class, every field under its name and datetimes as text. *)
Definition model_dump (m : t) : json :=
  JObj [("id", JStr (id m));
        ("role", JStr (role m));
        ("content", JStr (content m));
        ("created_at", dump_datetime (created_at m));
        ("persisted_at", dump_optional dump_datetime (persisted_at m))].

(** Modelled from the spec: the call of [MemoryMessage] on the
    keywords of [message_data]; a field takes the JSON shape of its type and nothing else, and
    only [persisted_at] may be left out. *)
Definition validate (message_data : json) : result t :=
  kv ← kwargs message_data;
  i ← required kv "id" ≫= as_str;
  r ← required kv "role" ≫= as_str;
  c ← required kv "content" ≫= as_str;
  ca ← required kv "created_at" ≫= as_datetime;
  pa ← optional as_datetime (default JNull (assoc "persisted_at" kv));
  Ok (mk i r c ca pa).

End MemoryMessage.

Module MemoryRecord.

(** Modelled from the spec: the class [MemoryRecord] of
    [agent_memory_server.models], which src/ does not hold; its fields are
    those the spec gives a long-term record, [{id, text, created_at,
    persisted_at?}]. *)
Record t : Type := mk {
  id : string;
  text : string;
  created_at : datetime;
  persisted_at : option datetime
}.

(** Modelled from the spec: [memory.model_dump(mode="json")]. *)
Definition model_dump (m : t) : json :=
  JObj [("id", JStr (id m));
        ("text", JStr (text m));
        ("created_at", dump_datetime (created_at m));
        ("persisted_at", dump_optional dump_datetime (persisted_at m))].

(** Modelled from the spec: the call of [MemoryRecord] on the
    keywords of [memory_data]. An empty [id]
    is accepted: the rule on ids is enforced at write time only. *)
Definition validate (memory_data : json) : result t :=
  kv ← kwargs memory_data;
  i ← required kv "id" ≫= as_str;
  x ← required kv "text" ≫= as_str;
  ca ← required kv "created_at" ≫= as_datetime;
  pa ← optional as_datetime (default JNull (assoc "persisted_at" kv));
  Ok (mk i x ca pa).

End MemoryRecord.

Module MemoryStrategyConfig.

(** Modelled from the spec: the class [MemoryStrategyConfig] of
    [agent_memory_server.models], which src/ does not hold: "a small
    configuration object", a strategy name with its options. *)
Record t : Type := mk {
  strategy : string;
  config : list (string * json)
}.

(** Modelled from the spec: [MemoryStrategyConfig()], the "discrete"
    strategy. *)
Definition default_config : t := mk "discrete" [].

(** Modelled from the spec: [strategy.model_dump()]. *)
Definition model_dump (c : t) : json :=
  JObj [("strategy", JStr (strategy c)); ("config", JObj (config c))].

(** Modelled from the spec: the call of [MemoryStrategyConfig] on the
    keywords of [strategy_data]; a field left out takes its default. *)
Definition validate (strategy_data : json) : result t :=
  kv ← kwargs strategy_data;
  s ← as_str (default (JStr "discrete") (assoc "strategy" kv));
  c ← as_dict (default (JObj []) (assoc "config" kv));
  Ok (mk s c).

End MemoryStrategyConfig.

Module WorkingMemory.

(** Modelled from the spec: the class [WorkingMemory] of
    [agent_memory_server.models], which src/ does not hold; the fields are
    those of the spec's WorkingMemoryDocument. *)
Record t : Type := mk {
  messages : list MemoryMessage.t;
  memories : list MemoryRecord.t;
  context : option string;
  user_id : option string;
  tokens : Z;
  session_id : string;
  namespace : option string;
  ttl_seconds : option Z;
  data : list (string * json);
  long_term_memory_strategy : MemoryStrategyConfig.t;
  last_accessed : datetime;
  created_at : datetime;
  updated_at : datetime
}.

(** [working_memory.updated_at = t]. *)
Definition set_updated_at (t' : datetime) (w : t) : t :=
  mk (messages w) (memories w) (context w) (user_id w) (tokens w)
     (session_id w) (namespace w) (ttl_seconds w) (data w)
     (long_term_memory_strategy w) (last_accessed w) (created_at w) t'.

(** Modelled from the spec: the constructor call of [get_working_memory],
    which hands the values of [context], [user_id], [tokens],
    [ttl_seconds] and [data] as the payload has them; pydantic checks each
    against the type of its field. *)
Definition init (messages : list MemoryMessage.t)
    (memories : list MemoryRecord.t) (context user_id tokens : json)
    (session_id : string) (namespace : option string)
    (ttl_seconds data : json)
    (long_term_memory_strategy : MemoryStrategyConfig.t)
    (last_accessed created_at updated_at : datetime) : result t :=
  c ← optional as_str context;
  u ← optional as_str user_id;
  k ← as_int tokens;
  l ← optional as_int ttl_seconds;
  d ← as_dict data;
  Ok (mk messages memories c u k session_id namespace l d
         long_term_memory_strategy last_accessed created_at updated_at).

End WorkingMemory.

(** ** The world: Redis, the clock and the log *)

Inductive level : Type := DEBUG | INFO | WARNING | ERROR.

(** A value of the keyspace, with the instant it expires at, if any. *)
Record entry : Type := mk_entry {
  value : bytes;
  expires_at : option datetime
}.

(** A member of a sorted set, as the client returns it: bytes, or text
    when the client decodes responses. *)
Inductive member : Type :=
| MBytes (b : string)
| MStr (s : string).

(** The commands sent to Redis, in the order they were sent. *)
Inductive command : Type :=
| GET (key : string)
| SET (key : string) (v : bytes)
| SETEX (key : string) (ttl : Z) (v : bytes)
| DEL (key : string)
| PIPELINE_ZCARD_ZRANGE (key : string) (start stop : Z).

Record World : Type := mk_world {
  kv : gmap string entry;            (* the string keys *)
  zsets : gmap string (list member); (* the sorted sets, in their order *)
  fault : option exn;                (* the error every command raises, if set *)
  clock : datetime;                  (* the present instant *)
  io : list command;                 (* the commands sent so far *)
  logs : list (level * string)       (* the lines logged so far *)
}.

Definition with_kv (m : gmap string entry) (w : World) : World :=
  mk_world m (zsets w) (fault w) (clock w) (io w) (logs w).

Definition with_io (c : command) (w : World) : World :=
  mk_world (kv w) (zsets w) (fault w) (clock w) (io w ++ [c]) (logs w).

Definition with_log (l : level) (msg : string) (w : World) : World :=
  mk_world (kv w) (zsets w) (fault w) (clock w) (io w) (logs w ++ [(l, msg)]).

(** A coroutine of the module: it runs on a world, returns or raises, and
    leaves a world. *)
Definition M (A : Type) : Type := World → result A * World.

Global Instance M_ret : MRet M := λ A a w, (Ok a, w).
Global Instance M_bind : MBind M := λ A B f m w,
  match m w with
  | (Ok a, w') => f a w'
  | (Raise e, w') => (Raise e, w')
  | (RaiseBase b, w') => (RaiseBase b, w')
  end.

Definition lift {A} (r : result A) : M A := λ w, (r, w).

Definition raise {A} (e : exn) : M A := λ w, (Raise e, w).

(** [try: body / except Exception as e: handler e]. What the body did to
    the world before it raised stays done; an exception that is no
    [Exception] goes through the handler untouched. *)
Definition try_except {A} (body : M A) (handler : exn → M A) : M A := λ w,
  match body w with
  | (Ok a, w') => (Ok a, w')
  | (Raise e, w') => handler e w'
  | (RaiseBase b, w') => (RaiseBase b, w')
  end.

(** [logger.debug], [logger.info], [logger.warning], [logger.error]. *)
Definition log (l : level) (msg : string) : M () := λ w,
  (Ok (), with_log l msg w).

(** [datetime.now(UTC)]. *)
Definition now : M datetime := λ w, (Ok (clock w), w).

(** [int(time.time())]: the whole seconds of the present instant.
    ([time.time()] is a float of the seconds of the clock; in these
    centuries its whole seconds are those of the instant.) *)
Definition time_int : M Z := λ w, (Ok (timestamp_int (clock w)), w).

(** *** The Redis client *)

(** Every command is sent, and raises when the connection is at fault. *)
Definition send {A} (c : command) (run : World → result A * World) : M A := λ w,
  match fault w with
  | Some e => (Raise e, with_io c w)
  | None => run (with_io c w)
  end.

(** A key is there at every instant before the one it expires at. *)
Definition live (t : datetime) (e : entry) : bool :=
  match expires_at e with
  | Some deadline => t <? deadline
  | None => true
  end.

(** What a key holds at present: its value, or [None] for a key that is
    not there or has expired. *)
Definition read_key (key : string) (w : World) : option bytes :=
  match kv w !! key with
  | Some e => if live (clock w) e then Some (value e) else None
  | None => None
  end.

(** [redis_client.get(key)]. *)
Definition redis_get (key : string) : M (option bytes) :=
  send (GET key) (λ w, (Ok (read_key key w), w)).

(** [redis_client.set(key, v)]: the value replaces what the key held and
    never expires. *)
Definition redis_set (key : string) (v : bytes) : M () :=
  send (SET key v) (λ w, (Ok (), with_kv (<[key := mk_entry v None]> (kv w)) w)).

(** [redis_client.setex(key, ttl, v)]: value and expiry in one step. The
    store counts the time to live from the instant at which it runs the
    command. A call takes no time in a world of the model, so that this
    instant is the instant of the call, and the deadline below the
    earliest instant at which the key can be gone: a store that runs the
    command later keeps the key that much longer. *)
Definition redis_setex (key : string) (ttl : Z) (v : bytes) : M () :=
  send (SETEX key ttl v) (λ w,
    if 0 <? ttl
    then (Ok (), with_kv (<[key := mk_entry v (Some (clock w + ttl * MICRO))]> (kv w)) w)
    else (Raise (RedisError "invalid expire time in 'setex' command"), w)).

(** [redis_client.delete(key)]. *)
Definition redis_delete (key : string) : M () :=
  send (DEL key) (λ w, (Ok (), with_kv (delete key (kv w)) w)).

(** The members of ranks [start] to [stop], both included, as ZRANGE reads
    its two indices: a negative index counts from the end. *)
Definition zrange {A} (start stop : Z) (l : list A) : list A :=
  let llen := Z.of_nat (length l) in
  let start := if start <? 0 then llen + start else start in
  let stop := if stop <? 0 then llen + stop else stop in
  let start := if start <? 0 then 0 else start in
  if (stop <? start) || (llen <=? start) then []
  else
    let stop := if llen <=? stop then llen - 1 else stop in
    take (Z.to_nat (stop - start + 1)) (drop (Z.to_nat start) l).

(** The pipeline of [list_sessions]: ZCARD and ZRANGE in one batch, both
    on the same sorted set. A key that is not there is the empty set. *)
Definition redis_pipeline_zcard_zrange (key : string) (start stop : Z)
  : M (Z * list member) :=
  send (PIPELINE_ZCARD_ZRANGE key start stop) (λ w,
    let members := default [] (zsets w !! key) in
    (Ok (Z.of_nat (length members), zrange start stop members), w)).

(** [s.decode("utf-8") if isinstance(s, bytes) else s]; the bytes of a
    member are taken to be valid UTF-8. *)
Definition decode_member (s : member) : string :=
  match s with
  | MBytes b => b
  | MStr s => s
  end.

(** ** The module *)

(** The query [search_long_term_memories] is called with: the text, the
    four filters (an absent filter is [None]), the limit and the offset. *)
Record SearchQuery : Type := mk_query {
  q_text : string;
  q_session_id : option string;
  q_user_id : option string;
  q_namespace : option string;
  q_memory_type : option string;
  q_limit : Z;
  q_offset : Z
}.

(** [f"{x}"] for an optional string. *)
Definition fmt (o : option string) : string := default "None" o.

(** [bool(x)] for an optional string and an optional integer. *)
Definition truthy_str (o : option string) : bool :=
  match o with
  | Some s => negb (String.eqb s "")
  | None => false
  end.

Definition truthy_int (o : option Z) : bool :=
  match o with
  | Some n => negb (n =? 0)
  | None => false
  end.

(** The arguments of the call of [search_long_term_memories] (lines 318 to
    334): message memories of the session, of the user and the namespace
    when these are given, at most [recent_messages_limit] of them, or 1000. *)
Definition search_query (session_id : string) (user_id namespace : option string)
    (recent_messages_limit : option Z) : SearchQuery :=
  let session_filter := Some session_id in
  let user_filter := if truthy_str user_id then user_id else None in
  let namespace_filter := if truthy_str namespace then namespace else None in
  let memory_type_filter := Some "message" in
  let search_limit :=
    if truthy_int recent_messages_limit
    then default 1000 recent_messages_limit else 1000 in
  mk_query "" session_filter user_filter namespace_filter memory_type_filter
           search_limit 0.

(** Lines 366 to 374: the messages most recent first, the first
    [recent_messages_limit] of them when there is a limit and there are
    more, then turned back to oldest first. *)
Definition most_recent (recent_messages_limit : option Z)
    (messages : list MemoryMessage.t) : list MemoryMessage.t :=
  let messages := list_sort MemoryMessage.created_at true messages in
  let messages :=
    if truthy_int recent_messages_limit
       && (default 0 recent_messages_limit <? Z.of_nat (length messages))
    then slice_to (default 0 recent_messages_limit) messages
    else messages in
  reverse messages.

(** Lines 378 to 389: the document the reconstruction builds. Its
    [created_at] is [messages[0].persisted_at or now if messages else now];
    [tokens], [ttl_seconds] and [long_term_memory_strategy] are left to
    their defaults. *)
Definition reconstructed_working_memory (session_id : string)
    (namespace user_id : option string) (messages : list MemoryMessage.t)
    (now_ : datetime) : WorkingMemory.t :=
  {| WorkingMemory.session_id := session_id;
     WorkingMemory.namespace := namespace;
     WorkingMemory.user_id := user_id;
     WorkingMemory.messages := messages;
     WorkingMemory.memories := [];
     WorkingMemory.context := Some "";
     WorkingMemory.data := [];
     WorkingMemory.created_at :=
       match messages with
       | m :: _ => default now_ (MemoryMessage.persisted_at m)
       | [] => now_
       end;
     WorkingMemory.updated_at := now_;
     WorkingMemory.last_accessed := now_;
     WorkingMemory.tokens := 0;
     WorkingMemory.ttl_seconds := None;
     WorkingMemory.long_term_memory_strategy :=
       MemoryStrategyConfig.default_config |}.

(** Lines 215 to 233: the dict [set_working_memory] serializes, with
    [seconds t] for the integer a timestamp [t] of the document goes as. *)
Definition wire_form_with (seconds : datetime → Z)
    (working_memory : WorkingMemory.t) : json :=
  JObj [("messages", JList (map MemoryMessage.model_dump
                              (WorkingMemory.messages working_memory)));
        ("memories", JList (map MemoryRecord.model_dump
                              (WorkingMemory.memories working_memory)));
        ("context", dump_optional JStr (WorkingMemory.context working_memory));
        ("user_id", dump_optional JStr (WorkingMemory.user_id working_memory));
        ("tokens", JInt (WorkingMemory.tokens working_memory));
        ("session_id", JStr (WorkingMemory.session_id working_memory));
        ("namespace", dump_optional JStr (WorkingMemory.namespace working_memory));
        ("ttl_seconds", dump_optional JInt (WorkingMemory.ttl_seconds working_memory));
        ("data", py_or (JObj (WorkingMemory.data working_memory)) (JObj []));
        ("long_term_memory_strategy",
          MemoryStrategyConfig.model_dump
            (WorkingMemory.long_term_memory_strategy working_memory));
        ("last_accessed",
          JInt (seconds (WorkingMemory.last_accessed working_memory)));
        ("created_at",
          JInt (seconds (WorkingMemory.created_at working_memory)));
        ("updated_at",
          JInt (seconds (WorkingMemory.updated_at working_memory)))].

(** The wire form of a document, the dict of [set_working_memory]: the
    three timestamps go as [int(t.timestamp())]. *)
Definition wire_form : WorkingMemory.t → json := wire_form_with int_timestamp.

(** A payload that holds the three timestamps of a document as their whole
    seconds. It is the wire form of every document whose timestamps are
    less than [2^34] seconds away from the epoch ([wire_form_exact]
    below). *)
Definition whole_seconds_form : WorkingMemory.t → json :=
  wire_form_with timestamp_int.

Section WorkingMemoryModule.

(** [str.lower]. *)
Context {lowering : Lower}.

(** [Keys.working_memory_key] and [Keys.sessions_key] of
    [agent_memory_server.utils.keys], which src/ does not hold. *)
Variable Keys_working_memory_key : string → option string → option string → string.
Variable Keys_sessions_key : option string → string.

(** [settings.index_all_messages_in_long_term_memory]. *)
Variable index_all_messages_in_long_term_memory : bool.

(** [search_long_term_memories] of [agent_memory_server.long_term_memory]:
    the memories of its result, or the exception it raises. *)
Variable search_long_term_memories : SearchQuery → result (list MemoryRecord.t).

(** [list_sessions(redis, limit, offset, namespace, user_id)]. *)
Definition list_sessions (limit offset : Z) (namespace user_id : option string)
  : M (Z * list string) :=
  let start := offset in
  let end_ := offset + limit - 1 in
  let sessions_key := Keys_sessions_key namespace in
  '(total, session_ids) ← redis_pipeline_zcard_zrange sessions_key start end_;
  mret (total, map decode_member session_ids).

(** The loop of the reconstruction over [results.memories]: a text of the
    form "role: content" becomes a message, any other text is skipped with
    a warning. [messages] is the list built so far. *)
Fixpoint parse_memories (memories : list MemoryRecord.t)
    (messages : list MemoryMessage.t) : M (list MemoryMessage.t) :=
  match memories with
  | [] => mret messages
  | memory :: rest =>
      let text := MemoryRecord.text memory in
      if str_in ": " text then
        match str_split1 text ": " with
        | [role; content] =>
            let message :=
              MemoryMessage.mk (MemoryRecord.id memory) (str_lower role) content
                (MemoryRecord.created_at memory)
                (MemoryRecord.persisted_at memory) in
            parse_memories rest (messages ++ [message])
        | _ => raise (ValueError "not enough values to unpack (expected 2)")
        end
      else
        log WARNING ("Skipping malformed message memory: "
                     +:+ MemoryRecord.id memory +:+ " - " +:+ text);;
        parse_memories rest messages
  end.

(** [_reconstruct_working_memory_from_long_term(session_id, user_id,
    namespace, recent_messages_limit)]. *)
Definition _reconstruct_working_memory_from_long_term (session_id : string)
    (user_id namespace : option string) (recent_messages_limit : option Z)
  : M (option WorkingMemory.t) :=
  try_except
    (results ← lift (search_long_term_memories
                       (search_query session_id user_id namespace
                                     recent_messages_limit));
     if bool_decide (results = []) then
       log DEBUG ("No message memories found for session " +:+ session_id
                  +:+ " in long-term storage");;
       mret None
     else
       messages ← parse_memories results [];
       if bool_decide (messages = []) then
         log DEBUG ("No valid messages found for session " +:+ session_id);;
         mret None
       else
         let messages := most_recent recent_messages_limit messages in
         (* Create reconstructed working memory *)
         now_ ← now;
         let reconstructed :=
           reconstructed_working_memory session_id namespace user_id
                                        messages now_ in
         log INFO ("Reconstructed working memory for session " +:+ session_id
                   +:+ " with " +:+ pretty (length messages) +:+ " messages");;
         mret (Some reconstructed))
    (λ e,
       log ERROR ("Error reconstructing working memory for session "
                  +:+ session_id +:+ ": " +:+ exn_str e);;
       mret None).

(** The [try] block of [get_working_memory] (lines 106 to 179), on the key
    computed before it. *)
Definition get_working_memory_try (key session_id : string)
    (user_id namespace : option string) (recent_messages_limit : option Z)
  : M (option WorkingMemory.t) :=
    (data ← redis_get key;
     if negb (bytes_truthy data) then
       log DEBUG ("No working memory found for parameters: " +:+ session_id
                  +:+ ", " +:+ fmt user_id +:+ ", " +:+ fmt namespace);;
       (* Try to reconstruct from long-term memory if enabled *)
       if index_all_messages_in_long_term_memory then
         reconstructed ← _reconstruct_working_memory_from_long_term
                           session_id user_id namespace recent_messages_limit;
         match reconstructed with
         | Some r =>
             log INFO ("Reconstructed working memory for session "
                       +:+ session_id +:+ " from long-term storage");;
             mret (Some r)
         | None => mret None
         end
       else mret None
     else
       (* Parse the JSON data *)
       working_memory_data ← lift (json_loads data);
       (* Convert memory records back to MemoryRecord objects *)
       memories_data ← lift (py_get working_memory_data "memories" (JList []));
       memories ← lift (items ← py_iter memories_data;
                        for_each MemoryRecord.validate items);
       (* Convert messages back to MemoryMessage objects *)
       messages_data ← lift (py_get working_memory_data "messages" (JList []));
       messages ← lift (items ← py_iter messages_data;
                        for_each MemoryMessage.validate items);
       (* Apply recent messages limit if specified (in-memory slice) *)
       let messages :=
         match recent_messages_limit with
         | Some n =>
             if 0 <? n
             then slice_from (- n)
                    (list_sort MemoryMessage.created_at false messages)
             else messages
         | None => messages
         end in
       (* Handle memory strategy configuration *)
       strategy_data ← lift (py_get working_memory_data
                               "long_term_memory_strategy" JNull);
       long_term_memory_strategy ←
         lift (if py_truthy strategy_data
               then MemoryStrategyConfig.validate strategy_data
               else Ok MemoryStrategyConfig.default_config);
       context ← lift (py_get working_memory_data "context" JNull);
       user_id' ← lift (py_get working_memory_data "user_id" JNull);
       tokens ← lift (py_get working_memory_data "tokens" (JInt 0));
       ttl_seconds ← lift (py_get working_memory_data "ttl_seconds" JNull);
       data' ← lift (py_get working_memory_data "data" JNull);
       t ← time_int;
       last_accessed ← lift (x ← py_get working_memory_data "last_accessed" (JInt t);
                             fromtimestamp x);
       t ← time_int;
       created_at ← lift (x ← py_get working_memory_data "created_at" (JInt t);
                          fromtimestamp x);
       t ← time_int;
       updated_at ← lift (x ← py_get working_memory_data "updated_at" (JInt t);
                          fromtimestamp x);
       wm ← lift (WorkingMemory.init messages memories context user_id'
                    tokens session_id namespace ttl_seconds
                    (py_or data' (JObj [])) long_term_memory_strategy
                    last_accessed created_at updated_at);
       mret (Some wm)).

(** [get_working_memory(session_id, user_id, namespace, redis_client,
    recent_messages_limit)], for a [redis_client] that is given: a client
    of the store of the world. *)
Definition get_working_memory (session_id : string)
    (user_id namespace : option string) (recent_messages_limit : option Z)
  : M (option WorkingMemory.t) :=
  let key := Keys_working_memory_key session_id user_id namespace in
  try_except
    (get_working_memory_try key session_id user_id namespace
                            recent_messages_limit)
    (λ e,
       log ERROR ("Error getting working memory for session " +:+ session_id
                  +:+ ": " +:+ exn_str e);;
       mret None).

(** The check of [set_working_memory] on one memory record. *)
Definition check_id (memory : MemoryRecord.t) : result () :=
  if String.eqb (MemoryRecord.id memory) ""
  then Raise (ValueError "All memory records in working memory must have an ID")
  else Ok ().

(** [set_working_memory(working_memory, redis_client)], for a
    [redis_client] that is given. The call returns nothing; the result
    here is the object the caller passed, as the call leaves it, its
    [updated_at] stamped. *)
Definition set_working_memory (working_memory : WorkingMemory.t)
  : M WorkingMemory.t :=
  (* Validate that all memories have id *)
  lift (for_each check_id (WorkingMemory.memories working_memory));;
  let key := Keys_working_memory_key (WorkingMemory.session_id working_memory)
               (WorkingMemory.user_id working_memory)
               (WorkingMemory.namespace working_memory) in
  (* Update the updated_at timestamp *)
  now_ ← now;
  let working_memory := WorkingMemory.set_updated_at now_ working_memory in
  (* Convert to JSON-serializable format with timestamp conversion *)
  let data := wire_form working_memory in
  try_except
    (match WorkingMemory.ttl_seconds working_memory with
     | Some ttl =>
         (* Store with TTL *)
         redis_setex key ttl (json_dumps data);;
         log INFO ("Set working memory for session "
                   +:+ WorkingMemory.session_id working_memory
                   +:+ " with TTL " +:+ pretty ttl +:+ "s")
     | None =>
         redis_set key (json_dumps data);;
         log INFO ("Set working memory for session "
                   +:+ WorkingMemory.session_id working_memory +:+ " with no TTL")
     end)
    (λ e,
       log ERROR ("Error setting working memory for session "
                  +:+ WorkingMemory.session_id working_memory
                  +:+ ": " +:+ exn_str e);;
       raise e);;
  mret working_memory.

(** [delete_working_memory(session_id, user_id, namespace, redis_client)],
    for a [redis_client] that is given. *)
Definition delete_working_memory (session_id : string)
    (user_id namespace : option string) : M () :=
  let key := Keys_working_memory_key session_id user_id namespace in
  try_except
    (redis_delete key;;
     log INFO ("Deleted working memory for session " +:+ session_id))
    (λ e,
       log ERROR ("Error deleting working memory for session " +:+ session_id
                  +:+ ": " +:+ exn_str e);;
       raise e).

End WorkingMemoryModule.

(** Lines 96 to 97, 197 to 198 and 276 to 277, ahead of everything else in
    [get_working_memory], [set_working_memory] and [delete_working_memory]:
    [if not redis_client: redis_client = await get_redis_conn()].
    [get_redis_conn] is of [agent_memory_server.utils.redis], which src/
    does not hold; it is a coroutine, taken here as it comes. The three
    calls above are calls that are given their client;
    [without_client get_redis_conn call] is such a call given none. *)
Definition without_client {A} (get_redis_conn : M ()) (call : M A) : M A :=
  get_redis_conn;; call.

(** ** Notions used in the statements *)

(** The message a long-term record stands for: the text before the leftmost
    ": " is the role, the text after it the content; no message when the
    text has no ": ". This is the body of the loop of [parse_memories], as
    a function ([parse_memories_eq] below). *)
Definition message_of {lowering : Lower} (memory : MemoryRecord.t)
  : option MemoryMessage.t :=
  match split_first ": " (MemoryRecord.text memory) with
  | Some (role, content) =>
      Some (MemoryMessage.mk (MemoryRecord.id memory) (str_lower role) content
              (MemoryRecord.created_at memory)
              (MemoryRecord.persisted_at memory))
  | None => None
  end.

(** The warning logged for a record that is skipped. *)
Definition skip_warning (memory : MemoryRecord.t) : level * string :=
  (WARNING, "Skipping malformed message memory: "
            +:+ MemoryRecord.id memory +:+ " - " +:+ MemoryRecord.text memory).

Definition skipped (memory : MemoryRecord.t) : bool :=
  negb (str_in ": " (MemoryRecord.text memory)).

(** The warnings of a run of the loop: one for each record skipped. *)
Definition skip_warnings (memories : list MemoryRecord.t) : list (level * string) :=
  omap (λ memory, if skipped memory then Some (skip_warning memory) else None)
       memories.

(** The messages of a stored payload, in stored order: lines 129 and 138 to
    141 of [get_working_memory]. *)
Definition stored_messages (data : option bytes) : result (list MemoryMessage.t) :=
  working_memory_data ← json_loads data;
  messages_data ← py_get working_memory_data "messages" (JList []);
  items ← py_iter messages_data;
  for_each MemoryMessage.validate items.

(** The messages a call of [get_working_memory] chooses from: those of the
    stored payload on a hit, those of the records the search returns on a
    miss. *)
Definition candidates {lowering : Lower} (key : string)
    (search : SearchQuery → result (list MemoryRecord.t)) (session_id : string)
    (user_id namespace : option string) (recent_messages_limit : option Z)
    (w : World) : result (list MemoryMessage.t) :=
  if bytes_truthy (read_key key w) then stored_messages (read_key key w)
  else (λ results : list MemoryRecord.t, omap message_of results)
         <$> search (search_query session_id user_id namespace
                                  recent_messages_limit).

(** Lines 144 to 148: the messages [get_working_memory] keeps of those of
    a payload. *)
Definition recent_window (recent_messages_limit : option Z)
    (messages : list MemoryMessage.t) : list MemoryMessage.t :=
  match recent_messages_limit with
  | Some n =>
      if 0 <? n
      then slice_from (- n) (list_sort MemoryMessage.created_at false messages)
      else messages
  | None => messages
  end.

(** The order a sorted list is in: by rising keys, or by falling keys when
    the sort was reversed. *)
Definition in_order {A} (key : A → Z) (reverse : bool) (a b : A) : Prop :=
  if reverse then key b ≤ key a else key a ≤ key b.

(** The world after some more lines of log. *)
Definition add_logs (lines : list (level * string)) (w : World) : World :=
  mk_world (kv w) (zsets w) (fault w) (clock w) (io w) (logs w ++ lines).

(** Oldest first. *)
Definition chronological (l : list MemoryMessage.t) : Prop :=
  StronglySorted (λ a b, MemoryMessage.created_at a ≤ MemoryMessage.created_at b) l.

(** A document timestamp as it comes back from the wire: whole seconds. *)
Definition whole_seconds (t : datetime) : datetime := timestamp_int t * MICRO.

(** A document as it is read back after it was set at the instant [now_]:
    every field as it was, but for the three timestamps of the document. *)
Definition read_back (now_ : datetime) (d : WorkingMemory.t) : WorkingMemory.t :=
  {| WorkingMemory.messages := WorkingMemory.messages d;
     WorkingMemory.memories := WorkingMemory.memories d;
     WorkingMemory.context := WorkingMemory.context d;
     WorkingMemory.user_id := WorkingMemory.user_id d;
     WorkingMemory.tokens := WorkingMemory.tokens d;
     WorkingMemory.session_id := WorkingMemory.session_id d;
     WorkingMemory.namespace := WorkingMemory.namespace d;
     WorkingMemory.ttl_seconds := WorkingMemory.ttl_seconds d;
     WorkingMemory.data := WorkingMemory.data d;
     WorkingMemory.long_term_memory_strategy :=
       WorkingMemory.long_term_memory_strategy d;
     WorkingMemory.last_accessed := whole_seconds (WorkingMemory.last_accessed d);
     WorkingMemory.created_at := whole_seconds (WorkingMemory.created_at d);
     WorkingMemory.updated_at := whole_seconds now_ |}.

(** The exact round trip, for one document and one world: the document
    read back after the set is the document set, but for its [updated_at],
    whatever that has become. *)
Definition exact_round_trip {lowering : Lower}
    (working_memory_key : string → option string → option string → string)
    (d : WorkingMemory.t) (w : World) : Prop :=
  let w1 := snd (set_working_memory working_memory_key d w) in
  ∃ updated_at,
    fst (get_working_memory working_memory_key false (λ _, Ok [])
           (WorkingMemory.session_id d) (WorkingMemory.user_id d)
           (WorkingMemory.namespace d) None w1)
    = Ok (Some (WorkingMemory.set_updated_at updated_at d)).

(** The [created_at] of a reconstructed document is the [persisted_at] of
    the earliest of the messages that survived the parse, or the present
    instant when that message has none. *)
Definition created_at_of_earliest_parsed {lowering : Lower}
    (search : SearchQuery → result (list MemoryRecord.t)) (session_id : string)
    (user_id namespace : option string) (recent_messages_limit : option Z)
    (w : World) : Prop :=
  ∀ doc w',
    _reconstruct_working_memory_from_long_term search session_id user_id
      namespace recent_messages_limit w = (Ok (Some doc), w') →
    ∃ results earliest,
      search (search_query session_id user_id namespace recent_messages_limit)
      = Ok results
      ∧ earliest ∈ omap message_of results
      ∧ (∀ m, m ∈ omap message_of results →
              MemoryMessage.created_at earliest ≤ MemoryMessage.created_at m)
      ∧ WorkingMemory.created_at doc
        = default (clock w) (MemoryMessage.persisted_at earliest).

(** The call never raises: it returns, with a document or with [None]. *)
Definition never_raises {lowering : Lower}
    (working_memory_key : string → option string → option string → string)
    (index_all_messages_in_long_term_memory : bool)
    (search : SearchQuery → result (list MemoryRecord.t)) (session_id : string)
    (user_id namespace : option string) (recent_messages_limit : option Z)
    (w : World) : Prop :=
  ∃ r w',
    get_working_memory working_memory_key index_all_messages_in_long_term_memory
      search session_id user_id namespace recent_messages_limit w
    = (Ok r, w').

(** The store of two worlds is the same: the keyspace, the session
    indexes, the state of the connection and the instant. *)
Definition same_store (w w' : World) : Prop :=
  kv w' = kv w ∧ zsets w' = zsets w ∧ fault w' = fault w ∧ clock w' = clock w.

(** A coroutine that leaves the store as it is, and whose outcome is
    settled by the state of the connection, the instant and what the key
    [key] holds. *)
Definition reads_only {A} (key : string) (m : M A) : Prop :=
  (∀ w, same_store w (snd (m w)))
  ∧ (∀ w w', fault w = fault w' → clock w = clock w' →
             read_key key w = read_key key w' → fst (m w) = fst (m w')).

(** A coroutine that sends no command to the store. *)
Definition quiet {A} (m : M A) : Prop := ∀ w, io (snd (m w)) = io w.

(** A world at another instant. *)
Definition at_instant (t : datetime) (w : World) : World :=
  mk_world (kv w) (zsets w) (fault w) t (io w) (logs w).

(** The names [get_working_memory] looks up in a payload. *)
Definition document_keys : list string :=
  ["memories"; "messages"; "long_term_memory_strategy"; "context"; "user_id";
   "tokens"; "ttl_seconds"; "data"; "last_accessed"; "created_at"; "updated_at"].

(** The document of a payload that has none of these names, read at the
    instant [now_] for a session and a namespace. *)
Definition default_document (session_id : string) (namespace : option string)
    (now_ : datetime) : WorkingMemory.t :=
  {| WorkingMemory.messages := [];
     WorkingMemory.memories := [];
     WorkingMemory.context := None;
     WorkingMemory.user_id := None;
     WorkingMemory.tokens := 0;
     WorkingMemory.session_id := session_id;
     WorkingMemory.namespace := namespace;
     WorkingMemory.ttl_seconds := None;
     WorkingMemory.data := [];
     WorkingMemory.long_term_memory_strategy := MemoryStrategyConfig.default_config;
     WorkingMemory.last_accessed := whole_seconds now_;
     WorkingMemory.created_at := whole_seconds now_;
     WorkingMemory.updated_at := whole_seconds now_ |}.

(** The page of [limit] members from rank [offset] on. *)
Definition page {A} (limit offset : Z) (l : list A) : list A :=
  take (Z.to_nat limit) (drop (Z.to_nat offset) l).

(** ** Sample inputs *)

(** A key deriver for the examples: the three fields joined by colons. *)
Definition sample_working_memory_key (session_id : string)
    (user_id namespace : option string) : string :=
  "working_memory:" +:+ fmt namespace +:+ ":" +:+ fmt user_id +:+ ":" +:+ session_id.

Definition sample_sessions_key (namespace : option string) : string :=
  "sessions:" +:+ fmt namespace.

(** The texts of the examples are ASCII. *)
Global Instance sample_lower : Lower := lower_ascii.

(** An empty store, reachable, at some instant of November 2023. *)
Definition empty_world : World :=
  mk_world ∅ ∅ None 1700000000123456 [] [].

(** A long-term index that holds nothing, and one that is down. *)
Definition no_memories (q : SearchQuery) : result (list MemoryRecord.t) := Ok [].

Definition search_down (q : SearchQuery) : result (list MemoryRecord.t) :=
  Raise (SearchError "search backend unavailable").

(** A [get_redis_conn] that cannot build its client. *)
Definition no_connection : M () :=
  raise (ValueError "Redis URL must specify one of the following schemes").

(** A long-term search that is awaited when the task of the caller is
    cancelled. *)
Definition cancelled_search (q : SearchQuery) : result (list MemoryRecord.t) :=
  RaiseBase CancelledError.

(** Three long-term records of a session: two messages, stored most recent
    first, and a text that is no message. *)
Definition sample_records : list MemoryRecord.t :=
  [MemoryRecord.mk "r2" "Assistant: hello: you" 101000000 None;
   MemoryRecord.mk "r0" "no separator here" 99000000 None;
   MemoryRecord.mk "r1" "user: hi" 100000000 (Some 100500000)].

(** Three records again, the first with a role in capitals and a content
    that holds a ": " of its own. *)
Definition shouted_records : list MemoryRecord.t :=
  [MemoryRecord.mk "r3" "SYSTEM Prompt: Be Brief: always" 102000000 None;
   MemoryRecord.mk "r0" "no separator here" 99000000 None;
   MemoryRecord.mk "r1" "user: hi" 100000000 (Some 100500000)].

Definition sample_search (q : SearchQuery) : result (list MemoryRecord.t) :=
  Ok sample_records.

(** A long-term index whose only record of the session is no message. *)
Definition malformed_search (q : SearchQuery) : result (list MemoryRecord.t) :=
  Ok [MemoryRecord.mk "r0" "no separator here" 99000000 None].

(** A document with a message, a memory record and sub-second timestamps. *)
Definition sample_document : WorkingMemory.t :=
  {| WorkingMemory.messages :=
       [MemoryMessage.mk "m1" "user" "hi" 1699999990250000 None;
        MemoryMessage.mk "m2" "assistant" "hello" 1699999991750000 (Some 1699999992000000)];
     WorkingMemory.memories :=
       [MemoryRecord.mk "mem1" "likes tea" 1699999980000000 None];
     WorkingMemory.context := Some "greeting";
     WorkingMemory.user_id := Some "alice";
     WorkingMemory.tokens := 12;
     WorkingMemory.session_id := "s1";
     WorkingMemory.namespace := Some "demo";
     WorkingMemory.ttl_seconds := None;
     WorkingMemory.data := [("topic", JStr "tea")];
     WorkingMemory.long_term_memory_strategy := MemoryStrategyConfig.default_config;
     WorkingMemory.last_accessed := 1699999995500000;
     WorkingMemory.created_at := 1699999990250000;
     WorkingMemory.updated_at := 1699999995500000 |}.

(** The same document, created in the last microsecond of the year 9999,
    at [datetime.max]. *)
Definition document_of_the_last_instant : WorkingMemory.t :=
  {| WorkingMemory.messages := WorkingMemory.messages sample_document;
     WorkingMemory.memories := WorkingMemory.memories sample_document;
     WorkingMemory.context := WorkingMemory.context sample_document;
     WorkingMemory.user_id := WorkingMemory.user_id sample_document;
     WorkingMemory.tokens := WorkingMemory.tokens sample_document;
     WorkingMemory.session_id := WorkingMemory.session_id sample_document;
     WorkingMemory.namespace := WorkingMemory.namespace sample_document;
     WorkingMemory.ttl_seconds := WorkingMemory.ttl_seconds sample_document;
     WorkingMemory.data := WorkingMemory.data sample_document;
     WorkingMemory.long_term_memory_strategy :=
       WorkingMemory.long_term_memory_strategy sample_document;
     WorkingMemory.last_accessed := WorkingMemory.last_accessed sample_document;
     WorkingMemory.created_at := 253402300799999999;
     WorkingMemory.updated_at := WorkingMemory.updated_at sample_document |}.

(** The same document with a memory record that has no id. *)
Definition document_without_id : WorkingMemory.t :=
  {| WorkingMemory.messages := WorkingMemory.messages sample_document;
     WorkingMemory.memories :=
       [MemoryRecord.mk "mem1" "likes tea" 1699999980000000 None;
        MemoryRecord.mk "" "no id" 1699999981000000 None];
     WorkingMemory.context := WorkingMemory.context sample_document;
     WorkingMemory.user_id := WorkingMemory.user_id sample_document;
     WorkingMemory.tokens := WorkingMemory.tokens sample_document;
     WorkingMemory.session_id := WorkingMemory.session_id sample_document;
     WorkingMemory.namespace := WorkingMemory.namespace sample_document;
     WorkingMemory.ttl_seconds := WorkingMemory.ttl_seconds sample_document;
     WorkingMemory.data := WorkingMemory.data sample_document;
     WorkingMemory.long_term_memory_strategy :=
       WorkingMemory.long_term_memory_strategy sample_document;
     WorkingMemory.last_accessed := WorkingMemory.last_accessed sample_document;
     WorkingMemory.created_at := WorkingMemory.created_at sample_document;
     WorkingMemory.updated_at := WorkingMemory.updated_at sample_document |}.

(** A store whose index of the default namespace holds five sessions. *)
Definition five_sessions : World :=
  mk_world ∅ {[ sample_sessions_key None :=
                  [MBytes "s1"; MBytes "s2"; MBytes "s3"; MBytes "s4"; MBytes "s5"] ]}
           None 1700000000123456 [] [].

(** A store that holds, under the key of session "s1", a payload written
    for another session, another namespace and the user "bob", with three
    messages out of order. *)
Definition foreign_payload : json :=
  JObj [("messages",
          JList [MemoryMessage.model_dump (MemoryMessage.mk "b" "user" "second" 20000000 None);
                 MemoryMessage.model_dump (MemoryMessage.mk "c" "user" "third" 30000000 None);
                 MemoryMessage.model_dump (MemoryMessage.mk "a" "user" "first" 10000000 None)]);
        ("session_id", JStr "other-session");
        ("namespace", JStr "other-namespace");
        ("user_id", JStr "bob")].

Definition foreign_world : World :=
  mk_world {[ sample_working_memory_key "s1" None None :=
                mk_entry (JsonText foreign_payload) None ]}
           ∅ None 1700000000123456 [] [].

(** A store that holds text that is not JSON under that key. *)
Definition garbled_world : World :=
  mk_world {[ sample_working_memory_key "s1" None None :=
                mk_entry (NotJson "{not json") None ]}
           ∅ None 1700000000123456 [] [].

(** The document read from [foreign_world] for session "s1", no user and
    no namespace: every timestamp the payload leaves out is the present
    second. *)
Definition foreign_document (messages : list MemoryMessage.t) : WorkingMemory.t :=
  {| WorkingMemory.messages := messages;
     WorkingMemory.memories := [];
     WorkingMemory.context := None;
     WorkingMemory.user_id := Some "bob";
     WorkingMemory.tokens := 0;
     WorkingMemory.session_id := "s1";
     WorkingMemory.namespace := None;
     WorkingMemory.ttl_seconds := None;
     WorkingMemory.data := [];
     WorkingMemory.long_term_memory_strategy := MemoryStrategyConfig.default_config;
     WorkingMemory.last_accessed := 1700000000000000;
     WorkingMemory.created_at := 1700000000000000;
     WorkingMemory.updated_at := 1700000000000000 |}.

(** A store that cannot be reached. *)
Definition unreachable_world : World :=
  mk_world ∅ ∅ (Some (RedisError "Connection refused")) 1700000000123456 [] [].

(** The sample document with a time to live of one minute. *)
Definition sample_document_ttl : WorkingMemory.t :=
  {| WorkingMemory.messages := WorkingMemory.messages sample_document;
     WorkingMemory.memories := WorkingMemory.memories sample_document;
     WorkingMemory.context := WorkingMemory.context sample_document;
     WorkingMemory.user_id := WorkingMemory.user_id sample_document;
     WorkingMemory.tokens := WorkingMemory.tokens sample_document;
     WorkingMemory.session_id := WorkingMemory.session_id sample_document;
     WorkingMemory.namespace := WorkingMemory.namespace sample_document;
     WorkingMemory.ttl_seconds := Some 60;
     WorkingMemory.data := WorkingMemory.data sample_document;
     WorkingMemory.long_term_memory_strategy :=
       WorkingMemory.long_term_memory_strategy sample_document;
     WorkingMemory.last_accessed := WorkingMemory.last_accessed sample_document;
     WorkingMemory.created_at := WorkingMemory.created_at sample_document;
     WorkingMemory.updated_at := WorkingMemory.updated_at sample_document |}.

(** Another document of the same session, user and namespace. *)
Definition second_document : WorkingMemory.t :=
  {| WorkingMemory.messages := [];
     WorkingMemory.memories := [];
     WorkingMemory.context := Some "farewell";
     WorkingMemory.user_id := WorkingMemory.user_id sample_document;
     WorkingMemory.tokens := 3;
     WorkingMemory.session_id := WorkingMemory.session_id sample_document;
     WorkingMemory.namespace := WorkingMemory.namespace sample_document;
     WorkingMemory.ttl_seconds := None;
     WorkingMemory.data := [];
     WorkingMemory.long_term_memory_strategy := MemoryStrategyConfig.default_config;
     WorkingMemory.last_accessed := 1699999999000000;
     WorkingMemory.created_at := 1699999998000000;
     WorkingMemory.updated_at := 1699999999000000 |}.

(** A store that holds, under the key of session "s1", a payload from
    another writer: none of the names of a document, two names of its own. *)
Definition bare_world : World :=
  mk_world {[ sample_working_memory_key "s1" None None :=
                mk_entry (JsonText (JObj [("version", JInt 2);
                                          ("session_id", JStr "other")])) None ]}
           ∅ None 1700000000123456 [] [].

(** A store that holds, under the key of the document without id, the wire
    form of that document. *)
Definition world_without_id : World :=
  mk_world {[ sample_working_memory_key "s1" (Some "alice") (Some "demo") :=
                mk_entry (JsonText (wire_form document_without_id)) None ]}
           ∅ None 1700000000123456 [] [].

(** The store that holds the sample document, set at the instant of
    [empty_world]. *)
Definition stored_world : World :=
  snd (set_working_memory sample_working_memory_key sample_document empty_world).

(** * Properties *)

(** ** The monad *)

Lemma bind_unfold {A B} (m : M A) (f : A → M B) (w : World) :
  (m ≫= f) w = match m w with
                | (Ok a, w') => f a w'
                | (Raise e, w') => (Raise e, w')
                | (RaiseBase b, w') => (RaiseBase b, w')
                end.
Proof. reflexivity. Qed.

Lemma bind_lift_Ok {A B} (a : A) (f : A → M B) (w : World) :
  (lift (Ok a) ≫= f) w = f a w.
Proof. reflexivity. Qed.

(** A bind returns only if both of its halves do. *)
Lemma bind_Ok_inv {A B} (m : M A) (f : A → M B) (w w' : World) (b : B) :
  (m ≫= f) w = (Ok b, w') →
  ∃ a w1, m w = (Ok a, w1) ∧ f a w1 = (Ok b, w').
Proof.
  rewrite bind_unfold. destruct (m w) as [[a|e|b0] w1]; [eauto | discriminate..].
Qed.

Lemma result_bind_Ok_inv {A B} (r : result A) (f : A → result B) (b : B) :
  r ≫= f = Ok b → ∃ a, r = Ok a ∧ f a = Ok b.
Proof. destruct r as [a|e|b0]; [eauto | discriminate..]. Qed.

Lemma for_each_cons {A B} (f : A → result B) (x : A) (xs : list A) :
  for_each f (x :: xs) = (y ← f x; ys ← for_each f xs; Ok (y :: ys)).
Proof. reflexivity. Qed.

(** ** Listing sessions *)

(** Case analysis on every comparison of integers in the goal, keeping the
    cases arithmetic allows. *)
Ltac case_comparisons :=
  repeat match goal with
         | |- context [Z.ltb ?a ?b] => destruct (Z.ltb_spec a b); try lia
         | |- context [Z.leb ?a ?b] => destruct (Z.leb_spec a b); try lia
         end.

(** From rank [start] on, a window of [n] ranks is what ZRANGE returns for
    the indices [start] and [start + n - 1]. *)
Lemma zrange_window {A} (start n : Z) (l : list A) :
  0 ≤ start → 0 < n →
  zrange start (start + n - 1) l = take (Z.to_nat n) (drop (Z.to_nat start) l).
Proof.
  intros Hs Hn. unfold zrange.
  destruct (Z.ltb_spec start 0) as [?|_]; [lia|].
  destruct (Z.ltb_spec (start + n - 1) 0) as [?|_]; [lia|].
  destruct (Z.ltb_spec start 0) as [?|_]; [lia|].
  destruct (Z.ltb_spec (start + n - 1) start) as [?|_]; [lia|]. simpl.
  destruct (Z.leb_spec (Z.of_nat (length l)) start) as [Hlen|Hlen].
  - rewrite drop_ge by lia. by rewrite take_nil.
  - destruct (Z.leb_spec (Z.of_nat (length l)) (start + n - 1)) as [Hend|Hend].
    + rewrite !take_ge; [done | | ]; rewrite length_drop; lia.
    + f_equal. lia.
Qed.

(** With both indices at their lowest, [limit = 0] and [offset = 0], the
    upper index is -1, which ZRANGE reads as the last rank. *)
Lemma zrange_zero_minus_one {A} (l : list A) : zrange 0 (0 + 0 - 1) l = l.
Proof.
  unfold zrange. cbv zeta. change (0 + 0 - 1) with (-1).
  change (0 <? 0) with false. change (-1 <? 0) with true. cbv iota.
  destruct l as [|x l]; [done|].
  set (n := Z.of_nat (length (x :: l))).
  assert (0 < n) as Hn by (subst n; simpl; lia).
  case_comparisons. simpl orb. cbv iota.
  apply take_ge. subst n. simpl in *. lia.
Qed.

(** A page of a positive size: the total, and the identifiers of ranks
    [offset] to [offset + limit - 1]. *)
Lemma list_sessions_page (sessions_key : option string → string)
    (limit offset : Z) (namespace user_id : option string) (w : World) :
  fault w = None → 0 ≤ offset → 0 < limit →
  let members := default [] (zsets w !! sessions_key namespace) in
  fst (list_sessions sessions_key limit offset namespace user_id w)
  = Ok (Z.of_nat (length members),
        decode_member <$> take (Z.to_nat limit) (drop (Z.to_nat offset) members)).
Proof.
  intros Hf Ho Hl members. unfold list_sessions.
  rewrite bind_unfold. unfold redis_pipeline_zcard_zrange, send.
  rewrite Hf. simpl. by rewrite zrange_window.
Qed.

(** The two pages of the spec, on an index of five sessions. *)
Example list_sessions_first_page :
  fst (list_sessions sample_sessions_key 2 0 None None five_sessions)
  = Ok (5, ["s1"; "s2"]).
Proof. vm_compute. reflexivity. Qed.

Example list_sessions_last_page :
  fst (list_sessions sample_sessions_key 2 4 None None five_sessions)
  = Ok (5, ["s5"]).
Proof. vm_compute. reflexivity. Qed.

(** C8, at [limit = 0] and [offset = 0]: the page asked for holds at most
    zero identifiers, and the call returns all five of the index. *)
Theorem list_sessions_limit_zero_returns_all :
  fst (list_sessions sample_sessions_key 0 0 None None five_sessions)
  = Ok (5, ["s1"; "s2"; "s3"; "s4"; "s5"]).
Proof. vm_compute. reflexivity. Qed.

(** On any index, a page of size zero at offset zero is the whole index. *)
Lemma list_sessions_limit_zero (sessions_key : option string → string)
    (namespace user_id : option string) (w : World) :
  fault w = None →
  let members := default [] (zsets w !! sessions_key namespace) in
  fst (list_sessions sessions_key 0 0 namespace user_id w)
  = Ok (Z.of_nat (length members), decode_member <$> members).
Proof.
  intros Hf members. unfold list_sessions.
  rewrite bind_unfold. unfold redis_pipeline_zcard_zrange, send.
  rewrite Hf. simpl fst. cbv zeta. by rewrite zrange_zero_minus_one.
Qed.

(** C9: [list_sessions] does not look at [user_id]: two calls that differ
    in it only return the same total and the same identifiers (and leave
    the same world). *)
Theorem list_sessions_ignores_user_id (sessions_key : option string → string)
    (limit offset : Z) (namespace user_id1 user_id2 : option string) (w : World) :
  list_sessions sessions_key limit offset namespace user_id1 w
  = list_sessions sessions_key limit offset namespace user_id2 w.
Proof. reflexivity. Qed.

(** ** Writing *)

(** The check of the ids raises as soon as one id is empty, and always the
    same error. *)
Lemma check_ids_raise (memories : list MemoryRecord.t) :
  (∃ memory, memory ∈ memories ∧ MemoryRecord.id memory = "") →
  for_each check_id memories
  = Raise (ValueError "All memory records in working memory must have an ID").
Proof.
  intros (m & Hin & Hid). induction memories as [|m0 l IH]; [by inv Hin|].
  rewrite for_each_cons. change (check_id m0) with
    (if String.eqb (MemoryRecord.id m0) ""
     then Raise (ValueError "All memory records in working memory must have an ID")
     else Ok ()).
  destruct (String.eqb (MemoryRecord.id m0) "") eqn:E; [reflexivity|].
  apply elem_of_cons in Hin as [->|Hin].
  - apply String.eqb_neq in E. done.
  - rewrite IH by done. reflexivity.
Qed.

Lemma check_ids_pass (memories : list MemoryRecord.t) :
  (∀ memory, memory ∈ memories → MemoryRecord.id memory ≠ "") →
  ∃ us, for_each check_id memories = Ok us.
Proof.
  induction memories as [|m0 l IH]; intros Hall; [by eexists|].
  destruct IH as [us Hus]; [intros m Hm; apply Hall; by right|].
  rewrite for_each_cons, Hus. change (check_id m0) with
    (if String.eqb (MemoryRecord.id m0) ""
     then Raise (ValueError "All memory records in working memory must have an ID")
     else Ok ()).
  destruct (String.eqb (MemoryRecord.id m0) "") eqn:E.
  - apply String.eqb_eq in E. destruct (Hall m0); [by left | done].
  - by eexists.
Qed.

(** C2: a document with a memory record whose id is empty is refused with
    the error of the check, raised before anything else is done: the world
    after the call is the world before it, so no command was sent to the
    store, the value under the key of the session is the one it was, and
    nothing was logged. (The spec's ValidationError is, in this module,
    Python's ValueError with the message below.) *)
Theorem set_working_memory_rejects_empty_id
    (working_memory_key : string → option string → option string → string)
    (working_memory : WorkingMemory.t) (w : World) :
  (∃ memory, memory ∈ WorkingMemory.memories working_memory
             ∧ MemoryRecord.id memory = "") →
  set_working_memory working_memory_key working_memory w
  = (Raise (ValueError "All memory records in working memory must have an ID"), w).
Proof.
  intros H. unfold set_working_memory.
  rewrite bind_unfold. unfold lift. by rewrite (check_ids_raise _ H).
Qed.

Lemma set_working_memory_rejects_empty_id_witness :
  set_working_memory sample_working_memory_key document_without_id empty_world
  = (Raise (ValueError "All memory records in working memory must have an ID"),
     empty_world).
Proof.
  apply set_working_memory_rejects_empty_id.
  exists (MemoryRecord.mk "" "no id" 1699999981000000 None).
  split; [|reflexivity]. simpl. apply elem_of_cons. right.
  apply elem_of_cons. by left.
Defined.

(** ** Strings *)

Lemma append_cons (c : ascii) (a x : string) :
  String c a +:+ x = String c (a +:+ x).
Proof. reflexivity. Qed.

Lemma append_nil (x : string) : EmptyString +:+ x = x.
Proof. reflexivity. Qed.

Lemma strip_prefix_Some (p s r : string) :
  strip_prefix p s = Some r ↔ s = p +:+ r.
Proof.
  revert s. induction p as [|a p IH]; intros s;
    rewrite ?append_cons, ?append_nil; simpl.
  - split; [intros [= ->] | intros ->]; done.
  - destruct s as [|b s]; [split; discriminate|].
    destruct (Ascii.eqb_spec a b) as [->|Hne].
    + rewrite IH. split; [intros -> | intros [= ->]]; done.
    + split; [discriminate | intros [= ? _]; congruence].
Qed.

Lemma strip_prefix_None (p s : string) :
  strip_prefix p s = None ↔ ∀ r, s ≠ p +:+ r.
Proof.
  split.
  - intros Hn r Hr. apply strip_prefix_Some in Hr. congruence.
  - intros Hall. destruct (strip_prefix p s) as [r|] eqn:E; [|done].
    apply strip_prefix_Some in E. by destruct (Hall r).
Qed.

(** [split_first] on its two shapes of string. *)
Lemma split_first_nil (sep : string) :
  split_first sep EmptyString
  = match strip_prefix sep EmptyString with
    | Some rest => Some (EmptyString, rest)
    | None => None
    end.
Proof. reflexivity. Qed.

Lemma split_first_cons (sep : string) (c : ascii) (s : string) :
  split_first sep (String c s)
  = match strip_prefix sep (String c s) with
    | Some rest => Some (EmptyString, rest)
    | None =>
        match split_first sep s with
        | Some (a, b) => Some (String c a, b)
        | None => None
        end
    end.
Proof. reflexivity. Qed.

(** What [split_first] returns is a split at an occurrence of [sep]. *)
Lemma split_first_Some (sep s a b : string) :
  split_first sep s = Some (a, b) → s = a +:+ sep +:+ b.
Proof.
  revert a. induction s as [|c s IH]; intros a.
  - rewrite split_first_nil.
    destruct (strip_prefix sep EmptyString) as [r|] eqn:E; [|discriminate].
    intros [= <- <-]. by apply strip_prefix_Some in E.
  - rewrite split_first_cons.
    destruct (strip_prefix sep (String c s)) as [r|] eqn:E.
    + intros [= <- <-]. by apply strip_prefix_Some in E.
    + destruct (split_first sep s) as [[a1 b1]|]; [|discriminate].
      intros [= <- <-]. rewrite append_cons. f_equal. by apply IH.
Qed.

(** ... at the leftmost one. *)
Lemma split_first_leftmost (sep s a b : string) :
  split_first sep s = Some (a, b) →
  ∀ a' b', s = a' +:+ sep +:+ b' → (String.length a ≤ String.length a')%nat.
Proof.
  revert a. induction s as [|c s IH]; intros a.
  - rewrite split_first_nil.
    destruct (strip_prefix sep EmptyString); [|discriminate].
    intros [= <- <-] a' b' _. simpl. lia.
  - rewrite split_first_cons.
    destruct (strip_prefix sep (String c s)) as [r|] eqn:E.
    + intros [= <- <-] a' b' _. simpl. lia.
    + destruct (split_first sep s) as [[a1 b1]|] eqn:E1; [|discriminate].
      intros [= <- <-] a' b' Hs. destruct a' as [|c' a'].
      * rewrite append_nil in Hs. rewrite strip_prefix_None in E.
        by destruct (E b').
      * rewrite append_cons in Hs. injection Hs as _ Hs. simpl.
        specialize (IH a1 eq_refl a' b' Hs). lia.
Qed.

(** [split_first] finds no occurrence only if there is none. *)
Lemma split_first_None (sep s : string) :
  split_first sep s = None → ∀ a b, s ≠ a +:+ sep +:+ b.
Proof.
  induction s as [|c s IH].
  - rewrite split_first_nil.
    destruct (strip_prefix sep EmptyString) as [r|] eqn:E; [discriminate|].
    intros _ a b Hs. destruct a as [|c a]; [|discriminate].
    rewrite append_nil in Hs. rewrite strip_prefix_None in E.
    by destruct (E b).
  - rewrite split_first_cons.
    destruct (strip_prefix sep (String c s)) as [r|] eqn:E; [discriminate|].
    destruct (split_first sep s) as [[a1 b1]|] eqn:E1; [discriminate|].
    intros _ a b Hs. destruct a as [|c' a].
    + rewrite append_nil in Hs. rewrite strip_prefix_None in E.
      by destruct (E b).
    + rewrite append_cons in Hs. injection Hs as _ Hs.
      by destruct (IH eq_refl a b).
Qed.

Lemma append_inj_length (a a' x x' : string) :
  String.length a = String.length a' → a +:+ x = a' +:+ x' → a = a' ∧ x = x'.
Proof.
  revert a'. induction a as [|c a IH]; intros [|c' a'] Hl He;
    try discriminate; rewrite ?append_cons, ?append_nil in He.
  - done.
  - injection He as -> He. injection Hl as Hl.
    destruct (IH a' Hl He) as [-> ->]. done.
Qed.

(** The split at the leftmost occurrence is the one [split_first] returns. *)
Lemma split_first_complete (sep s a b : string) :
  s = a +:+ sep +:+ b →
  (∀ a' b', s = a' +:+ sep +:+ b' → (String.length a ≤ String.length a')%nat) →
  split_first sep s = Some (a, b).
Proof.
  intros Hs Hleft. destruct (split_first sep s) as [[a0 b0]|] eqn:E.
  - pose proof (split_first_Some _ _ _ _ E) as Hs0.
    pose proof (split_first_leftmost _ _ _ _ E a b Hs) as H1.
    pose proof (Hleft a0 b0 Hs0) as H2.
    assert (String.length a0 = String.length a) as Hl by lia.
    rewrite Hs in Hs0. symmetry in Hs0.
    destruct (append_inj_length _ _ _ _ Hl Hs0) as [-> Hx].
    destruct (append_inj_length sep sep b0 b eq_refl Hx) as [_ ->]. done.
  - by destruct (split_first_None _ _ E a b).
Qed.

(** The lower case of a text of ASCII characters has the length of the
    text, is the lower case of its parts one after the other, and is its
    own lower case. *)
Lemma lower_ascii_length (s : string) :
  String.length (lower_ascii s) = String.length s.
Proof. induction s as [|c s IH]; simpl; congruence. Qed.

Lemma lower_ascii_app (a b : string) :
  lower_ascii (a +:+ b) = lower_ascii a +:+ lower_ascii b.
Proof.
  induction a as [|c a IH]; [done|].
  rewrite append_cons. simpl. by rewrite IH.
Qed.

Lemma ascii_lower_idemp (c : ascii) : ascii_lower (ascii_lower c) = ascii_lower c.
Proof. by destruct c as [[] [] [] [] [] [] [] []]. Qed.

Lemma lower_ascii_idemp (s : string) : lower_ascii (lower_ascii s) = lower_ascii s.
Proof.
  induction s as [|c s IH]; [done|]. simpl. by rewrite ascii_lower_idemp, IH.
Qed.

Example lower_ascii_sample :
  lower_ascii "SYSTEM Prompt 42: [A-Z]" = "system prompt 42: [a-z]".
Proof. reflexivity. Qed.

(** ** Sorting and slicing *)

Section SortFacts.
Context {A : Type} (key : A → Z).

Lemma insert_by_perm (reverse : bool) (x : A) (l : list A) :
  insert_by key reverse x l ≡ₚ x :: l.
Proof.
  induction l as [|y l IH]; simpl; [done|].
  destruct (if reverse then key y <=? key x else key x <=? key y); [done|].
  rewrite IH. apply Permutation_swap.
Qed.

Lemma list_sort_perm (reverse : bool) (l : list A) :
  list_sort key reverse l ≡ₚ l.
Proof.
  induction l as [|x l IH]; simpl; [done|].
  unfold list_sort in *. simpl. by rewrite insert_by_perm, IH.
Qed.

Lemma list_sort_length (reverse : bool) (l : list A) :
  length (list_sort key reverse l) = length l.
Proof. apply Permutation_length, list_sort_perm. Qed.

Lemma insert_by_sorted (reverse : bool) (x : A) (l : list A) :
  StronglySorted (in_order key reverse) l →
  StronglySorted (in_order key reverse) (insert_by key reverse x l).
Proof.
  induction 1 as [|y l Hs IH Hy]; simpl; [repeat constructor|].
  destruct (if reverse then key y <=? key x else key x <=? key y) eqn:E.
  - constructor; [by constructor|]. constructor.
    + unfold in_order. destruct reverse; lia.
    + eapply Forall_impl; [exact Hy|]. intros z.
      unfold in_order. destruct reverse; lia.
  - constructor; [done|].
    rewrite (Forall_forall (in_order key reverse y)). intros z Hz.
    rewrite insert_by_perm in Hz. apply elem_of_cons in Hz as [->|Hz].
    + unfold in_order. destruct reverse; lia.
    + by apply (proj1 (Forall_forall _ _) Hy).
Qed.

Lemma list_sort_sorted (reverse : bool) (l : list A) :
  StronglySorted (in_order key reverse) (list_sort key reverse l).
Proof.
  induction l as [|x l IH]; [constructor|]. by apply insert_by_sorted.
Qed.

Lemma reverse_sorted (r : bool) (l : list A) :
  StronglySorted (in_order key r) l → StronglySorted (in_order key (negb r)) (reverse l).
Proof.
  induction 1 as [|x l Hs IH Hx]; [constructor|].
  rewrite reverse_cons. apply StronglySorted_app_2; [|done|repeat constructor].
  intros a b Ha Hb. rewrite elem_of_reverse in Ha.
  apply list_elem_of_singleton in Hb as ->.
  pose proof (proj1 (Forall_forall _ _) Hx a Ha) as Hxa.
  unfold in_order in *. by destruct r.
Qed.

End SortFacts.

Lemma slice_from_neg {A} (n : Z) (l : list A) :
  0 < n → slice_from (- n) l = drop (length l - Z.to_nat n) l.
Proof.
  intros Hn. unfold slice_from. cbv zeta.
  destruct (Z.ltb_spec (- n) 0) as [_|?]; [|lia]. f_equal. lia.
Qed.

Lemma slice_to_pos {A} (n : Z) (l : list A) :
  0 ≤ n → slice_to n l = take (Z.to_nat n) l.
Proof.
  intros Hn. unfold slice_to. cbv zeta.
  destruct (Z.ltb_spec n 0) as [?|_]; [lia|].
  destruct (Z.le_ge_cases n (Z.of_nat (length l))).
  - f_equal. lia.
  - rewrite !take_ge; [done | lia | lia].
Qed.

(** ** Reconstruction *)

Lemma add_logs_nil (w : World) : add_logs [] w = w.
Proof. destruct w. unfold add_logs. simpl. by rewrite app_nil_r. Qed.

Lemma add_logs_with_log (l : level) (msg : string)
    (lines : list (level * string)) (w : World) :
  add_logs lines (with_log l msg w) = add_logs ((l, msg) :: lines) w.
Proof. unfold add_logs, with_log. simpl. by rewrite <- app_assoc. Qed.

Lemma add_logs_app (lines1 lines2 : list (level * string)) (w : World) :
  add_logs lines2 (add_logs lines1 w) = add_logs (lines1 ++ lines2) w.
Proof. unfold add_logs. simpl. by rewrite <- app_assoc. Qed.

Lemma with_log_add_logs (l : level) (msg : string) (w : World) :
  with_log l msg w = add_logs [(l, msg)] w.
Proof. reflexivity. Qed.

(** The loop over the records never raises: it returns the messages of the
    records that stand for one, in the order of the records, after the
    messages it started with, and it logs a warning for each record it
    skips. *)
Lemma parse_memories_eq {lowering : Lower} (memories : list MemoryRecord.t)
    (messages : list MemoryMessage.t) (w : World) :
  parse_memories memories messages w
  = (Ok (messages ++ omap message_of memories),
     add_logs (skip_warnings memories) w).
Proof.
  revert messages w. induction memories as [|memory rest IH]; intros messages w.
  - simpl. by rewrite app_nil_r, add_logs_nil.
  - simpl parse_memories. unfold skip_warnings, skipped, message_of.
    simpl omap. unfold str_in, str_split1.
    destruct (split_first ": " (MemoryRecord.text memory)) as [[role content]|].
    + rewrite IH. simpl. by rewrite <- app_assoc.
    + rewrite bind_unfold. unfold log at 1. rewrite IH.
      by rewrite add_logs_with_log.
Qed.

Section Reconstruction.
Context {lowering : Lower}.
Variable search : SearchQuery → result (list MemoryRecord.t).
Variables (session_id : string) (user_id namespace : option string).
Variable recent_messages_limit : option Z.

(** The search failed: nothing is reconstructed, the error is logged. *)
Lemma reconstruct_raise (w : World) (e : exn) :
  search (search_query session_id user_id namespace recent_messages_limit)
  = Raise e →
  _reconstruct_working_memory_from_long_term search session_id user_id
    namespace recent_messages_limit w
  = (Ok None,
     add_logs [(ERROR, "Error reconstructing working memory for session "
                       +:+ session_id +:+ ": " +:+ exn_str e)] w).
Proof.
  intros Hs. unfold _reconstruct_working_memory_from_long_term, try_except.
  rewrite bind_unfold. unfold lift. rewrite Hs. reflexivity.
Qed.

(** The search returned records none of which stands for a message. *)
Lemma reconstruct_nothing (w : World) (results : list MemoryRecord.t) :
  search (search_query session_id user_id namespace recent_messages_limit)
  = Ok results →
  omap message_of results = [] →
  ∃ lines,
    _reconstruct_working_memory_from_long_term search session_id user_id
      namespace recent_messages_limit w
    = (Ok None, add_logs lines w).
Proof.
  intros Hs Hnone. unfold _reconstruct_working_memory_from_long_term, try_except.
  rewrite bind_unfold. unfold lift. rewrite Hs.
  case_bool_decide as Hr.
  - eexists. reflexivity.
  - rewrite bind_unfold, parse_memories_eq, Hnone. simpl app.
    rewrite bool_decide_eq_true_2 by done.
    rewrite bind_unfold. unfold log at 1. rewrite with_log_add_logs, add_logs_app.
    eexists. reflexivity.
Qed.

(** The search returned records of which some stand for a message. *)
Lemma reconstruct_found (w : World) (results : list MemoryRecord.t) :
  search (search_query session_id user_id namespace recent_messages_limit)
  = Ok results →
  omap message_of results ≠ [] →
  ∃ lines,
    _reconstruct_working_memory_from_long_term search session_id user_id
      namespace recent_messages_limit w
    = (Ok (Some (reconstructed_working_memory session_id namespace user_id
                   (most_recent recent_messages_limit (omap message_of results))
                   (clock w))),
       add_logs lines w).
Proof.
  intros Hs Hsome. unfold _reconstruct_working_memory_from_long_term, try_except.
  rewrite bind_unfold. unfold lift. rewrite Hs.
  rewrite bool_decide_eq_false_2 by (intros ->; by apply Hsome).
  rewrite bind_unfold, parse_memories_eq. simpl app.
  rewrite bool_decide_eq_false_2 by done.
  rewrite bind_unfold. unfold now at 1. cbv beta iota.
  rewrite bind_unfold. unfold log at 1. rewrite with_log_add_logs, add_logs_app.
  eexists. reflexivity.
Qed.

(** The search was interrupted by an exception that is no [Exception]:
    the handler does not catch it, nothing is logged, and it comes out of
    the reconstruction. *)
Lemma reconstruct_raise_base (w : World) (b : base_exn) :
  search (search_query session_id user_id namespace recent_messages_limit)
  = RaiseBase b →
  _reconstruct_working_memory_from_long_term search session_id user_id
    namespace recent_messages_limit w
  = (RaiseBase b, w).
Proof.
  intros Hs. unfold _reconstruct_working_memory_from_long_term, try_except.
  rewrite bind_unfold. unfold lift. rewrite Hs. reflexivity.
Qed.

(** Whatever the search does, the reconstruction raises no [Exception]: it
    returns, unless the search was interrupted. *)
Lemma reconstruct_outcome (w : World) :
  (∃ r lines,
     _reconstruct_working_memory_from_long_term search session_id user_id
       namespace recent_messages_limit w
     = (Ok r, add_logs lines w))
  ∨ (∃ b,
       search (search_query session_id user_id namespace recent_messages_limit)
       = RaiseBase b
       ∧ _reconstruct_working_memory_from_long_term search session_id user_id
           namespace recent_messages_limit w
         = (RaiseBase b, w)).
Proof.
  destruct (search (search_query session_id user_id namespace
                                 recent_messages_limit))
    as [results|e|b] eqn:Hs.
  - left. destruct (decide (omap message_of results = [])) as [Hn|Hn].
    + destruct (reconstruct_nothing w results Hs Hn) as [lines ->]. eauto.
    + destruct (reconstruct_found w results Hs Hn) as [lines ->]. eauto.
  - left. rewrite (reconstruct_raise w e Hs). eauto.
  - right. exists b. split; [done|]. by apply reconstruct_raise_base.
Qed.

(** When the search returns or raises an [Exception], the reconstruction
    returns. *)
Lemma reconstruct_total (w : World) :
  (∀ b, search (search_query session_id user_id namespace recent_messages_limit)
        ≠ RaiseBase b) →
  ∃ r lines,
    _reconstruct_working_memory_from_long_term search session_id user_id
      namespace recent_messages_limit w
    = (Ok r, add_logs lines w).
Proof.
  intros Hs. destruct (reconstruct_outcome w) as [H|(b & Hb & _)]; [done|].
  by destruct (Hs b).
Qed.

(** A document comes out of the reconstruction only in the third case. *)
Lemma reconstruct_Some_inv (w w' : World) (doc : WorkingMemory.t) :
  _reconstruct_working_memory_from_long_term search session_id user_id
    namespace recent_messages_limit w = (Ok (Some doc), w') →
  ∃ results,
    search (search_query session_id user_id namespace recent_messages_limit)
    = Ok results
    ∧ omap message_of results ≠ []
    ∧ doc = reconstructed_working_memory session_id namespace user_id
              (most_recent recent_messages_limit (omap message_of results))
              (clock w).
Proof.
  intros H.
  destruct (search (search_query session_id user_id namespace
                                 recent_messages_limit))
    as [results|e|b] eqn:Hs.
  - destruct (decide (omap message_of results = [])) as [Hn|Hn].
    + destruct (reconstruct_nothing w results Hs Hn) as [lines Hr].
      rewrite Hr in H. discriminate.
    + destruct (reconstruct_found w results Hs Hn) as [lines Hr].
      rewrite Hr in H. injection H as <- _. eauto.
  - rewrite (reconstruct_raise w e Hs) in H. discriminate.
  - rewrite (reconstruct_raise_base w b Hs) in H. discriminate.
Qed.

End Reconstruction.

Lemma message_of_Some {lowering : Lower} (memory : MemoryRecord.t) (role content : string) :
  MemoryRecord.text memory = role +:+ ": " +:+ content →
  (∀ a b, MemoryRecord.text memory = a +:+ ": " +:+ b →
          (String.length role ≤ String.length a)%nat) →
  message_of memory
  = Some (MemoryMessage.mk (MemoryRecord.id memory) (str_lower role) content
            (MemoryRecord.created_at memory) (MemoryRecord.persisted_at memory)).
Proof.
  intros Ht Hleft. unfold message_of.
  by rewrite (split_first_complete _ _ _ _ Ht Hleft).
Qed.

Lemma message_of_None {lowering : Lower} (memory : MemoryRecord.t) :
  (∀ a b, MemoryRecord.text memory ≠ a +:+ ": " +:+ b) →
  message_of memory = None ∧ skipped memory = true.
Proof.
  intros Hno. unfold message_of, skipped, str_in.
  destruct (split_first ": " (MemoryRecord.text memory)) as [[a b]|] eqn:E; [|done].
  apply split_first_Some in E. by destruct (Hno a b).
Qed.

Lemma skip_warnings_app (l1 l2 : list MemoryRecord.t) :
  skip_warnings (l1 ++ l2) = skip_warnings l1 ++ skip_warnings l2.
Proof. apply omap_app. Qed.

(** C5: in the loop of the reconstruction, whatever records come before
    and after it, a record whose text is [role ++ ": " ++ content], split at
    the leftmost ": ", gives the message with the id of the record, the
    role lower-cased (by [str.lower], whatever it does to the role), that
    content, and the [created_at] and [persisted_at] of the record as they
    are; a record whose text holds no ": " gives no
    message and a warning in the log, and the loop goes on: the messages of
    the other records are all there, in the order of the records. *)
Theorem parse_memories_record {lowering : Lower} (before after : list MemoryRecord.t)
    (memory : MemoryRecord.t) (w : World) :
  let run := parse_memories (before ++ memory :: after) [] w in
  (∀ role content,
     MemoryRecord.text memory = role +:+ ": " +:+ content →
     (∀ a b, MemoryRecord.text memory = a +:+ ": " +:+ b →
             (String.length role ≤ String.length a)%nat) →
     fst run
     = Ok (omap message_of before
           ++ MemoryMessage.mk (MemoryRecord.id memory) (str_lower role) content
                (MemoryRecord.created_at memory)
                (MemoryRecord.persisted_at memory)
              :: omap message_of after))
  ∧ ((∀ a b, MemoryRecord.text memory ≠ a +:+ ": " +:+ b) →
     fst run = Ok (omap message_of before ++ omap message_of after)
     ∧ skip_warning memory ∈ logs (snd run)).
Proof.
  intros run. subst run. rewrite parse_memories_eq. simpl fst. simpl snd.
  rewrite omap_app. simpl app. split.
  - intros role content Ht Hleft. simpl omap.
    by rewrite (message_of_Some _ _ _ Ht Hleft).
  - intros Hno. destruct (message_of_None _ Hno) as [Hm Hs]. split.
    + simpl omap. by rewrite Hm.
    + rewrite skip_warnings_app. unfold skip_warnings at 2. simpl omap.
      rewrite Hs. unfold add_logs. simpl logs.
      rewrite !elem_of_app. right. right. by left.
Qed.

Lemma parse_memories_record_witness :
  fst (parse_memories shouted_records [] empty_world)
  = Ok [MemoryMessage.mk "r3" "system prompt" "Be Brief: always" 102000000 None;
        MemoryMessage.mk "r1" "user" "hi" 100000000 (Some 100500000)]
  ∧ (WARNING, "Skipping malformed message memory: r0 - no separator here")
    ∈ logs (snd (parse_memories shouted_records [] empty_world)).
Proof.
  split.
  - exact (proj1 (parse_memories_record []
                    [MemoryRecord.mk "r0" "no separator here" 99000000 None;
                     MemoryRecord.mk "r1" "user: hi" 100000000 (Some 100500000)]
                    (MemoryRecord.mk "r3" "SYSTEM Prompt: Be Brief: always"
                       102000000 None)
                    empty_world) "SYSTEM Prompt" "Be Brief: always" eq_refl
             (split_first_leftmost ": " "SYSTEM Prompt: Be Brief: always"
                "SYSTEM Prompt" "Be Brief: always" eq_refl)).
  - exact (proj2 (proj2 (parse_memories_record
                    [MemoryRecord.mk "r3" "SYSTEM Prompt: Be Brief: always"
                       102000000 None]
                    [MemoryRecord.mk "r1" "user: hi" 100000000 (Some 100500000)]
                    (MemoryRecord.mk "r0" "no separator here" 99000000 None)
                    empty_world)
             (split_first_None ": " "no separator here" eq_refl))).
Defined.

(** C6: when the search returns records none of which holds a ": " (or no
    record at all), so that no message survives the parse, the
    reconstruction returns [None], not a document without messages. *)
Theorem reconstruct_without_messages {lowering : Lower}
    (search : SearchQuery → result (list MemoryRecord.t)) (session_id : string)
    (user_id namespace : option string) (recent_messages_limit : option Z)
    (results : list MemoryRecord.t) (w : World) :
  search (search_query session_id user_id namespace recent_messages_limit)
  = Ok results →
  (∀ memory, memory ∈ results →
             ∀ a b, MemoryRecord.text memory ≠ a +:+ ": " +:+ b) →
  fst (parse_memories results [] w) = Ok []
  ∧ fst (_reconstruct_working_memory_from_long_term search session_id user_id
           namespace recent_messages_limit w) = Ok None.
Proof.
  intros Hs Hno.
  assert (omap message_of results = []) as Hnone.
  { clear Hs. induction results as [|memory rest IH]; [done|]. simpl.
    destruct (message_of_None memory) as [-> _]; [apply Hno; by left|].
    apply IH. intros m Hm. apply Hno. by right. }
  split.
  - rewrite parse_memories_eq. simpl. by rewrite Hnone.
  - destruct (reconstruct_nothing search session_id user_id namespace
                recent_messages_limit w results Hs Hnone) as [lines ->]. done.
Qed.

Lemma reconstruct_without_messages_witness :
  fst (parse_memories [MemoryRecord.mk "r0" "no separator here" 99000000 None]
         [] empty_world) = Ok []
  ∧ fst (_reconstruct_working_memory_from_long_term malformed_search "s1"
           None None (Some 10) empty_world) = Ok None.
Proof.
  apply (reconstruct_without_messages malformed_search "s1" None None (Some 10)
           [MemoryRecord.mk "r0" "no separator here" 99000000 None] empty_world).
  - reflexivity.
  - intros memory Hm a b. apply list_elem_of_singleton in Hm as ->.
    exact (split_first_None ": " "no separator here" eq_refl a b).
Defined.

(** What the reconstruction keeps is oldest first, whatever the limit. *)
Lemma most_recent_chronological (recent_messages_limit : option Z)
    (messages : list MemoryMessage.t) :
  chronological (most_recent recent_messages_limit messages).
Proof.
  unfold most_recent, chronological. cbv zeta.
  pose proof (list_sort_sorted MemoryMessage.created_at true messages) as Hs.
  set (sorted := list_sort MemoryMessage.created_at true messages) in *.
  apply (reverse_sorted MemoryMessage.created_at true).
  destruct (truthy_int recent_messages_limit
            && (default 0 recent_messages_limit <? Z.of_nat (length sorted)));
    [|done].
  unfold slice_to. cbv zeta.
  rewrite <- (take_drop (Z.to_nat
    (if default 0 recent_messages_limit <? 0
     then Z.max (default 0 recent_messages_limit + Z.of_nat (length sorted)) 0
     else Z.min (default 0 recent_messages_limit) (Z.of_nat (length sorted))))
    sorted) in Hs.
  by apply StronglySorted_app_1_l in Hs.
Qed.

(** With a limit [n > 0] the reconstruction keeps [n] messages, or all of
    them if they are fewer, and no message it drops is later than one it
    keeps. *)
Lemma most_recent_latest (n : Z) (messages : list MemoryMessage.t) :
  0 < n →
  ∃ dropped,
    messages ≡ₚ dropped ++ most_recent (Some n) messages
    ∧ length (most_recent (Some n) messages) = Nat.min (Z.to_nat n) (length messages)
    ∧ ∀ d k, d ∈ dropped → k ∈ most_recent (Some n) messages →
             MemoryMessage.created_at d ≤ MemoryMessage.created_at k.
Proof.
  intros Hn. unfold most_recent. cbv zeta.
  pose proof (list_sort_sorted MemoryMessage.created_at true messages) as Hs.
  pose proof (list_sort_perm MemoryMessage.created_at true messages) as Hp.
  pose proof (list_sort_length MemoryMessage.created_at true messages) as Hl.
  set (sorted := list_sort MemoryMessage.created_at true messages) in *.
  replace (truthy_int (Some n)) with true
    by (unfold truthy_int; symmetry; apply negb_true_iff; lia).
  simpl default. simpl andb.
  destruct (Z.ltb_spec n (Z.of_nat (length sorted))) as [Hlt|Hge].
  - rewrite slice_to_pos by lia. exists (drop (Z.to_nat n) sorted).
    split; [|split].
    + rewrite reverse_Permutation, <- Hp, (comm app).
      by rewrite take_drop.
    + rewrite length_reverse, length_take. lia.
    + intros d k Hd Hk. rewrite elem_of_reverse in Hk.
      rewrite <- (take_drop (Z.to_nat n) sorted) in Hs.
      exact (StronglySorted_app_1_elem_of _ _ _ _ _ Hs Hk Hd).
  - exists []. split; [|split].
    + by rewrite reverse_Permutation, Hp.
    + rewrite length_reverse. lia.
    + intros d k Hd. by apply elem_of_nil in Hd.
Qed.

(** The window of [get_working_memory] on a hit: the same, from the stable
    sort oldest first. *)
Lemma recent_window_latest (n : Z) (messages : list MemoryMessage.t) :
  0 < n →
  let kept := slice_from (- n) (list_sort MemoryMessage.created_at false messages) in
  chronological kept
  ∧ ∃ dropped,
      messages ≡ₚ dropped ++ kept
      ∧ length kept = Nat.min (Z.to_nat n) (length messages)
      ∧ ∀ d k, d ∈ dropped → k ∈ kept →
               MemoryMessage.created_at d ≤ MemoryMessage.created_at k.
Proof.
  intros Hn kept. subst kept. rewrite slice_from_neg by done.
  pose proof (list_sort_sorted MemoryMessage.created_at false messages) as Hs.
  pose proof (list_sort_perm MemoryMessage.created_at false messages) as Hp.
  pose proof (list_sort_length MemoryMessage.created_at false messages) as Hl.
  set (sorted := list_sort MemoryMessage.created_at false messages) in *.
  set (i := (length sorted - Z.to_nat n)%nat).
  rewrite <- (take_drop i sorted) in Hs. split.
  - by apply StronglySorted_app_1_r in Hs.
  - exists (take i sorted). split; [|split].
    + by rewrite take_drop.
    + rewrite length_drop. lia.
    + intros d k Hd Hk.
      exact (StronglySorted_app_1_elem_of _ _ _ _ _ Hs Hd Hk).
Qed.

(** Without a limit, with the limit 0, and with a limit that is not below
    the number of the messages, every message is kept. *)
Lemma most_recent_all (recent_messages_limit : option Z)
    (messages : list MemoryMessage.t) :
  default 0 recent_messages_limit = 0
  ∨ Z.of_nat (length messages) ≤ default 0 recent_messages_limit →
  most_recent recent_messages_limit messages
  = reverse (list_sort MemoryMessage.created_at true messages).
Proof.
  intros Hall. unfold most_recent. cbv zeta. rewrite list_sort_length.
  destruct recent_messages_limit as [n|]; [|done]. simpl in *.
  destruct (Z.eq_dec n 0) as [->|Hn]; [done|].
  destruct Hall as [?|Hall]; [done|].
  replace (n <? Z.of_nat (length messages)) with false by lia.
  by rewrite andb_false_r.
Qed.

(** The first of a list that is oldest first is its earliest. *)
Lemma chronological_head (m : MemoryMessage.t) (l : list MemoryMessage.t) :
  chronological (m :: l) →
  ∀ k, k ∈ m :: l → MemoryMessage.created_at m ≤ MemoryMessage.created_at k.
Proof.
  intros Hs k Hk. apply StronglySorted_inv in Hs as [_ Hall].
  apply elem_of_cons in Hk as [->|Hk]; [lia|].
  by apply (proj1 (Forall_forall _ _) Hall).
Qed.

(** C7, amended: when a record the search returns stands for a message,
    the reconstruction returns a document. A document that comes out of
    the reconstruction holds the messages kept of those the records stand
    for, oldest first; it has no memories, the empty context, no data, and
    the present instant as [updated_at] and [last_accessed]; its
    [created_at] is the [persisted_at] of the first of its messages, the
    earliest of the messages kept once the limit is applied, or the present
    instant when that message has no [persisted_at], or when no message is
    kept. With no limit, or a limit that is not negative, a message is
    kept; and when all the messages are kept (no limit, the limit 0, or a
    limit that is not below their number), that first message is the
    earliest of the messages that survived the parse. *)
Theorem reconstructed_document {lowering : Lower}
    (search : SearchQuery → result (list MemoryRecord.t)) (session_id : string)
    (user_id namespace : option string) (recent_messages_limit : option Z)
    (w : World) :
  let reconstruct :=
    _reconstruct_working_memory_from_long_term search session_id user_id
      namespace recent_messages_limit in
  (∀ results,
     search (search_query session_id user_id namespace recent_messages_limit)
     = Ok results →
     omap message_of results ≠ [] →
     ∃ doc w', reconstruct w = (Ok (Some doc), w'))
  ∧ (∀ doc w',
       reconstruct w = (Ok (Some doc), w') →
       (∃ results,
          search (search_query session_id user_id namespace
                               recent_messages_limit) = Ok results
          ∧ WorkingMemory.messages doc
            = most_recent recent_messages_limit (omap message_of results))
       ∧ WorkingMemory.memories doc = []
       ∧ WorkingMemory.context doc = Some ""
       ∧ WorkingMemory.data doc = []
       ∧ WorkingMemory.updated_at doc = clock w
       ∧ WorkingMemory.last_accessed doc = clock w
       ∧ chronological (WorkingMemory.messages doc)
       ∧ WorkingMemory.created_at doc
         = match WorkingMemory.messages doc with
           | earliest :: _ =>
               default (clock w) (MemoryMessage.persisted_at earliest)
           | [] => clock w
           end
       ∧ (0 ≤ default 0 recent_messages_limit →
          WorkingMemory.messages doc ≠ []))
  ∧ (∀ results,
       search (search_query session_id user_id namespace recent_messages_limit)
       = Ok results →
       default 0 recent_messages_limit = 0
       ∨ Z.of_nat (length (omap message_of results))
         ≤ default 0 recent_messages_limit →
       created_at_of_earliest_parsed search session_id user_id namespace
         recent_messages_limit w).
Proof.
  intros reconstruct. split; [|split].
  - intros results Hs Hne.
    destruct (reconstruct_found search session_id user_id namespace
                recent_messages_limit w results Hs Hne) as [lines Hr].
    eexists _, _. exact Hr.
  - intros doc w' H.
    apply reconstruct_Some_inv in H as (results & Hs & Hne & ->).
    split; [by exists results|].
    simpl. repeat split; try done.
    + apply most_recent_chronological.
    + intros Hlim Hnil. apply Hne.
      destruct recent_messages_limit as [n|]; simpl in Hlim.
      * destruct (Z.eq_dec n 0) as [->|Hn0].
        -- unfold most_recent in Hnil. simpl in Hnil.
           apply (f_equal length) in Hnil.
           rewrite length_reverse, list_sort_length in Hnil.
           by destruct (omap message_of results).
        -- destruct (most_recent_latest n (omap message_of results)) as
             (dropped & _ & Hlen & _); [lia|].
           rewrite Hnil in Hlen. simpl in Hlen.
           destruct (omap message_of results); [done | simpl in Hlen; lia].
      * unfold most_recent in Hnil. simpl in Hnil.
        apply (f_equal length) in Hnil.
        rewrite length_reverse, list_sort_length in Hnil.
        by destruct (omap message_of results).
  - intros results Hs Hall doc w' H.
    apply reconstruct_Some_inv in H as (results' & Hs' & Hne & ->).
    rewrite Hs in Hs'. injection Hs' as <-.
    pose proof (most_recent_chronological recent_messages_limit
                  (omap message_of results)) as Hchron.
    assert (most_recent recent_messages_limit (omap message_of results)
            ≡ₚ omap message_of results) as Hperm.
    { rewrite (most_recent_all _ _ Hall).
      by rewrite reverse_Permutation, list_sort_perm. }
    destruct (most_recent recent_messages_limit (omap message_of results))
      as [|earliest kept] eqn:Hkept.
    { apply Permutation_nil_l in Hperm. by destruct Hne. }
    exists results, earliest. split; [done|]. split; [|split].
    + rewrite <- Hperm. by left.
    + intros m Hm. rewrite <- Hperm in Hm.
      by apply (chronological_head earliest kept).
    + reflexivity.
Qed.

Lemma reconstructed_document_witness :
  (∃ doc w',
     _reconstruct_working_memory_from_long_term sample_search "s1" None None
       (Some 2) empty_world = (Ok (Some doc), w'))
  ∧ (let doc := reconstructed_working_memory "s1" None None
                  [MemoryMessage.mk "r1" "user" "hi" 100000000 (Some 100500000);
                   MemoryMessage.mk "r2" "assistant" "hello: you" 101000000 None]
                  (clock empty_world) in
     (∃ results,
        sample_search (search_query "s1" None None (Some 2)) = Ok results
        ∧ WorkingMemory.messages doc
          = most_recent (Some 2) (omap message_of results))
     ∧ WorkingMemory.memories doc = []
     ∧ WorkingMemory.context doc = Some ""
     ∧ WorkingMemory.data doc = []
     ∧ WorkingMemory.updated_at doc = clock empty_world
     ∧ WorkingMemory.last_accessed doc = clock empty_world
     ∧ chronological (WorkingMemory.messages doc)
     ∧ WorkingMemory.created_at doc
       = match WorkingMemory.messages doc with
         | earliest :: _ =>
             default (clock empty_world) (MemoryMessage.persisted_at earliest)
         | [] => clock empty_world
         end
     ∧ (0 ≤ default 0 (Some 2) → WorkingMemory.messages doc ≠ []))
  ∧ created_at_of_earliest_parsed sample_search "s1" None None (Some 2)
      empty_world.
Proof.
  split; [|split].
  - apply (proj1 (reconstructed_document sample_search "s1" None None (Some 2)
                    empty_world) sample_records).
    + reflexivity.
    + vm_compute. discriminate.
  - intros doc.
    apply (proj1 (proj2 (reconstructed_document sample_search "s1" None None
                           (Some 2) empty_world))
             doc
             (snd (_reconstruct_working_memory_from_long_term sample_search
                     "s1" None None (Some 2) empty_world))).
    vm_compute. reflexivity.
  - apply (proj2 (proj2 (reconstructed_document sample_search "s1" None None
                           (Some 2) empty_world))
             sample_records).
    + reflexivity.
    + right. vm_compute. discriminate.
Defined.

(** C7, as stated, fails: with the limit -1 the reconstruction drops the
    earliest of the two messages that survived the parse, the only one with
    a [persisted_at], and the [created_at] of the document is the present
    instant. *)
Lemma reconstructed_created_at_not_earliest :
  ¬ created_at_of_earliest_parsed sample_search "s1" None None (Some (-1))
      empty_world.
Proof.
  unfold created_at_of_earliest_parsed. intros H.
  destruct (H (reconstructed_working_memory "s1" None None
                 [MemoryMessage.mk "r2" "assistant" "hello: you" 101000000 None]
                 (clock empty_world))
              (snd (_reconstruct_working_memory_from_long_term sample_search
                      "s1" None None (Some (-1)) empty_world)))
    as (results & earliest & Hs & Hin & Hmin & Hca).
  { vm_compute. reflexivity. }
  injection Hs as <-.
  change (omap message_of sample_records)
    with [MemoryMessage.mk "r2" "assistant" "hello: you" 101000000 None;
          MemoryMessage.mk "r1" "user" "hi" 100000000 (Some 100500000)]
    in Hin, Hmin.
  apply elem_of_cons in Hin as [->|Hin].
  - specialize (Hmin (MemoryMessage.mk "r1" "user" "hi" 100000000
                        (Some 100500000))).
    simpl in Hmin. assert (101000000 ≤ 100000000) by (apply Hmin; set_solver).
    lia.
  - apply list_elem_of_singleton in Hin as ->. simpl in Hca. discriminate Hca.
Qed.

(** So it is whenever more messages survive the parse than the limit
    keeps: of three messages and a limit of 2, the document has the two
    latest and the [persisted_at] of the second. And with the limit -1 and
    one message, the document has no message at all. *)
Example reconstruct_over_limit :
  fst (_reconstruct_working_memory_from_long_term
         (λ _, Ok [MemoryRecord.mk "p3" "assistant: three" 103000000 (Some 103500000);
                   MemoryRecord.mk "p1" "user: one" 101000000 (Some 101500000);
                   MemoryRecord.mk "p2" "user: two" 102000000 (Some 102500000)])
         "s1" None None (Some 2) empty_world)
  = Ok (Some (reconstructed_working_memory "s1" None None
                [MemoryMessage.mk "p2" "user" "two" 102000000 (Some 102500000);
                 MemoryMessage.mk "p3" "assistant" "three" 103000000 (Some 103500000)]
                1700000000123456))
  ∧ WorkingMemory.created_at
      (reconstructed_working_memory "s1" None None
         [MemoryMessage.mk "p2" "user" "two" 102000000 (Some 102500000);
          MemoryMessage.mk "p3" "assistant" "three" 103000000 (Some 103500000)]
         1700000000123456)
    = 102500000.
Proof. vm_compute. done. Qed.

Example reconstruct_negative_limit :
  fst (_reconstruct_working_memory_from_long_term
         (λ _, Ok [MemoryRecord.mk "r1" "user: hi" 100000000 (Some 100500000)])
         "s1" None None (Some (-1)) empty_world)
  = Ok (Some (reconstructed_working_memory "s1" None None [] 1700000000123456))
  ∧ WorkingMemory.created_at
      (reconstructed_working_memory "s1" None None [] 1700000000123456)
    = 1700000000123456.
Proof. vm_compute. done. Qed.

(** ** Reading *)

Lemma bind_lift_Ok_inv {A B} (r : result A) (f : A → M B) (w w' : World) (b : B) :
  (lift r ≫= f) w = (Ok b, w') → ∃ a, r = Ok a ∧ f a w = (Ok b, w').
Proof. destruct r as [a|e|b0]; [eauto | discriminate..]. Qed.

Lemma bind_time_int {B} (f : Z → M B) (w : World) :
  (time_int ≫= f) w = f (timestamp_int (clock w)) w.
Proof. reflexivity. Qed.

Lemma bind_log {B} (l : level) (msg : string) (f : () → M B) (w : World) :
  (log l msg ≫= f) w = f () (with_log l msg w).
Proof. reflexivity. Qed.

Lemma redis_get_eq (key : string) (w : World) :
  redis_get key w
  = match fault w with
    | Some e => (Raise e, with_io (GET key) w)
    | None => (Ok (read_key key w), with_io (GET key) w)
    end.
Proof. unfold redis_get, send. by destruct (fault w). Qed.

(** One step of a run of statements that returned: the statement returned,
    and the rest of the run returned. *)
Ltac step H a E :=
  first
    [ apply bind_lift_Ok_inv in H as (a & E & H)
    | rewrite bind_time_int in H
    | rewrite bind_log in H ];
  cbv beta zeta in H.

Section Reading.
Context {lowering : Lower}.
Variable working_memory_key : string → option string → option string → string.
Variable index_all_messages_in_long_term_memory : bool.
Variable search : SearchQuery → result (list MemoryRecord.t).
Variables (session_id : string) (user_id namespace : option string).
Variable recent_messages_limit : option Z.

Let key : string := working_memory_key session_id user_id namespace.

Let try_block : M (option WorkingMemory.t) :=
  get_working_memory_try index_all_messages_in_long_term_memory search key
    session_id user_id namespace recent_messages_limit.

Let get : M (option WorkingMemory.t) :=
  get_working_memory working_memory_key index_all_messages_in_long_term_memory
    search session_id user_id namespace recent_messages_limit.

(** Whatever the [try] block raises, the call logs it and returns [None]. *)
Lemma get_handles (w w1 : World) (e : exn) :
  try_block w = (Raise e, w1) →
  get w = (Ok None,
           add_logs [(ERROR, "Error getting working memory for session "
                             +:+ session_id +:+ ": " +:+ exn_str e)] w1).
Proof.
  intros H. unfold get, get_working_memory, try_except. fold key.
  fold try_block. by rewrite H.
Qed.

(** What the [try] block returns, the call returns. *)
Lemma get_returns (w w1 : World) (r : option WorkingMemory.t) :
  try_block w = (Ok r, w1) → get w = (Ok r, w1).
Proof.
  intros H. unfold get, get_working_memory, try_except. fold key.
  fold try_block. by rewrite H.
Qed.

(** An exception that is no [Exception] goes through the call. *)
Lemma get_passes (w w1 : World) (b : base_exn) :
  try_block w = (RaiseBase b, w1) → get w = (RaiseBase b, w1).
Proof.
  intros H. unfold get, get_working_memory, try_except. fold key.
  fold try_block. by rewrite H.
Qed.

Lemma get_Some_inv (w w' : World) (doc : WorkingMemory.t) :
  get w = (Ok (Some doc), w') → try_block w = (Ok (Some doc), w').
Proof.
  intros H. destruct (try_block w) as [[r|e|b] w1] eqn:E.
  - by rewrite (get_returns _ _ _ E) in H.
  - rewrite (get_handles _ _ _ E) in H. discriminate.
  - rewrite (get_passes _ _ _ E) in H. discriminate.
Qed.

(** The store cannot be read: the [try] block raises what the store does. *)
Lemma try_block_fault (w : World) (e : exn) :
  fault w = Some e → try_block w = (Raise e, with_io (GET key) w).
Proof.
  intros Hf. unfold try_block, get_working_memory_try.
  by rewrite bind_unfold, redis_get_eq, Hf.
Qed.

(** A hit: the document returned is built from the payload read, but for
    its [session_id] and [namespace], which are those of the call. *)
Lemma try_block_hit_inv (w w' : World) (doc : WorkingMemory.t) :
  fault w = None →
  bytes_truthy (read_key key w) = true →
  try_block w = (Ok (Some doc), w') →
  ∃ payload messages stored_user_id,
    json_loads (read_key key w) = Ok payload
    ∧ stored_messages (read_key key w) = Ok messages
    ∧ WorkingMemory.messages doc
      = match recent_messages_limit with
        | Some n =>
            if 0 <? n
            then slice_from (- n)
                   (list_sort MemoryMessage.created_at false messages)
            else messages
        | None => messages
        end
    ∧ WorkingMemory.session_id doc = session_id
    ∧ WorkingMemory.namespace doc = namespace
    ∧ py_get payload "user_id" JNull = Ok stored_user_id
    ∧ optional as_str stored_user_id = Ok (WorkingMemory.user_id doc).
Proof.
  intros Hf Hhit H. unfold try_block, get_working_memory_try in H.
  rewrite bind_unfold, redis_get_eq, Hf, Hhit in H. cbv beta iota in H.
  change (negb true) with false in H. cbv iota in H.
  step H payload Epayload.
  step H memories_data Ememories_data.
  step H memories Ememories.
  step H messages_data Emessages_data.
  step H messages Emessages.
  step H strategy_data Estrategy_data.
  step H strategy Estrategy.
  step H ctx Ectx.
  step H stored_user_id Euser_id.
  step H tokens Etokens.
  step H ttl_seconds Ettl.
  step H data Edata.
  step H last_accessed Elast.
  step H created_at Ecreated.
  step H updated_at Eupdated.
  step H wm Ewm.
  injection H as <- <-.
  unfold WorkingMemory.init in Ewm.
  apply result_bind_Ok_inv in Ewm as (c & Ec & Ewm).
  apply result_bind_Ok_inv in Ewm as (u & Eu & Ewm).
  apply result_bind_Ok_inv in Ewm as (k & Ek & Ewm).
  apply result_bind_Ok_inv in Ewm as (l & El & Ewm).
  apply result_bind_Ok_inv in Ewm as (d & Ed & Ewm).
  injection Ewm as <-. simpl.
  exists payload, messages, stored_user_id. repeat split; try done.
  unfold stored_messages. rewrite Epayload. simpl.
  rewrite Emessages_data. simpl. exact Emessages.
Qed.

(** A miss: the document returned is the one reconstructed, at the same
    instant. *)
Lemma try_block_miss_inv (w w' : World) (doc : WorkingMemory.t) :
  fault w = None →
  bytes_truthy (read_key key w) = false →
  try_block w = (Ok (Some doc), w') →
  ∃ w1 w2,
    clock w1 = clock w
    ∧ _reconstruct_working_memory_from_long_term search session_id user_id
        namespace recent_messages_limit w1 = (Ok (Some doc), w2).
Proof.
  intros Hf Hmiss H. unfold try_block, get_working_memory_try in H.
  rewrite bind_unfold, redis_get_eq, Hf, Hmiss in H. cbv beta iota in H.
  change (negb false) with true in H. cbv iota in H.
  rewrite bind_log in H.
  destruct index_all_messages_in_long_term_memory; [|discriminate].
  apply bind_Ok_inv in H as (r & w2 & Hr & H).
  destruct r as [r|]; [|discriminate].
  rewrite bind_log in H. injection H as <- _.
  eexists _, w2. split; [|exact Hr]. reflexivity.
Qed.

End Reading.

(** C10: on a store hit, the document [get_working_memory] returns has
    the [session_id] and the [namespace] of the call, whatever the payload
    holds under these two names, and the [user_id] of the payload: the
    value the payload has under "user_id" (none, if it has no such name),
    read as an optional string. *)
Theorem get_working_memory_hit_scope {lowering : Lower}
    (working_memory_key : string → option string → option string → string)
    (index_all_messages_in_long_term_memory : bool)
    (search : SearchQuery → result (list MemoryRecord.t)) (session_id : string)
    (user_id namespace : option string) (recent_messages_limit : option Z)
    (w w' : World) (doc : WorkingMemory.t) :
  let data := read_key (working_memory_key session_id user_id namespace) w in
  bytes_truthy data = true →
  get_working_memory working_memory_key index_all_messages_in_long_term_memory
    search session_id user_id namespace recent_messages_limit w
  = (Ok (Some doc), w') →
  WorkingMemory.session_id doc = session_id
  ∧ WorkingMemory.namespace doc = namespace
  ∧ ∃ payload stored_user_id,
      json_loads data = Ok payload
      ∧ py_get payload "user_id" JNull = Ok stored_user_id
      ∧ optional as_str stored_user_id = Ok (WorkingMemory.user_id doc).
Proof.
  intros data Hhit H. apply get_Some_inv in H.
  destruct (fault w) as [e|] eqn:Hf.
  - rewrite (try_block_fault _ _ _ _ _ _ _ _ e Hf) in H. discriminate.
  - apply try_block_hit_inv in H as
      (payload & messages & stored & Hp & _ & _ & Hs & Hn & Hu1 & Hu2);
      [|done|done].
    split; [done|]. split; [done|]. by exists payload, stored.
Qed.

Lemma get_working_memory_hit_scope_witness :
  let doc := foreign_document
               [MemoryMessage.mk "b" "user" "second" 20000000 None;
                MemoryMessage.mk "c" "user" "third" 30000000 None;
                MemoryMessage.mk "a" "user" "first" 10000000 None] in
  WorkingMemory.session_id doc = "s1"
  ∧ WorkingMemory.namespace doc = None
  ∧ ∃ payload stored_user_id,
      json_loads (read_key (sample_working_memory_key "s1" None None) foreign_world)
      = Ok payload
      ∧ py_get payload "user_id" JNull = Ok stored_user_id
      ∧ optional as_str stored_user_id = Ok (WorkingMemory.user_id doc).
Proof.
  intros doc.
  apply (get_working_memory_hit_scope sample_working_memory_key false no_memories
           "s1" None None None foreign_world
           (snd (get_working_memory sample_working_memory_key false no_memories
                   "s1" None None None foreign_world))).
  - vm_compute. reflexivity.
  - vm_compute. reflexivity.
Defined.

(** C3, amended: called with a client of the store, [get_working_memory]
    lets no [Exception] out. Whatever [Exception] its [try] block raises is
    logged as an error and turned into [None]; so it is when the store read
    raises, when the payload read is not JSON, and on the reconstruction
    path, where the reconstruction lets no [Exception] out either and logs
    the error of a failed search. An exception that is no [Exception] is
    not caught: it leaves the [try] block, and the call, as it was raised,
    and nothing is logged for it. And a call that is given no client
    raises what [get_redis_conn] raises, ahead of the [try]. *)
Theorem get_working_memory_catches_exceptions {lowering : Lower}
    (working_memory_key : string → option string → option string → string)
    (index_all_messages_in_long_term_memory : bool)
    (search : SearchQuery → result (list MemoryRecord.t)) (session_id : string)
    (user_id namespace : option string) (recent_messages_limit : option Z)
    (w : World) :
  let key := working_memory_key session_id user_id namespace in
  let try_block :=
    get_working_memory_try index_all_messages_in_long_term_memory search key
      session_id user_id namespace recent_messages_limit in
  let get :=
    get_working_memory working_memory_key index_all_messages_in_long_term_memory
      search session_id user_id namespace recent_messages_limit in
  let error_line e :=
    (ERROR, "Error getting working memory for session "
            +:+ session_id +:+ ": " +:+ exn_str e) in
  (∀ e w', get w ≠ (Raise e, w'))
  ∧ (∀ e w1, try_block w = (Raise e, w1) →
             get w = (Ok None, add_logs [error_line e] w1))
  ∧ (∀ e, fault w = Some e →
          get w = (Ok None, add_logs [error_line e] (with_io (GET key) w)))
  ∧ (∀ e, fault w = None →
          bytes_truthy (read_key key w) = true →
          json_loads (read_key key w) = Raise e →
          get w = (Ok None, add_logs [error_line e] (with_io (GET key) w)))
  ∧ (∀ e, fault w = None →
          bytes_truthy (read_key key w) = false →
          index_all_messages_in_long_term_memory = true →
          search (search_query session_id user_id namespace recent_messages_limit)
          = Raise e →
          ∃ w', get w = (Ok None, w')
                ∧ (ERROR, "Error reconstructing working memory for session "
                          +:+ session_id +:+ ": " +:+ exn_str e) ∈ logs w')
  ∧ (∀ w1 e w',
       _reconstruct_working_memory_from_long_term search session_id user_id
         namespace recent_messages_limit w1 ≠ (Raise e, w'))
  ∧ (∀ b w1, try_block w = (RaiseBase b, w1) → get w = (RaiseBase b, w1))
  ∧ (∀ b, fault w = None →
          bytes_truthy (read_key key w) = false →
          index_all_messages_in_long_term_memory = true →
          search (search_query session_id user_id namespace recent_messages_limit)
          = RaiseBase b →
          ∃ w', get w = (RaiseBase b, w') ∧ logs w' = logs w ++ [
            (DEBUG, "No working memory found for parameters: " +:+ session_id
                    +:+ ", " +:+ fmt user_id +:+ ", " +:+ fmt namespace)])
  ∧ (∀ get_redis_conn e w1,
       get_redis_conn w = (Raise e, w1) →
       without_client get_redis_conn get w = (Raise e, w1)).
Proof.
  intros key try_block get error_line.
  assert (∀ e w1, try_block w = (Raise e, w1) →
                  get w = (Ok None, add_logs [error_line e] w1)) as Hhandles.
  { intros e w1 H. by apply get_handles. }
  assert (∀ b w1, try_block w = (RaiseBase b, w1) → get w = (RaiseBase b, w1))
    as Hpasses.
  { intros b w1 H. by apply get_passes. }
  split; [|split; [exact Hhandles|split; [|split; [|split; [|split;
           [|split; [exact Hpasses|split]]]]]]].
  - intros e w' Hget. destruct (try_block w) as [[r|e0|b] w1] eqn:E.
    + unfold get in Hget. erewrite get_returns in Hget by exact E. discriminate.
    + rewrite (Hhandles e0 w1 eq_refl) in Hget. discriminate.
    + rewrite (Hpasses b w1 eq_refl) in Hget. discriminate.
  - intros e Hf. apply Hhandles. by apply try_block_fault.
  - intros e Hf Hhit Hjson. apply Hhandles.
    unfold try_block, get_working_memory_try.
    rewrite bind_unfold, redis_get_eq, Hf. cbv beta iota. fold key.
    rewrite Hhit. change (negb true) with false. cbv iota.
    rewrite Hjson. reflexivity.
  - intros e Hf Hmiss -> Hsearch. eexists. split.
    + apply get_returns.
      unfold get_working_memory_try.
      rewrite bind_unfold, redis_get_eq, Hf. cbv beta iota. fold key.
      rewrite Hmiss. change (negb false) with true. cbv iota.
      rewrite bind_log, bind_unfold.
      rewrite (reconstruct_raise _ _ _ _ _ _ e Hsearch). reflexivity.
    + unfold add_logs. simpl logs. rewrite elem_of_app. right. by left.
  - intros w1 e w' H.
    destruct (reconstruct_outcome search session_id user_id namespace
                recent_messages_limit w1) as [(r & lines & Hr)|(b & _ & Hr)];
      rewrite Hr in H; discriminate.
  - intros b Hf Hmiss -> Hsearch. eexists. split.
    + apply Hpasses.
      unfold try_block, get_working_memory_try.
      rewrite bind_unfold, redis_get_eq, Hf. cbv beta iota. fold key.
      rewrite Hmiss. change (negb false) with true. cbv iota.
      rewrite bind_log, bind_unfold.
      rewrite (reconstruct_raise_base _ _ _ _ _ _ b Hsearch). reflexivity.
    + reflexivity.
  - intros get_redis_conn e w1 H. unfold without_client.
    by rewrite bind_unfold, H.
Qed.

Lemma get_working_memory_catches_exceptions_witness :
  fst (get_working_memory sample_working_memory_key true search_down
         "s1" None None None unreachable_world) = Ok None
  ∧ fst (get_working_memory sample_working_memory_key true search_down
           "s1" None None None garbled_world) = Ok None
  ∧ ∃ w', get_working_memory sample_working_memory_key true search_down
            "s1" None None None empty_world = (Ok None, w')
          ∧ (ERROR, "Error reconstructing working memory for session s1: search backend unavailable")
            ∈ logs w'.
Proof.
  split; [|split].
  - destruct (get_working_memory_catches_exceptions sample_working_memory_key
                true search_down "s1" None None None unreachable_world)
      as (_ & _ & H & _).
    by rewrite (H (RedisError "Connection refused") eq_refl).
  - destruct (get_working_memory_catches_exceptions sample_working_memory_key
                true search_down "s1" None None None garbled_world)
      as (_ & _ & _ & H & _).
    by rewrite (H (JSONDecodeError "Expecting value") eq_refl eq_refl eq_refl).
  - destruct (get_working_memory_catches_exceptions sample_working_memory_key
                true search_down "s1" None None None empty_world)
      as (_ & _ & _ & _ & H & _).
    exact (H (SearchError "search backend unavailable")
             eq_refl eq_refl eq_refl eq_refl).
Defined.

(** C3, as stated, fails: when the task is cancelled while the search of
    the reconstruction is awaited, [asyncio.CancelledError] comes out of
    [get_working_memory]: the call does not return [None], and logs no
    error. *)
Lemma get_working_memory_cancelled :
  ¬ never_raises sample_working_memory_key true cancelled_search
      "s1" None None None empty_world.
Proof.
  unfold never_raises. intros (r & w' & H). vm_compute in H. discriminate H.
Qed.

(** What the caller gets in that case, and when the call is given no
    client and none can be built. *)
Example cancelled_search_outcome :
  get_working_memory sample_working_memory_key true cancelled_search
    "s1" None None None empty_world
  = (RaiseBase CancelledError,
     mk_world ∅ ∅ None 1700000000123456
       [GET "working_memory:None:None:s1"]
       [(DEBUG, "No working memory found for parameters: s1, None, None")]).
Proof. vm_compute. reflexivity. Qed.

Example no_connection_outcome :
  without_client no_connection
    (get_working_memory sample_working_memory_key true sample_search
       "s1" None None None) empty_world
  = (Raise (ValueError "Redis URL must specify one of the following schemes"),
     empty_world).
Proof. reflexivity. Qed.

(** ** The round trip *)

Lemma fromisoformat_isoformat (t : datetime) : fromisoformat (isoformat t) = Some t.
Proof.
  unfold fromisoformat, isoformat. rewrite NilEmpty.isi. simpl.
  by rewrite DecimalZ.of_to.
Qed.

(** What pydantic dumps of a message or of a memory record, it reads back
    as it was. *)
Lemma message_validate_dump (m : MemoryMessage.t) :
  MemoryMessage.validate (MemoryMessage.model_dump m) = Ok m.
Proof.
  destruct m as [i r c ca pa].
  unfold MemoryMessage.validate, MemoryMessage.model_dump. simpl.
  rewrite fromisoformat_isoformat. simpl.
  destruct pa as [t|]; simpl; [|done].
  by rewrite fromisoformat_isoformat.
Qed.

Lemma memory_validate_dump (m : MemoryRecord.t) :
  MemoryRecord.validate (MemoryRecord.model_dump m) = Ok m.
Proof.
  destruct m as [i x ca pa].
  unfold MemoryRecord.validate, MemoryRecord.model_dump. simpl.
  rewrite fromisoformat_isoformat. simpl.
  destruct pa as [t|]; simpl; [|done].
  by rewrite fromisoformat_isoformat.
Qed.

Lemma strategy_validate_dump (c : MemoryStrategyConfig.t) :
  MemoryStrategyConfig.validate (MemoryStrategyConfig.model_dump c) = Ok c.
Proof. by destruct c. Qed.

Lemma for_each_validate_dump {A} (dump : A → json) (validate : json → result A)
    (l : list A) :
  (∀ a, validate (dump a) = Ok a) →
  for_each validate (map dump l) = Ok l.
Proof.
  intros Hrt. induction l as [|a l IH]; [done|].
  simpl map. rewrite for_each_cons, Hrt, IH. reflexivity.
Qed.

(** *** The seconds of a float *)

(** Less than [2^34] seconds from the epoch, the float of a count of
    microseconds divided by [10**6] has the whole seconds of the quotient:
    floats are less than two microseconds apart there, and the last
    microsecond of a second is not rounded to the next second. *)
Lemma int_of_true_div_exact (n : Z) :
  0 ≤ n < EXACT_SECONDS * MICRO → int_of_true_div n MICRO = n / MICRO.
Proof.
  intros [Hlo Hhi]. unfold int_of_true_div. cbv zeta.
  pose proof (Z.div_mod n MICRO ltac:(done)) as Hn.
  pose proof (Z.mod_pos_bound n MICRO ltac:(done)) as Hk.
  set (s := n / MICRO) in *. set (k := n mod MICRO) in *.
  destruct (Z.eqb_spec s 0) as [Hs0|Hs0]; [done|].
  assert (0 < s < EXACT_SECONDS) as Hs by (unfold MICRO, EXACT_SECONDS in *; lia).
  assert (0 ≤ Z.log2 s < 34) as Hlog.
  { split; [apply Z.log2_nonneg|]. apply Z.log2_lt_pow2; [lia|].
    change (2 ^ 34) with EXACT_SECONDS. lia. }
  set (j := 52 - Z.log2 s).
  assert (19 ≤ j) as Hj by (subst j; lia).
  replace (0 <=? j) with true by (symmetry; apply Z.leb_le; lia).
  assert (2 ^ 19 ≤ 2 ^ j) as HP by (apply Z.pow_le_mono_r; lia).
  change (2 ^ 19) with 524288 in HP.
  set (P := 2 ^ j) in *.
  pose proof (Z.div_mod (n * P) MICRO ltac:(done)) as Hm.
  pose proof (Z.mod_pos_bound (n * P) MICRO ltac:(done)) as Hr.
  set (m := n * P / MICRO) in *. set (r := (n * P) mod MICRO) in *.
  assert (n * P = (MICRO * s + k) * P) as HnP by (by rewrite <- Hn).
  unfold MICRO in *.
  assert (s * P ≤ m) as Hlow by nia.
  assert (m < (s + 1) * P) as Hup by nia.
  symmetry. apply (Z.div_unique _ _ _
    ((if (1000000 <? 2 * r) || ((1000000 =? 2 * r) && Z.odd m) then m + 1 else m)
     - P * s)); [|lia].
  left.
  destruct ((1000000 <? 2 * r) || ((1000000 =? 2 * r) && Z.odd m)) eqn:E; [|lia].
  assert (1000000 ≤ 2 * r) as Hround.
  { apply orb_true_iff in E as [E|E]; [lia|].
    apply andb_true_iff in E as [E _]. lia. }
  nia.
Qed.

(** [int(t.timestamp())] is the whole seconds of [t] there. *)
Lemma int_timestamp_exact (t : datetime) :
  exact_seconds t → int_timestamp t = timestamp_int t.
Proof.
  intros [Hlo Hhi]. unfold int_timestamp, timestamp_int.
  destruct (Z.lt_trichotomy t 0) as [Hneg|[->|Hpos]].
  - rewrite Z.sgn_neg, Z.abs_neq by lia.
    rewrite int_of_true_div_exact by lia.
    rewrite <- (Z.opp_involutive t) at 2.
    rewrite Z.quot_opp_l by done. rewrite Z.quot_div_nonneg by (unfold MICRO; lia).
    lia.
  - reflexivity.
  - rewrite Z.sgn_pos, Z.abs_eq by lia.
    rewrite int_of_true_div_exact by lia.
    rewrite Z.quot_div_nonneg by (unfold MICRO; lia). lia.
Qed.

Lemma exact_seconds_valid (t : datetime) : exact_seconds t → valid_datetime t.
Proof.
  unfold exact_seconds, valid_datetime, EXACT_SECONDS, MIN_SECONDS, MAX_SECONDS,
    MICRO. lia.
Qed.

(** Further from the epoch it can be the next second: so it is in the last
    microsecond of the year 2600, and at [datetime.max], where the second
    it gives is one no datetime has. *)
Example int_timestamp_year_2600 :
  int_timestamp 19911225599999999 = 19911225600
  ∧ timestamp_int 19911225599999999 = 19911225599.
Proof. vm_compute. done. Qed.

Example int_timestamp_datetime_max :
  valid_datetime (MAX_SECONDS * MICRO + 999999)
  ∧ int_timestamp (MAX_SECONDS * MICRO + 999999) = MAX_SECONDS + 1
  ∧ fromtimestamp (JInt (int_timestamp (MAX_SECONDS * MICRO + 999999)))
    = Raise (ValueError "year is out of range").
Proof.
  split; [|vm_compute; done].
  unfold valid_datetime, MIN_SECONDS, MAX_SECONDS, MICRO. lia.
Qed.

Lemma wire_form_exact (d : WorkingMemory.t) :
  exact_seconds (WorkingMemory.last_accessed d) →
  exact_seconds (WorkingMemory.created_at d) →
  exact_seconds (WorkingMemory.updated_at d) →
  wire_form d = whole_seconds_form d.
Proof.
  intros Hla Hca Hua. unfold wire_form, whole_seconds_form, wire_form_with.
  by rewrite !int_timestamp_exact.
Qed.

(** *** Writing, then reading *)

(** Seconds of a datetime are seconds [fromtimestamp] takes. *)
Lemma fromtimestamp_seconds (n : Z) :
  MIN_SECONDS ≤ n ≤ MAX_SECONDS → fromtimestamp (JInt n) = Ok (n * MICRO).
Proof.
  intros [H1 H2]. unfold fromtimestamp.
  apply Z.leb_le in H1, H2. by rewrite H1, H2.
Qed.

Lemma timestamp_int_seconds (t : datetime) :
  valid_datetime t → MIN_SECONDS ≤ timestamp_int t ≤ MAX_SECONDS.
Proof.
  unfold valid_datetime, timestamp_int, MIN_SECONDS, MAX_SECONDS, MICRO.
  intros [Hlo Hhi]. split.
  - change (-62135596800) with ((-62135596800 * 1000000) ÷ 1000000).
    apply Z.quot_le_mono; lia.
  - change 253402300799 with ((253402300799 * 1000000 + (1000000 - 1)) ÷ 1000000).
    apply Z.quot_le_mono; lia.
Qed.

(** Whole seconds of a datetime are seconds [fromtimestamp] takes. *)
Lemma fromtimestamp_timestamp_int (t : datetime) :
  valid_datetime t →
  fromtimestamp (JInt (timestamp_int t)) = Ok (whole_seconds t).
Proof.
  intros Ht. by rewrite (fromtimestamp_seconds _ (timestamp_int_seconds t Ht)).
Qed.

Section RoundTrip.
Context {lowering : Lower}.
Variable working_memory_key : string → option string → option string → string.
Variable index_all_messages_in_long_term_memory : bool.
Variable search : SearchQuery → result (list MemoryRecord.t).

(** A document whose memory records all have an id, with no TTL, set on a
    store that can be reached: the call returns, the document is stamped,
    and the key of the session holds its wire form, with no expiry. *)
Lemma set_working_memory_stores (d : WorkingMemory.t) (w : World) :
  fault w = None →
  WorkingMemory.ttl_seconds d = None →
  (∀ memory, memory ∈ WorkingMemory.memories d → MemoryRecord.id memory ≠ "") →
  let key := working_memory_key (WorkingMemory.session_id d)
               (WorkingMemory.user_id d) (WorkingMemory.namespace d) in
  let stamped := WorkingMemory.set_updated_at (clock w) d in
  ∃ w1, set_working_memory working_memory_key d w = (Ok stamped, w1)
        ∧ kv w1 = <[key := mk_entry (JsonText (wire_form stamped)) None]> (kv w).
Proof.
  intros Hf Httl Hids key stamped.
  destruct (check_ids_pass _ Hids) as [us Hus].
  unfold set_working_memory. rewrite bind_unfold. unfold lift at 1.
  rewrite Hus. cbv beta iota. rewrite bind_unfold. unfold now at 1.
  cbv beta iota zeta. rewrite bind_unfold. unfold try_except.
  change (WorkingMemory.ttl_seconds (WorkingMemory.set_updated_at (clock w) d))
    with (WorkingMemory.ttl_seconds d).
  rewrite Httl. rewrite bind_unfold. unfold redis_set, send. rewrite Hf.
  cbv beta iota. unfold log. eexists. split; reflexivity.
Qed.

(** A store that holds, under the key of a call, the fields of a document
    and seconds for its three timestamps that are seconds of a datetime:
    the call returns that document, with the [session_id] and the
    [namespace] of the call, the messages the limit keeps, and the three
    timestamps at those seconds. *)
Lemma get_working_memory_reads_form (seconds : datetime → Z)
    (d : WorkingMemory.t) (session_id : string)
    (user_id namespace : option string) (recent_messages_limit : option Z)
    (w : World) :
  fault w = None →
  kv w !! working_memory_key session_id user_id namespace
  = Some (mk_entry (JsonText (wire_form_with seconds d)) None) →
  MIN_SECONDS ≤ seconds (WorkingMemory.last_accessed d) ≤ MAX_SECONDS →
  MIN_SECONDS ≤ seconds (WorkingMemory.created_at d) ≤ MAX_SECONDS →
  MIN_SECONDS ≤ seconds (WorkingMemory.updated_at d) ≤ MAX_SECONDS →
  fst (get_working_memory working_memory_key
         index_all_messages_in_long_term_memory search
         session_id user_id namespace recent_messages_limit w)
  = Ok (Some
          {| WorkingMemory.messages :=
               recent_window recent_messages_limit (WorkingMemory.messages d);
             WorkingMemory.memories := WorkingMemory.memories d;
             WorkingMemory.context := WorkingMemory.context d;
             WorkingMemory.user_id := WorkingMemory.user_id d;
             WorkingMemory.tokens := WorkingMemory.tokens d;
             WorkingMemory.session_id := session_id;
             WorkingMemory.namespace := namespace;
             WorkingMemory.ttl_seconds := WorkingMemory.ttl_seconds d;
             WorkingMemory.data := WorkingMemory.data d;
             WorkingMemory.long_term_memory_strategy :=
               WorkingMemory.long_term_memory_strategy d;
             WorkingMemory.last_accessed :=
               seconds (WorkingMemory.last_accessed d) * MICRO;
             WorkingMemory.created_at :=
               seconds (WorkingMemory.created_at d) * MICRO;
             WorkingMemory.updated_at :=
               seconds (WorkingMemory.updated_at d) * MICRO |}).
Proof.
  intros Hf Hkv Hla Hca Hua.
  set (form := wire_form_with seconds d) in *.
  erewrite get_returns; [reflexivity|].
  unfold get_working_memory_try.
  rewrite bind_unfold, redis_get_eq, Hf. cbv beta iota.
  unfold read_key. rewrite Hkv. cbv beta iota.
  change (live _ _) with true. cbv beta iota. cbn [value].
  change (negb (bytes_truthy (Some (JsonText form)))) with false.
  cbv beta iota.
  change (json_loads (Some (JsonText form))) with (Ok form).
  rewrite bind_lift_Ok.
  change (py_get form "memories" (JList []))
    with (Ok (JList (map MemoryRecord.model_dump (WorkingMemory.memories d)))).
  rewrite bind_lift_Ok.
  change (items ← py_iter (JList (map MemoryRecord.model_dump
                                    (WorkingMemory.memories d)));
          for_each MemoryRecord.validate items)
    with (for_each MemoryRecord.validate
            (map MemoryRecord.model_dump (WorkingMemory.memories d))).
  rewrite (for_each_validate_dump _ _ _ memory_validate_dump), bind_lift_Ok.
  change (py_get form "messages" (JList []))
    with (Ok (JList (map MemoryMessage.model_dump (WorkingMemory.messages d)))).
  rewrite bind_lift_Ok.
  change (items ← py_iter (JList (map MemoryMessage.model_dump
                                    (WorkingMemory.messages d)));
          for_each MemoryMessage.validate items)
    with (for_each MemoryMessage.validate
            (map MemoryMessage.model_dump (WorkingMemory.messages d))).
  rewrite (for_each_validate_dump _ _ _ message_validate_dump), bind_lift_Ok.
  cbv zeta.
  change (py_get form "long_term_memory_strategy" JNull)
    with (Ok (MemoryStrategyConfig.model_dump
                (WorkingMemory.long_term_memory_strategy d))).
  rewrite bind_lift_Ok.
  change (py_truthy (MemoryStrategyConfig.model_dump
                       (WorkingMemory.long_term_memory_strategy d))) with true.
  cbv iota. rewrite strategy_validate_dump, bind_lift_Ok.
  change (py_get form "context" JNull)
    with (Ok (dump_optional JStr (WorkingMemory.context d))).
  rewrite bind_lift_Ok.
  change (py_get form "user_id" JNull)
    with (Ok (dump_optional JStr (WorkingMemory.user_id d))).
  rewrite bind_lift_Ok.
  change (py_get form "tokens" (JInt 0))
    with (Ok (JInt (WorkingMemory.tokens d))).
  rewrite bind_lift_Ok.
  change (py_get form "ttl_seconds" JNull)
    with (Ok (dump_optional JInt (WorkingMemory.ttl_seconds d))).
  rewrite bind_lift_Ok.
  change (py_get form "data" JNull)
    with (Ok (py_or (JObj (WorkingMemory.data d)) (JObj []))).
  rewrite bind_lift_Ok.
  rewrite bind_time_int.
  change (x ← py_get form "last_accessed" _; fromtimestamp x)
    with (fromtimestamp (JInt (seconds (WorkingMemory.last_accessed d)))).
  rewrite (fromtimestamp_seconds _ Hla), bind_lift_Ok.
  rewrite bind_time_int.
  change (x ← py_get form "created_at" _; fromtimestamp x)
    with (fromtimestamp (JInt (seconds (WorkingMemory.created_at d)))).
  rewrite (fromtimestamp_seconds _ Hca), bind_lift_Ok.
  rewrite bind_time_int.
  change (x ← py_get form "updated_at" _; fromtimestamp x)
    with (fromtimestamp (JInt (seconds (WorkingMemory.updated_at d)))).
  rewrite (fromtimestamp_seconds _ Hua), bind_lift_Ok.
  fold (recent_window recent_messages_limit (WorkingMemory.messages d)).
  set (kept := recent_window recent_messages_limit (WorkingMemory.messages d)).
  assert (WorkingMemory.init kept (WorkingMemory.memories d)
            (dump_optional JStr (WorkingMemory.context d))
            (dump_optional JStr (WorkingMemory.user_id d))
            (JInt (WorkingMemory.tokens d)) session_id namespace
            (dump_optional JInt (WorkingMemory.ttl_seconds d))
            (py_or (py_or (JObj (WorkingMemory.data d)) (JObj [])) (JObj []))
            (WorkingMemory.long_term_memory_strategy d)
            (seconds (WorkingMemory.last_accessed d) * MICRO)
            (seconds (WorkingMemory.created_at d) * MICRO)
            (seconds (WorkingMemory.updated_at d) * MICRO)
          = Ok (WorkingMemory.mk kept
                  (WorkingMemory.memories d) (WorkingMemory.context d)
                  (WorkingMemory.user_id d) (WorkingMemory.tokens d)
                  session_id namespace (WorkingMemory.ttl_seconds d)
                  (WorkingMemory.data d)
                  (WorkingMemory.long_term_memory_strategy d)
                  (seconds (WorkingMemory.last_accessed d) * MICRO)
                  (seconds (WorkingMemory.created_at d) * MICRO)
                  (seconds (WorkingMemory.updated_at d) * MICRO)))
    as ->; [|reflexivity].
  clearbody kept. clear.
  destruct d as [? ? [c|] [u|] ? ? ? [l|] [|kv0 data0] ? ? ? ?]; reflexivity.
Qed.

(** A store that holds the whole-seconds form of a document under the key
    of a call: the call returns that document, with the [session_id] and
    the [namespace] of the call, and its three timestamps in whole
    seconds. *)
Lemma get_working_memory_reads_wire (d : WorkingMemory.t) (session_id : string)
    (user_id namespace : option string) (w : World) :
  fault w = None →
  kv w !! working_memory_key session_id user_id namespace
  = Some (mk_entry (JsonText (whole_seconds_form d)) None) →
  valid_datetime (WorkingMemory.last_accessed d) →
  valid_datetime (WorkingMemory.created_at d) →
  valid_datetime (WorkingMemory.updated_at d) →
  fst (get_working_memory working_memory_key
         index_all_messages_in_long_term_memory search
         session_id user_id namespace None w)
  = Ok (Some
          {| WorkingMemory.messages := WorkingMemory.messages d;
             WorkingMemory.memories := WorkingMemory.memories d;
             WorkingMemory.context := WorkingMemory.context d;
             WorkingMemory.user_id := WorkingMemory.user_id d;
             WorkingMemory.tokens := WorkingMemory.tokens d;
             WorkingMemory.session_id := session_id;
             WorkingMemory.namespace := namespace;
             WorkingMemory.ttl_seconds := WorkingMemory.ttl_seconds d;
             WorkingMemory.data := WorkingMemory.data d;
             WorkingMemory.long_term_memory_strategy :=
               WorkingMemory.long_term_memory_strategy d;
             WorkingMemory.last_accessed :=
               whole_seconds (WorkingMemory.last_accessed d);
             WorkingMemory.created_at :=
               whole_seconds (WorkingMemory.created_at d);
             WorkingMemory.updated_at :=
               whole_seconds (WorkingMemory.updated_at d) |}).
Proof.
  intros Hf Hkv Hla Hca Hua.
  by rewrite (get_working_memory_reads_form timestamp_int d session_id user_id
                namespace None w Hf Hkv (timestamp_int_seconds _ Hla)
                (timestamp_int_seconds _ Hca) (timestamp_int_seconds _ Hua)).
Qed.

(** The same of the wire form of a document whose timestamps are less than
    [2^34] seconds from the epoch, whatever the limit. *)
Lemma get_working_memory_reads_exact (d : WorkingMemory.t) (session_id : string)
    (user_id namespace : option string) (recent_messages_limit : option Z)
    (w : World) :
  fault w = None →
  kv w !! working_memory_key session_id user_id namespace
  = Some (mk_entry (JsonText (wire_form d)) None) →
  exact_seconds (WorkingMemory.last_accessed d) →
  exact_seconds (WorkingMemory.created_at d) →
  exact_seconds (WorkingMemory.updated_at d) →
  fst (get_working_memory working_memory_key
         index_all_messages_in_long_term_memory search
         session_id user_id namespace recent_messages_limit w)
  = Ok (Some
          {| WorkingMemory.messages :=
               recent_window recent_messages_limit (WorkingMemory.messages d);
             WorkingMemory.memories := WorkingMemory.memories d;
             WorkingMemory.context := WorkingMemory.context d;
             WorkingMemory.user_id := WorkingMemory.user_id d;
             WorkingMemory.tokens := WorkingMemory.tokens d;
             WorkingMemory.session_id := session_id;
             WorkingMemory.namespace := namespace;
             WorkingMemory.ttl_seconds := WorkingMemory.ttl_seconds d;
             WorkingMemory.data := WorkingMemory.data d;
             WorkingMemory.long_term_memory_strategy :=
               WorkingMemory.long_term_memory_strategy d;
             WorkingMemory.last_accessed :=
               whole_seconds (WorkingMemory.last_accessed d);
             WorkingMemory.created_at :=
               whole_seconds (WorkingMemory.created_at d);
             WorkingMemory.updated_at :=
               whole_seconds (WorkingMemory.updated_at d) |}).
Proof.
  intros Hf Hkv Hla Hca Hua.
  rewrite (wire_form_exact d Hla Hca Hua) in Hkv.
  by rewrite (get_working_memory_reads_form timestamp_int d session_id user_id
                namespace recent_messages_limit w Hf Hkv
                (timestamp_int_seconds _ (exact_seconds_valid _ Hla))
                (timestamp_int_seconds _ (exact_seconds_valid _ Hca))
                (timestamp_int_seconds _ (exact_seconds_valid _ Hua))).
Qed.

End RoundTrip.

(** C1, amended: for a document with no TTL whose memory records all have
    an id and whose [created_at] and [last_accessed] are less than [2^34]
    seconds from the epoch (from August 1425 to May 2514), set at such an
    instant on a store that can be reached, the call of
    [set_working_memory] returns, and as long as the store holds what it
    held then and can be reached, [get_working_memory] for the session,
    the user and the namespace of the document returns the document with
    every field as it was, but for the three timestamps of the document:
    [created_at] and [last_accessed] come back in whole seconds, the
    fraction of a second cut off, and [updated_at] is the instant of the
    set, in whole seconds. *)
Theorem set_get_round_trip {lowering : Lower}
    (working_memory_key : string → option string → option string → string)
    (index_all_messages_in_long_term_memory : bool)
    (search : SearchQuery → result (list MemoryRecord.t))
    (d : WorkingMemory.t) (w : World) :
  fault w = None →
  WorkingMemory.ttl_seconds d = None →
  (∀ memory, memory ∈ WorkingMemory.memories d → MemoryRecord.id memory ≠ "") →
  exact_seconds (WorkingMemory.last_accessed d) →
  exact_seconds (WorkingMemory.created_at d) →
  exact_seconds (clock w) →
  ∃ w1,
    set_working_memory working_memory_key d w
    = (Ok (WorkingMemory.set_updated_at (clock w) d), w1)
    ∧ ∀ w2, fault w2 = None → kv w2 = kv w1 →
        fst (get_working_memory working_memory_key
               index_all_messages_in_long_term_memory search
               (WorkingMemory.session_id d) (WorkingMemory.user_id d)
               (WorkingMemory.namespace d) None w2)
        = Ok (Some (read_back (clock w) d)).
Proof.
  intros Hf Httl Hids Hla Hca Hnow.
  destruct (set_working_memory_stores working_memory_key d w Hf Httl Hids)
    as (w1 & Hset & Hkv).
  exists w1. split; [exact Hset|]. intros w2 Hf2 Hkv2.
  rewrite (get_working_memory_reads_exact working_memory_key
             index_all_messages_in_long_term_memory search
             (WorkingMemory.set_updated_at (clock w) d)); try done.
  rewrite Hkv2, Hkv. apply lookup_insert_eq.
Qed.

Lemma set_get_round_trip_witness :
  ∃ w1,
    set_working_memory sample_working_memory_key sample_document empty_world
    = (Ok (WorkingMemory.set_updated_at (clock empty_world) sample_document), w1)
    ∧ ∀ w2, fault w2 = None → kv w2 = kv w1 →
        fst (get_working_memory sample_working_memory_key true sample_search
               "s1" (Some "alice") (Some "demo") None w2)
        = Ok (Some (read_back (clock empty_world) sample_document)).
Proof.
  apply (set_get_round_trip sample_working_memory_key true sample_search
           sample_document empty_world).
  - reflexivity.
  - reflexivity.
  - intros memory Hm. apply list_elem_of_singleton in Hm as ->. discriminate.
  - unfold exact_seconds, EXACT_SECONDS, MICRO. simpl. lia.
  - unfold exact_seconds, EXACT_SECONDS, MICRO. simpl. lia.
  - unfold exact_seconds, EXACT_SECONDS, MICRO. simpl. lia.
Defined.

(** C1, as stated, fails: the sample document was created a quarter of a
    second after a whole second and last accessed half a second after one,
    and is read back with both instants at the whole second. *)
Lemma set_get_drops_subseconds :
  ¬ exact_round_trip sample_working_memory_key sample_document empty_world.
Proof.
  unfold exact_round_trip. intros [updated_at H]. vm_compute in H.
  discriminate H.
Qed.

(** What is read back in its place. *)
Example set_get_sample :
  fst (get_working_memory sample_working_memory_key false no_memories
         "s1" (Some "alice") (Some "demo") None
         (snd (set_working_memory sample_working_memory_key sample_document
                 empty_world)))
  = Ok (Some (read_back 1700000000123456 sample_document))
  ∧ WorkingMemory.created_at (read_back 1700000000123456 sample_document)
    = 1699999990000000
  ∧ WorkingMemory.last_accessed (read_back 1700000000123456 sample_document)
    = 1699999995000000
  ∧ WorkingMemory.updated_at (read_back 1700000000123456 sample_document)
    = 1700000000000000.
Proof. vm_compute. done. Qed.

(** Whatever the timestamps of the document: as long as the seconds that
    are written for them are seconds of a datetime, the document is read
    back with every field as it was and the three timestamps at the
    seconds [int(t.timestamp())] gave. *)
Lemma set_get_stored_seconds {lowering : Lower}
    (working_memory_key : string → option string → option string → string)
    (index_all_messages_in_long_term_memory : bool)
    (search : SearchQuery → result (list MemoryRecord.t))
    (d : WorkingMemory.t) (w : World) :
  fault w = None →
  WorkingMemory.ttl_seconds d = None →
  (∀ memory, memory ∈ WorkingMemory.memories d → MemoryRecord.id memory ≠ "") →
  MIN_SECONDS ≤ int_timestamp (WorkingMemory.last_accessed d) ≤ MAX_SECONDS →
  MIN_SECONDS ≤ int_timestamp (WorkingMemory.created_at d) ≤ MAX_SECONDS →
  MIN_SECONDS ≤ int_timestamp (clock w) ≤ MAX_SECONDS →
  ∃ w1,
    set_working_memory working_memory_key d w
    = (Ok (WorkingMemory.set_updated_at (clock w) d), w1)
    ∧ ∀ w2, fault w2 = None → kv w2 = kv w1 →
        fst (get_working_memory working_memory_key
               index_all_messages_in_long_term_memory search
               (WorkingMemory.session_id d) (WorkingMemory.user_id d)
               (WorkingMemory.namespace d) None w2)
        = Ok (Some
                {| WorkingMemory.messages := WorkingMemory.messages d;
                   WorkingMemory.memories := WorkingMemory.memories d;
                   WorkingMemory.context := WorkingMemory.context d;
                   WorkingMemory.user_id := WorkingMemory.user_id d;
                   WorkingMemory.tokens := WorkingMemory.tokens d;
                   WorkingMemory.session_id := WorkingMemory.session_id d;
                   WorkingMemory.namespace := WorkingMemory.namespace d;
                   WorkingMemory.ttl_seconds := WorkingMemory.ttl_seconds d;
                   WorkingMemory.data := WorkingMemory.data d;
                   WorkingMemory.long_term_memory_strategy :=
                     WorkingMemory.long_term_memory_strategy d;
                   WorkingMemory.last_accessed :=
                     int_timestamp (WorkingMemory.last_accessed d) * MICRO;
                   WorkingMemory.created_at :=
                     int_timestamp (WorkingMemory.created_at d) * MICRO;
                   WorkingMemory.updated_at :=
                     int_timestamp (clock w) * MICRO |}).
Proof.
  intros Hf Httl Hids Hla Hca Hnow.
  destruct (set_working_memory_stores working_memory_key d w Hf Httl Hids)
    as (w1 & Hset & Hkv).
  exists w1. split; [exact Hset|]. intros w2 Hf2 Hkv2.
  rewrite (get_working_memory_reads_form working_memory_key
             index_all_messages_in_long_term_memory search int_timestamp
             (WorkingMemory.set_updated_at (clock w) d)); try done.
  rewrite Hkv2, Hkv. apply lookup_insert_eq.
Qed.

(** A document created at [datetime.max] is written with the seconds of
    the year 10000, which [fromtimestamp] refuses: the document that was
    set cannot be read back, and the reader logs the error and returns
    [None]. *)
Example set_get_last_instant :
  fst (get_working_memory sample_working_memory_key false no_memories
         "s1" (Some "alice") (Some "demo") None
         (snd (set_working_memory sample_working_memory_key
                 document_of_the_last_instant empty_world)))
  = Ok None
  ∧ (ERROR, "Error getting working memory for session s1: year is out of range")
    ∈ logs (snd (get_working_memory sample_working_memory_key false no_memories
                   "s1" (Some "alice") (Some "demo") None
                   (snd (set_working_memory sample_working_memory_key
                           document_of_the_last_instant empty_world)))).
Proof. split; [vm_compute; reflexivity|]. vm_compute. set_solver. Qed.

(** The reconstruction of the spec: two long-term records, "user: hi" at
    100 and "assistant: hello" at 101, no key in the store: the document
    has the two messages, in that order. *)
Example get_reconstructs :
  fmap (M := result) (fmap (M := option) WorkingMemory.messages)
    (fst (get_working_memory sample_working_memory_key true
             (λ _, Ok [MemoryRecord.mk "a" "user: hi" 100000000 None;
                       MemoryRecord.mk "b" "assistant: hello" 101000000 None])
             "S" None None None empty_world))
  = Ok (Some [MemoryMessage.mk "a" "user" "hi" 100000000 None;
              MemoryMessage.mk "b" "assistant" "hello" 101000000 None]).
Proof. vm_compute. reflexivity. Qed.

(** ** The limit *)

(** C4: with a limit [n > 0], a document that [get_working_memory] returns,
    from the store or from the reconstruction, has at most [n] messages:
    [n] of the candidates, or all of them if they are fewer; no candidate
    left out is later than a message returned, and the messages returned
    are oldest first. And a document is returned, with these messages: on
    a hit, for a stored wire form, the [n] latest messages of the stored
    document; on a miss with the reconstruction enabled, when a record the
    search returns stands for a message, the [n] latest of the messages
    the records stand for. *)
Theorem recent_messages_limit_latest {lowering : Lower}
    (working_memory_key : string → option string → option string → string)
    (index_all_messages_in_long_term_memory : bool)
    (search : SearchQuery → result (list MemoryRecord.t)) (session_id : string)
    (user_id namespace : option string) (n : Z) (w : World) :
  0 < n →
  let key := working_memory_key session_id user_id namespace in
  let get :=
    get_working_memory working_memory_key index_all_messages_in_long_term_memory
      search session_id user_id namespace (Some n) in
  (∀ w' doc,
     get w = (Ok (Some doc), w') →
     ∃ all_messages dropped,
       candidates key search session_id user_id namespace (Some n) w
       = Ok all_messages
       ∧ all_messages ≡ₚ dropped ++ WorkingMemory.messages doc
       ∧ length (WorkingMemory.messages doc)
         = Nat.min (Z.to_nat n) (length all_messages)
       ∧ Z.of_nat (length (WorkingMemory.messages doc)) ≤ n
       ∧ (∀ d k, d ∈ dropped → k ∈ WorkingMemory.messages doc →
                 MemoryMessage.created_at d ≤ MemoryMessage.created_at k)
       ∧ chronological (WorkingMemory.messages doc))
  ∧ (∀ stored,
       fault w = None →
       kv w !! key = Some (mk_entry (JsonText (wire_form stored)) None) →
       exact_seconds (WorkingMemory.last_accessed stored) →
       exact_seconds (WorkingMemory.created_at stored) →
       exact_seconds (WorkingMemory.updated_at stored) →
       ∃ doc w',
         get w = (Ok (Some doc), w')
         ∧ WorkingMemory.messages doc
           = slice_from (- n)
               (list_sort MemoryMessage.created_at false
                  (WorkingMemory.messages stored)))
  ∧ (∀ results,
       fault w = None →
       bytes_truthy (read_key key w) = false →
       index_all_messages_in_long_term_memory = true →
       search (search_query session_id user_id namespace (Some n)) = Ok results →
       omap message_of results ≠ [] →
       ∃ doc w',
         get w = (Ok (Some doc), w')
         ∧ WorkingMemory.messages doc
           = most_recent (Some n) (omap message_of results)).
Proof.
  intros Hn key get. split; [|split].
  - intros w' doc H. apply get_Some_inv in H. unfold candidates.
    destruct (fault w) as [e|] eqn:Hf.
    { rewrite (try_block_fault _ _ _ _ _ _ _ _ e Hf) in H. discriminate. }
    destruct (bytes_truthy (read_key key w)) eqn:Hhit.
    + apply try_block_hit_inv in H as
        (payload & messages & stored & _ & Hm & Hdoc & _); [|done|done].
      rewrite Hdoc. replace (0 <? n) with true by lia.
      destruct (recent_window_latest n messages Hn) as
        (Hchron & dropped & Hperm & Hlen & Hlate).
      exists messages, dropped. repeat split; try done. lia.
    + apply try_block_miss_inv in H as (w1 & w2 & _ & H); [|done|done].
      apply reconstruct_Some_inv in H as (results & Hs & _ & ->).
      rewrite Hs. simpl WorkingMemory.messages.
      destruct (most_recent_latest n (omap message_of results) Hn) as
        (dropped & Hperm & Hlen & Hlate).
      exists (omap message_of results), dropped. repeat split; try done.
      * lia.
      * apply most_recent_chronological.
  - intros stored Hf Hkv Hla Hca Hua.
    pose proof (get_working_memory_reads_exact working_memory_key
                  index_all_messages_in_long_term_memory search stored
                  session_id user_id namespace (Some n) w Hf Hkv Hla Hca Hua)
      as Hget.
    fold get in Hget. destruct (get w) as [r w'].
    simpl in Hget. subst r. eexists _, w'. split; [reflexivity|].
    simpl. unfold recent_window. by replace (0 <? n) with true by lia.
  - intros results Hf Hmiss -> Hs Hne.
    set (w1 := with_log DEBUG
                 ("No working memory found for parameters: " +:+ session_id
                  +:+ ", " +:+ fmt user_id +:+ ", " +:+ fmt namespace)
                 (with_io (GET key) w)).
    destruct (reconstruct_found search session_id user_id namespace (Some n)
                w1 results Hs Hne) as [lines Hr].
    eexists _, _. split.
    + apply get_returns. unfold get_working_memory_try.
      rewrite bind_unfold, redis_get_eq, Hf. cbv beta iota. fold key.
      rewrite Hmiss. change (negb false) with true. cbv iota.
      rewrite bind_log, bind_unfold. fold w1. rewrite Hr.
      rewrite bind_log. reflexivity.
    + reflexivity.
Qed.

Lemma recent_messages_limit_latest_witness :
  (let doc := foreign_document
                [MemoryMessage.mk "b" "user" "second" 20000000 None;
                 MemoryMessage.mk "c" "user" "third" 30000000 None] in
   ∃ all_messages dropped,
     candidates (sample_working_memory_key "s1" None None) no_memories
       "s1" None None (Some 2) foreign_world = Ok all_messages
     ∧ all_messages ≡ₚ dropped ++ WorkingMemory.messages doc
     ∧ length (WorkingMemory.messages doc)
       = Nat.min (Z.to_nat 2) (length all_messages)
     ∧ Z.of_nat (length (WorkingMemory.messages doc)) ≤ 2
     ∧ (∀ d k, d ∈ dropped → k ∈ WorkingMemory.messages doc →
               MemoryMessage.created_at d ≤ MemoryMessage.created_at k)
     ∧ chronological (WorkingMemory.messages doc))
  ∧ (∃ doc w',
       get_working_memory sample_working_memory_key false no_memories
         "s1" (Some "alice") (Some "demo") (Some 1) stored_world
       = (Ok (Some doc), w')
       ∧ WorkingMemory.messages doc
         = [MemoryMessage.mk "m2" "assistant" "hello" 1699999991750000
              (Some 1699999992000000)])
  ∧ (∃ doc w',
       get_working_memory sample_working_memory_key true sample_search
         "s1" None None (Some 1) empty_world
       = (Ok (Some doc), w')
       ∧ WorkingMemory.messages doc
         = [MemoryMessage.mk "r2" "assistant" "hello: you" 101000000 None]).
Proof.
  split; [|split].
  - intros doc.
    apply (proj1 (recent_messages_limit_latest sample_working_memory_key false
                    no_memories "s1" None None 2 foreign_world ltac:(lia))
             (snd (get_working_memory sample_working_memory_key false
                     no_memories "s1" None None (Some 2) foreign_world))).
    vm_compute. reflexivity.
  - apply (proj1 (proj2 (recent_messages_limit_latest sample_working_memory_key
                           false no_memories "s1" (Some "alice") (Some "demo")
                           1 stored_world ltac:(lia)))
             (WorkingMemory.set_updated_at (clock empty_world) sample_document)).
    + reflexivity.
    + vm_compute. reflexivity.
    + unfold exact_seconds, EXACT_SECONDS, MICRO. simpl. lia.
    + unfold exact_seconds, EXACT_SECONDS, MICRO. simpl. lia.
    + unfold exact_seconds, EXACT_SECONDS, MICRO. simpl. lia.
  - assert (most_recent (Some 1) (omap message_of sample_records)
            = [MemoryMessage.mk "r2" "assistant" "hello: you" 101000000 None])
      as <- by (vm_compute; reflexivity).
    apply (proj2 (proj2 (recent_messages_limit_latest sample_working_memory_key
                           true sample_search "s1" None None 1 empty_world
                           ltac:(lia)))
             sample_records).
    + reflexivity.
    + reflexivity.
    + reflexivity.
    + reflexivity.
    + vm_compute. discriminate.
Defined.

(** * Further properties *)

(** ** Listing sessions: pages *)

(** X1: on a store that can be reached, [list_sessions] with a limit of at
    least 1 and an offset of at least 0 returns the cardinality of the
    index of the namespace and the identifiers of the ranks [offset] to
    [offset + limit - 1] that exist, decoded, in their order; it sends one
    pipeline and changes nothing else: past the end of the index the page
    is empty, and the total is still the cardinality. *)
Theorem list_sessions_returns_page (sessions_key : option string → string)
    (limit offset : Z) (namespace user_id : option string) (w : World) :
  fault w = None → 0 ≤ offset → 0 < limit →
  let members := default [] (zsets w !! sessions_key namespace) in
  list_sessions sessions_key limit offset namespace user_id w
  = (Ok (Z.of_nat (length members), decode_member <$> page limit offset members),
     with_io (PIPELINE_ZCARD_ZRANGE (sessions_key namespace) offset
                                    (offset + limit - 1)) w)
  ∧ (Z.of_nat (length members) ≤ offset → page limit offset members = []).
Proof.
  intros Hf Ho Hl members. split.
  - unfold list_sessions. rewrite bind_unfold.
    unfold redis_pipeline_zcard_zrange, send. rewrite Hf. cbv beta iota zeta.
    fold members. by rewrite zrange_window.
  - intros Hend. unfold page. rewrite drop_ge by lia. apply take_nil.
Qed.

Lemma list_sessions_returns_page_witness :
  let members := default [] (zsets five_sessions !! sample_sessions_key None) in
  list_sessions sample_sessions_key 2 3 None (Some "alice") five_sessions
  = (Ok (Z.of_nat (length members), decode_member <$> page 2 3 members),
     with_io (PIPELINE_ZCARD_ZRANGE (sample_sessions_key None) 3 (3 + 2 - 1))
             five_sessions)
  ∧ (Z.of_nat (length members) ≤ 3 → page 2 3 members = []).
Proof.
  apply (list_sessions_returns_page sample_sessions_key 2 3 None (Some "alice")
           five_sessions); [reflexivity | lia | lia].
Defined.

(** X2: pages tile the index: on a store that can be reached, the page of
    [a] identifiers at [offset] followed by the page of [b] identifiers at
    [offset + a] is the page of [a + b] identifiers at [offset]; no
    identifier is lost or repeated between two consecutive pages. *)
Theorem list_sessions_pages_compose (sessions_key : option string → string)
    (a b offset : Z) (namespace user_id : option string) (w : World) :
  fault w = None → 0 ≤ offset → 0 < a → 0 < b →
  ∃ total ids1 ids2,
    fst (list_sessions sessions_key a offset namespace user_id w)
    = Ok (total, ids1)
    ∧ fst (list_sessions sessions_key b (offset + a) namespace user_id w)
      = Ok (total, ids2)
    ∧ fst (list_sessions sessions_key (a + b) offset namespace user_id w)
      = Ok (total, ids1 ++ ids2).
Proof.
  intros Hf Ho Ha Hb.
  set (members := default [] (zsets w !! sessions_key namespace)).
  assert (∀ limit off, 0 ≤ off → 0 < limit →
            fst (list_sessions sessions_key limit off namespace user_id w)
            = Ok (Z.of_nat (length members),
                  decode_member <$> page limit off members)) as Hpage.
  { intros limit off Hoff Hlimit. unfold list_sessions. rewrite bind_unfold.
    unfold redis_pipeline_zcard_zrange, send. rewrite Hf. cbv beta iota zeta.
    fold members. by rewrite zrange_window. }
  eexists _, _, _. split; [apply Hpage; lia|]. split; [apply Hpage; lia|].
  rewrite Hpage by lia. f_equal. f_equal. rewrite <- fmap_app. f_equal.
  unfold page.
  replace (Z.to_nat (a + b)) with (Z.to_nat a + Z.to_nat b)%nat by lia.
  rewrite <- take_take_drop, drop_drop. do 3 f_equal. lia.
Qed.

Lemma list_sessions_pages_compose_witness :
  ∃ total ids1 ids2,
    fst (list_sessions sample_sessions_key 2 1 None None five_sessions)
    = Ok (total, ids1)
    ∧ fst (list_sessions sample_sessions_key 3 (1 + 2) None None five_sessions)
      = Ok (total, ids2)
    ∧ fst (list_sessions sample_sessions_key (2 + 3) 1 None None five_sessions)
      = Ok (total, ids1 ++ ids2).
Proof.
  apply (list_sessions_pages_compose sample_sessions_key 2 3 1 None None
           five_sessions); [reflexivity | lia | lia | lia].
Defined.

(** X3: [list_sessions] has no lenient path: when the store cannot be
    reached the call raises the error of the store, as it is, and the
    store is as it was. *)
Theorem list_sessions_propagates (sessions_key : option string → string)
    (limit offset : Z) (namespace user_id : option string) (w : World)
    (e : exn) :
  fault w = Some e →
  ∃ w', list_sessions sessions_key limit offset namespace user_id w
        = (Raise e, w')
        ∧ same_store w w'.
Proof.
  intros Hf. unfold list_sessions. rewrite bind_unfold.
  unfold redis_pipeline_zcard_zrange, send. rewrite Hf.
  eexists. split; [reflexivity|]. by repeat split.
Qed.

Lemma list_sessions_propagates_witness :
  ∃ w', list_sessions sample_sessions_key 10 0 None None unreachable_world
        = (Raise (RedisError "Connection refused"), w')
        ∧ same_store unreachable_world w'.
Proof.
  apply (list_sessions_propagates sample_sessions_key 10 0 None None
           unreachable_world (RedisError "Connection refused")).
  reflexivity.
Defined.

(** ** Reading leaves the store alone *)

Lemma same_store_refl (w : World) : same_store w w.
Proof. by repeat split. Qed.

Lemma same_store_trans (w1 w2 w3 : World) :
  same_store w1 w2 → same_store w2 w3 → same_store w1 w3.
Proof.
  intros (H1 & H2 & H3 & H4) (H5 & H6 & H7 & H8).
  repeat split; congruence.
Qed.

Lemma read_key_same_store (key : string) (w w' : World) :
  same_store w w' → read_key key w' = read_key key w.
Proof. intros (Hkv & _ & _ & Hc). unfold read_key. by rewrite Hkv, Hc. Qed.

Section ReadsOnly.
Context {lowering : Lower}.
Variable key : string.

Lemma reads_only_lift {A} (r : result A) : reads_only key (lift r).
Proof. split; [intros w; apply same_store_refl | done]. Qed.

Lemma reads_only_mret {A} (a : A) : reads_only key (mret a).
Proof. split; [intros w; apply same_store_refl | done]. Qed.

Lemma reads_only_log (l : level) (msg : string) : reads_only key (log l msg).
Proof. split; [intros w; by repeat split | done]. Qed.

Lemma reads_only_now : reads_only key now.
Proof.
  split; [intros w; apply same_store_refl|].
  intros w w' _ Hc _. unfold now. simpl. by rewrite Hc.
Qed.

Lemma reads_only_time_int : reads_only key time_int.
Proof.
  split; [intros w; apply same_store_refl|].
  intros w w' _ Hc _. unfold time_int. simpl. by rewrite Hc.
Qed.

Lemma reads_only_redis_get : reads_only key (redis_get key).
Proof.
  split.
  - intros w. rewrite redis_get_eq. destruct (fault w); by repeat split.
  - intros w w' Hf Hc Hr. rewrite !redis_get_eq, <- Hf.
    destruct (fault w); simpl; [done | by rewrite Hr].
Qed.

Lemma reads_only_bind {A B} (m : M A) (f : A → M B) :
  reads_only key m → (∀ a, reads_only key (f a)) → reads_only key (m ≫= f).
Proof.
  intros [Hm1 Hm2] Hf. split.
  - intros w. rewrite bind_unfold. specialize (Hm1 w).
    destruct (m w) as [[a|e|b0] w1]; simpl in *; [|done..].
    eapply same_store_trans; [exact Hm1|]. apply (Hf a).
  - intros w w' Hfa Hc Hr. rewrite !bind_unfold.
    pose proof (Hm2 w w' Hfa Hc Hr) as Hres.
    pose proof (Hm1 w) as Hs. pose proof (Hm1 w') as Hs'.
    destruct (m w) as [r w1], (m w') as [r' w1']. simpl in *. subst r'.
    destruct r as [a|e|b0]; [|done..].
    apply (Hf a).
    + destruct Hs as (_ & _ & -> & _), Hs' as (_ & _ & -> & _). done.
    + destruct Hs as (_ & _ & _ & ->), Hs' as (_ & _ & _ & ->). done.
    + rewrite (read_key_same_store key _ _ Hs), (read_key_same_store key _ _ Hs').
      done.
Qed.

Lemma reads_only_try_except {A} (body : M A) (handler : exn → M A) :
  reads_only key body → (∀ e, reads_only key (handler e)) →
  reads_only key (try_except body handler).
Proof.
  intros [Hm1 Hm2] Hh. split.
  - intros w. unfold try_except. specialize (Hm1 w).
    destruct (body w) as [[a|e|b0] w1]; simpl in *; [done| |done].
    eapply same_store_trans; [exact Hm1|]. apply (Hh e).
  - intros w w' Hfa Hc Hr. unfold try_except.
    pose proof (Hm2 w w' Hfa Hc Hr) as Hres.
    pose proof (Hm1 w) as Hs. pose proof (Hm1 w') as Hs'.
    destruct (body w) as [r w1], (body w') as [r' w1']. simpl in *. subst r'.
    destruct r as [a|e|b0]; [done| |done].
    apply (Hh e).
    + destruct Hs as (_ & _ & -> & _), Hs' as (_ & _ & -> & _). done.
    + destruct Hs as (_ & _ & _ & ->), Hs' as (_ & _ & _ & ->). done.
    + rewrite (read_key_same_store key _ _ Hs), (read_key_same_store key _ _ Hs').
      done.
Qed.

Lemma reads_only_parse_memories (memories : list MemoryRecord.t)
    (messages : list MemoryMessage.t) :
  reads_only key (parse_memories memories messages).
Proof.
  split.
  - intros w. rewrite parse_memories_eq. by repeat split.
  - intros w w' _ _ _. by rewrite !parse_memories_eq.
Qed.

End ReadsOnly.

(** The steps of a coroutine that only reads, one after the other. *)
Ltac reads_only_steps :=
  repeat first
    [ apply reads_only_lift
    | apply reads_only_mret
    | apply reads_only_log
    | apply reads_only_now
    | apply reads_only_time_int
    | apply reads_only_redis_get
    | apply reads_only_parse_memories
    | apply reads_only_try_except; [|intros ?]
    | apply reads_only_bind; [|intros ?]
    | match goal with
      | |- reads_only _ (if ?b then _ else _) => destruct b
      | |- reads_only _ (match ?o with Some _ => _ | None => _ end) => destruct o
      end ].

Section ReadingOnly.
Context {lowering : Lower}.
Variable working_memory_key : string → option string → option string → string.
Variable index_all_messages_in_long_term_memory : bool.
Variable search : SearchQuery → result (list MemoryRecord.t).
Variables (session_id : string) (user_id namespace : option string).
Variable recent_messages_limit : option Z.

Lemma reads_only_reconstruct (key : string) :
  reads_only key
    (_reconstruct_working_memory_from_long_term search session_id user_id
       namespace recent_messages_limit).
Proof.
  unfold _reconstruct_working_memory_from_long_term. cbv zeta.
  reads_only_steps.
Qed.

Lemma reads_only_get :
  reads_only (working_memory_key session_id user_id namespace)
    (get_working_memory working_memory_key
       index_all_messages_in_long_term_memory search session_id user_id
       namespace recent_messages_limit).
Proof.
  unfold get_working_memory, get_working_memory_try. cbv zeta.
  apply reads_only_try_except; [|intros e; reads_only_steps].
  apply reads_only_bind; [apply reads_only_redis_get|]. intros data.
  destruct (negb (bytes_truthy data)).
  - apply reads_only_bind; [apply reads_only_log|]. intros _.
    destruct index_all_messages_in_long_term_memory; [|apply reads_only_mret].
    apply reads_only_bind; [apply reads_only_reconstruct|].
    intros [r|]; reads_only_steps.
  - reads_only_steps.
Qed.

End ReadingOnly.

(** X4: [get_working_memory] never writes: after the call, whatever it
    returned, the keyspace and the session indexes are what they were
    before it; a document it reconstructs is returned, not stored. *)
Theorem get_working_memory_never_writes {lowering : Lower}
    (working_memory_key : string → option string → option string → string)
    (index_all_messages_in_long_term_memory : bool)
    (search : SearchQuery → result (list MemoryRecord.t)) (session_id : string)
    (user_id namespace : option string) (recent_messages_limit : option Z)
    (w : World) :
  let w' := snd (get_working_memory working_memory_key
                   index_all_messages_in_long_term_memory search session_id
                   user_id namespace recent_messages_limit w) in
  kv w' = kv w ∧ zsets w' = zsets w
  ∧ read_key (working_memory_key session_id user_id namespace) w'
    = read_key (working_memory_key session_id user_id namespace) w.
Proof.
  intros w'.
  destruct (reads_only_get working_memory_key
              index_all_messages_in_long_term_memory search session_id user_id
              namespace recent_messages_limit) as [Hframe _].
  specialize (Hframe w). fold w' in Hframe.
  split; [apply Hframe|]. split; [apply Hframe|].
  by apply read_key_same_store.
Qed.

(** X5: two calls of [get_working_memory] in a row, at the same instant
    and with nothing done to the store in between, return the same. *)
Theorem get_working_memory_twice {lowering : Lower}
    (working_memory_key : string → option string → option string → string)
    (index_all_messages_in_long_term_memory : bool)
    (search : SearchQuery → result (list MemoryRecord.t)) (session_id : string)
    (user_id namespace : option string) (recent_messages_limit : option Z)
    (w : World) :
  let get := get_working_memory working_memory_key
               index_all_messages_in_long_term_memory search session_id
               user_id namespace recent_messages_limit in
  fst (get (snd (get w))) = fst (get w).
Proof.
  intros get.
  destruct (reads_only_get working_memory_key
              index_all_messages_in_long_term_memory search session_id user_id
              namespace recent_messages_limit) as [Hframe Hsame].
  pose proof (Hframe w) as Hs. fold get in Hs.
  apply Hsame.
  - apply Hs.
  - apply Hs.
  - by apply read_key_same_store.
Qed.

(** X6: what [get_working_memory] returns is settled by the state of the
    connection, the instant and what the key of the call holds: two stores
    that agree on these, and differ on any other key or index, give the
    same result. *)
Theorem get_working_memory_key_scoped {lowering : Lower}
    (working_memory_key : string → option string → option string → string)
    (index_all_messages_in_long_term_memory : bool)
    (search : SearchQuery → result (list MemoryRecord.t)) (session_id : string)
    (user_id namespace : option string) (recent_messages_limit : option Z)
    (w w' : World) :
  fault w = fault w' →
  clock w = clock w' →
  read_key (working_memory_key session_id user_id namespace) w
  = read_key (working_memory_key session_id user_id namespace) w' →
  fst (get_working_memory working_memory_key
         index_all_messages_in_long_term_memory search session_id user_id
         namespace recent_messages_limit w)
  = fst (get_working_memory working_memory_key
           index_all_messages_in_long_term_memory search session_id user_id
           namespace recent_messages_limit w').
Proof.
  apply (reads_only_get working_memory_key
           index_all_messages_in_long_term_memory search session_id user_id
           namespace recent_messages_limit).
Qed.

Lemma get_working_memory_key_scoped_witness :
  fst (get_working_memory sample_working_memory_key false no_memories
         "s1" None None None foreign_world)
  = fst (get_working_memory sample_working_memory_key false no_memories
           "s1" None None None
           (mk_world (<["working_memory:None:None:s2" :=
                          mk_entry (NotJson "junk") None]> (kv foreign_world))
                     (zsets five_sessions) None (clock foreign_world)
                     [GET "k"] [(INFO, "earlier line")])).
Proof.
  apply (get_working_memory_key_scoped sample_working_memory_key false
           no_memories "s1" None None None foreign_world).
  - reflexivity.
  - reflexivity.
  - vm_compute. reflexivity.
Defined.

(** ** Misses *)

Section Misses.
Context {lowering : Lower}.
Variable working_memory_key : string → option string → option string → string.
Variable index_all_messages_in_long_term_memory : bool.
Variable search : SearchQuery → result (list MemoryRecord.t).
Variables (session_id : string) (user_id namespace : option string).
Variable recent_messages_limit : option Z.

(** On a miss the call returns what the reconstruction returns, if the
    reconstruction is enabled, and [None] if it is not. *)
Lemma get_on_miss (w : World) :
  fault w = None →
  bytes_truthy (read_key (working_memory_key session_id user_id namespace) w)
  = false →
  fst (get_working_memory working_memory_key
         index_all_messages_in_long_term_memory search session_id user_id
         namespace recent_messages_limit w)
  = if index_all_messages_in_long_term_memory
    then fst (_reconstruct_working_memory_from_long_term search session_id
                user_id namespace recent_messages_limit w)
    else Ok None.
Proof.
  intros Hf Hmiss.
  set (key := working_memory_key session_id user_id namespace) in *.
  set (w1 := with_log DEBUG
               ("No working memory found for parameters: " +:+ session_id
                +:+ ", " +:+ fmt user_id +:+ ", " +:+ fmt namespace)
               (with_io (GET key) w)).
  assert (get_working_memory_try index_all_messages_in_long_term_memory search
            key session_id user_id namespace recent_messages_limit w
          = (if index_all_messages_in_long_term_memory
             then r ← _reconstruct_working_memory_from_long_term search
                        session_id user_id namespace recent_messages_limit;
                  match r with
                  | Some r =>
                      log INFO ("Reconstructed working memory for session "
                                +:+ session_id +:+ " from long-term storage");;
                      mret (Some r)
                  | None => mret None
                  end
             else mret None) w1) as Htry.
  { unfold get_working_memory_try.
    rewrite bind_unfold, redis_get_eq, Hf. cbv beta iota.
    rewrite Hmiss. change (negb false) with true. cbv iota.
    by rewrite bind_log. }
  destruct index_all_messages_in_long_term_memory.
  - destruct (reads_only_reconstruct search session_id user_id namespace
                recent_messages_limit key) as [_ Hsame].
    rewrite <- (Hsame w1 w) by done.
    rewrite bind_unfold in Htry.
    destruct (reconstruct_outcome search session_id user_id namespace
                recent_messages_limit w1) as [(r & lines & Hr)|(b & _ & Hr)];
      rewrite Hr in Htry |- *; simpl.
    + destruct r as [r|]; erewrite get_returns; try exact Htry; done.
    + erewrite get_passes; [|exact Htry]. done.
  - erewrite get_returns; [|exact Htry]. done.
Qed.

End Misses.

(** X7: on a store that can be reached, when the key of the call is not
    there, has expired, or holds the empty byte string, [get_working_memory]
    returns what the reconstruction returns if the reconstruction is
    enabled, and [None] if it is not. *)
Theorem get_working_memory_miss {lowering : Lower}
    (working_memory_key : string → option string → option string → string)
    (index_all_messages_in_long_term_memory : bool)
    (search : SearchQuery → result (list MemoryRecord.t)) (session_id : string)
    (user_id namespace : option string) (recent_messages_limit : option Z)
    (w : World) :
  let key := working_memory_key session_id user_id namespace in
  fault w = None →
  (kv w !! key = None
   ∨ (∃ e deadline, kv w !! key = Some e ∧ expires_at e = Some deadline
                    ∧ deadline ≤ clock w)
   ∨ (∃ e, kv w !! key = Some e ∧ value e = NotJson "")) →
  fst (get_working_memory working_memory_key
         index_all_messages_in_long_term_memory search session_id user_id
         namespace recent_messages_limit w)
  = if index_all_messages_in_long_term_memory
    then fst (_reconstruct_working_memory_from_long_term search session_id
                user_id namespace recent_messages_limit w)
    else Ok None.
Proof.
  intros key Hf Hmiss. apply get_on_miss; [done|]. fold key.
  unfold read_key.
  destruct Hmiss as [->|[(e & deadline & -> & He & Hd)|(e & -> & He)]].
  - done.
  - unfold live. rewrite He. by replace (clock w <? deadline) with false by lia.
  - rewrite He. by destruct (live (clock w) e).
Qed.

Lemma get_working_memory_miss_witness :
  fst (get_working_memory sample_working_memory_key true sample_search
         "s1" None None None empty_world)
  = if true
    then fst (_reconstruct_working_memory_from_long_term sample_search "s1"
                None None None empty_world)
    else Ok None.
Proof.
  apply (get_working_memory_miss sample_working_memory_key true sample_search
           "s1" None None None empty_world).
  - reflexivity.
  - left. reflexivity.
Defined.

(** X8: on a hit, the long-term search and the setting that enables the
    reconstruction play no part: the call does the same with any other
    search and the other setting. *)
Theorem get_working_memory_hit_ignores_search {lowering : Lower}
    (working_memory_key : string → option string → option string → string)
    (flag flag' : bool)
    (search search' : SearchQuery → result (list MemoryRecord.t))
    (session_id : string) (user_id namespace : option string)
    (recent_messages_limit : option Z) (w : World) :
  bytes_truthy (read_key (working_memory_key session_id user_id namespace) w)
  = true →
  get_working_memory working_memory_key flag search session_id user_id
    namespace recent_messages_limit w
  = get_working_memory working_memory_key flag' search' session_id user_id
      namespace recent_messages_limit w.
Proof.
  intros Hhit. unfold get_working_memory, try_except. cbv zeta.
  assert (∀ f s,
            get_working_memory_try f s
              (working_memory_key session_id user_id namespace) session_id
              user_id namespace recent_messages_limit w
            = get_working_memory_try true (λ _, Ok [])
                (working_memory_key session_id user_id namespace) session_id
                user_id namespace recent_messages_limit w) as Htry.
  { intros f s. unfold get_working_memory_try.
    rewrite !bind_unfold, redis_get_eq.
    destruct (fault w); [done|]. cbv beta iota. rewrite Hhit.
    reflexivity. }
  by rewrite (Htry flag search), (Htry flag' search').
Qed.

Lemma get_working_memory_hit_ignores_search_witness :
  get_working_memory sample_working_memory_key false no_memories "s1" None
    None (Some 2) foreign_world
  = get_working_memory sample_working_memory_key true search_down "s1" None
      None (Some 2) foreign_world.
Proof.
  apply (get_working_memory_hit_ignores_search sample_working_memory_key
           false true no_memories search_down "s1" None None (Some 2)
           foreign_world).
  vm_compute. reflexivity.
Defined.

(** ** Writing and deleting *)

Lemma read_key_lookup (key : string) (w w' : World) :
  kv w' !! key = kv w !! key → clock w' = clock w →
  read_key key w' = read_key key w.
Proof. intros Hkv Hc. unfold read_key. by rewrite Hkv, Hc. Qed.

Section Writing.
Variable working_memory_key : string → option string → option string → string.

(** Whatever [set_working_memory] does, it does to the key of the document
    only. *)
Lemma set_working_memory_frame (d : WorkingMemory.t) (w : World) :
  let key := working_memory_key (WorkingMemory.session_id d)
               (WorkingMemory.user_id d) (WorkingMemory.namespace d) in
  let w' := snd (set_working_memory working_memory_key d w) in
  fault w' = fault w ∧ clock w' = clock w ∧ zsets w' = zsets w
  ∧ ∀ k, k ≠ key → kv w' !! k = kv w !! k.
Proof.
  intros key w'.
  assert (w' = w
          ∨ (∃ c, w' = with_io c w)
          ∨ (∃ c l msg, w' = with_log l msg (with_io c w))
          ∨ (∃ c l msg e, w' = with_log l msg
                                 (with_kv (<[key := e]> (kv w)) (with_io c w))))
    as Hcases.
  { subst w'.
    destruct (set_working_memory working_memory_key d w) as [r w1] eqn:H.
    simpl. unfold set_working_memory in H.
    rewrite bind_unfold in H. unfold lift at 1 in H.
    destruct (for_each check_id (WorkingMemory.memories d)) as [us|e|b0];
      [|injection H as _ <-; by left..].
    cbv beta iota in H. rewrite bind_unfold in H. unfold now at 1 in H.
    cbv beta iota zeta in H. rewrite bind_unfold in H. unfold try_except in H.
    change (WorkingMemory.ttl_seconds (WorkingMemory.set_updated_at (clock w) d))
      with (WorkingMemory.ttl_seconds d) in H.
    change (working_memory_key
              (WorkingMemory.session_id (WorkingMemory.set_updated_at (clock w) d))
              (WorkingMemory.user_id (WorkingMemory.set_updated_at (clock w) d))
              (WorkingMemory.namespace (WorkingMemory.set_updated_at (clock w) d)))
      with key in H.
    destruct (WorkingMemory.ttl_seconds d) as [ttl|];
      rewrite bind_unfold in H; unfold redis_setex, redis_set, send in H;
      destruct (fault w) eqn:Hf; cbv beta iota in H;
      try destruct (0 <? ttl); simpl in H; injection H as _ <-; eauto 10. }
  destruct Hcases as [->|[(c & ->)|[(c & l & msg & ->)|(c & l & msg & e & ->)]]];
    repeat split; try done.
  intros k Hk. simpl. by rewrite lookup_insert_ne.
Qed.

(** The same with a time to live: the key holds the wire form until the
    instant of the set plus the time to live. *)
Lemma set_working_memory_stores_ttl (d : WorkingMemory.t) (ttl : Z) (w : World) :
  fault w = None →
  WorkingMemory.ttl_seconds d = Some ttl →
  0 < ttl →
  (∀ memory, memory ∈ WorkingMemory.memories d → MemoryRecord.id memory ≠ "") →
  let key := working_memory_key (WorkingMemory.session_id d)
               (WorkingMemory.user_id d) (WorkingMemory.namespace d) in
  let stamped := WorkingMemory.set_updated_at (clock w) d in
  ∃ w1, set_working_memory working_memory_key d w = (Ok stamped, w1)
        ∧ clock w1 = clock w ∧ fault w1 = None
        ∧ kv w1 = <[key := mk_entry (JsonText (wire_form stamped))
                             (Some (clock w + ttl * MICRO))]> (kv w).
Proof.
  intros Hf Httl Hpos Hids key stamped.
  destruct (check_ids_pass _ Hids) as [us Hus].
  unfold set_working_memory. rewrite bind_unfold. unfold lift at 1.
  rewrite Hus. cbv beta iota. rewrite bind_unfold. unfold now at 1.
  cbv beta iota zeta. rewrite bind_unfold. unfold try_except.
  change (WorkingMemory.ttl_seconds (WorkingMemory.set_updated_at (clock w) d))
    with (WorkingMemory.ttl_seconds d).
  rewrite Httl. rewrite bind_unfold. unfold redis_setex, send. rewrite Hf.
  cbv beta iota. replace (0 <? ttl) with true by lia.
  cbv beta iota. unfold log. eexists. repeat split; try reflexivity. exact Hf.
Qed.

(** The store cannot be reached: the error comes out of the call. *)
Lemma set_working_memory_fault (d : WorkingMemory.t) (w : World) (e : exn) :
  fault w = Some e →
  (∀ memory, memory ∈ WorkingMemory.memories d → MemoryRecord.id memory ≠ "") →
  ∃ w', set_working_memory working_memory_key d w = (Raise e, w')
        ∧ same_store w w'
        ∧ logs w' = logs w
                    ++ [(ERROR, "Error setting working memory for session "
                                +:+ WorkingMemory.session_id d
                                +:+ ": " +:+ exn_str e)].
Proof.
  intros Hf Hids.
  destruct (check_ids_pass _ Hids) as [us Hus].
  unfold set_working_memory. rewrite bind_unfold. unfold lift at 1.
  rewrite Hus. cbv beta iota. rewrite bind_unfold. unfold now at 1.
  cbv beta iota zeta. rewrite bind_unfold. unfold try_except.
  change (WorkingMemory.ttl_seconds (WorkingMemory.set_updated_at (clock w) d))
    with (WorkingMemory.ttl_seconds d).
  destruct (WorkingMemory.ttl_seconds d) as [ttl|];
    rewrite bind_unfold; unfold redis_setex, redis_set, send; rewrite Hf;
    cbv beta iota; eexists; (split; [reflexivity|]); by repeat split.
Qed.

End Writing.

(** X9: a store error is not swallowed by [set_working_memory]: for a
    document whose memory records all have an id, on a store that cannot
    be reached, the call raises the error of the store after it has logged
    it, and the keyspace and the indexes are as they were. *)
Theorem set_working_memory_propagates
    (working_memory_key : string → option string → option string → string)
    (d : WorkingMemory.t) (w : World) (e : exn) :
  fault w = Some e →
  (∀ memory, memory ∈ WorkingMemory.memories d → MemoryRecord.id memory ≠ "") →
  ∃ w', set_working_memory working_memory_key d w = (Raise e, w')
        ∧ kv w' = kv w ∧ zsets w' = zsets w
        ∧ (ERROR, "Error setting working memory for session "
                  +:+ WorkingMemory.session_id d +:+ ": " +:+ exn_str e)
          ∈ logs w'.
Proof.
  intros Hf Hids.
  destruct (set_working_memory_fault working_memory_key d w e Hf Hids)
    as (w' & Hset & (Hkv & Hz & _) & Hlog).
  exists w'. repeat split; try done.
  rewrite Hlog, elem_of_app. right. by left.
Qed.

Lemma set_working_memory_propagates_witness :
  ∃ w', set_working_memory sample_working_memory_key sample_document_ttl
          unreachable_world
        = (Raise (RedisError "Connection refused"), w')
        ∧ kv w' = kv unreachable_world ∧ zsets w' = zsets unreachable_world
        ∧ (ERROR, "Error setting working memory for session "
                  +:+ WorkingMemory.session_id sample_document_ttl +:+ ": "
                  +:+ exn_str (RedisError "Connection refused"))
          ∈ logs w'.
Proof.
  apply (set_working_memory_propagates sample_working_memory_key
           sample_document_ttl unreachable_world
           (RedisError "Connection refused")).
  - reflexivity.
  - intros memory Hm. apply list_elem_of_singleton in Hm as ->. discriminate.
Defined.

(** X10: [set_working_memory] touches the key of its document only: what
    [get_working_memory] returns for any other key is what it returned
    before the set, whether the set went through or not, and the session
    indexes are as they were. *)
Theorem set_working_memory_other_keys {lowering : Lower}
    (working_memory_key : string → option string → option string → string)
    (index_all_messages_in_long_term_memory : bool)
    (search : SearchQuery → result (list MemoryRecord.t))
    (d : WorkingMemory.t) (session_id : string)
    (user_id namespace : option string) (recent_messages_limit : option Z)
    (w : World) :
  working_memory_key session_id user_id namespace
  ≠ working_memory_key (WorkingMemory.session_id d) (WorkingMemory.user_id d)
      (WorkingMemory.namespace d) →
  let w' := snd (set_working_memory working_memory_key d w) in
  fst (get_working_memory working_memory_key
         index_all_messages_in_long_term_memory search session_id user_id
         namespace recent_messages_limit w')
  = fst (get_working_memory working_memory_key
           index_all_messages_in_long_term_memory search session_id user_id
           namespace recent_messages_limit w)
  ∧ zsets w' = zsets w.
Proof.
  intros Hne w'.
  destruct (set_working_memory_frame working_memory_key d w)
    as (Hf & Hc & Hz & Hkv).
  fold w' in Hf, Hc, Hz, Hkv. split; [|done].
  apply (reads_only_get working_memory_key
           index_all_messages_in_long_term_memory search session_id user_id
           namespace recent_messages_limit); try done.
  apply read_key_lookup; [by apply Hkv | done].
Qed.

Lemma set_working_memory_other_keys_witness :
  let w' := snd (set_working_memory sample_working_memory_key sample_document
                   foreign_world) in
  fst (get_working_memory sample_working_memory_key false no_memories
         "s1" None None None w')
  = fst (get_working_memory sample_working_memory_key false no_memories
           "s1" None None None foreign_world)
  ∧ zsets w' = zsets foreign_world.
Proof.
  apply (set_working_memory_other_keys sample_working_memory_key false
           no_memories sample_document "s1" None None None foreign_world).
  vm_compute. discriminate.
Defined.

Section TimeToLive.
Variable working_memory_key : string → option string → option string → string.
Variable index_all_messages_in_long_term_memory : bool.
Variable search : SearchQuery → result (list MemoryRecord.t).

(** The store after a document was set with a time to live, at an instant
    [t]. *)
Lemma read_key_ttl (key : string) (v : bytes) (deadline t : datetime)
    (w1 : World) (m : gmap string entry) :
  kv w1 = <[key := mk_entry v (Some deadline)]> m →
  read_key key (at_instant t w1) = if t <? deadline then Some v else None.
Proof.
  intros Hkv. unfold read_key, at_instant. simpl.
  by rewrite Hkv, lookup_insert_eq.
Qed.

End TimeToLive.

(** X11: a document set with a time to live of [ttl > 0] seconds is read
    back, at every instant before the instant of the set plus [ttl]
    seconds, as a document set without one is: every field as it was
    ([ttl_seconds] too), the three timestamps in whole seconds. As for the
    round trip, the [created_at] and the [last_accessed] of the document
    and the instant of the set are less than [2^34] seconds from the
    epoch. *)
Theorem set_get_before_expiry {lowering : Lower}
    (working_memory_key : string → option string → option string → string)
    (index_all_messages_in_long_term_memory : bool)
    (search : SearchQuery → result (list MemoryRecord.t))
    (d : WorkingMemory.t) (ttl : Z) (w : World) :
  fault w = None →
  WorkingMemory.ttl_seconds d = Some ttl →
  0 < ttl →
  (∀ memory, memory ∈ WorkingMemory.memories d → MemoryRecord.id memory ≠ "") →
  exact_seconds (WorkingMemory.last_accessed d) →
  exact_seconds (WorkingMemory.created_at d) →
  exact_seconds (clock w) →
  ∃ w1,
    set_working_memory working_memory_key d w
    = (Ok (WorkingMemory.set_updated_at (clock w) d), w1)
    ∧ ∀ t, t < clock w + ttl * MICRO →
        fst (get_working_memory working_memory_key
               index_all_messages_in_long_term_memory search
               (WorkingMemory.session_id d) (WorkingMemory.user_id d)
               (WorkingMemory.namespace d) None (at_instant t w1))
        = Ok (Some (read_back (clock w) d)).
Proof.
  intros Hf Httl Hpos Hids Hla Hca Hnow.
  destruct (set_working_memory_stores_ttl working_memory_key d ttl w
              Hf Httl Hpos Hids) as (w1 & Hset & Hc1 & Hf1 & Hkv).
  exists w1. split; [exact Hset|]. intros t Ht.
  set (stamped := WorkingMemory.set_updated_at (clock w) d) in *.
  set (key := working_memory_key (WorkingMemory.session_id d)
                (WorkingMemory.user_id d) (WorkingMemory.namespace d)) in *.
  set (plain := mk_world (<[key := mk_entry (JsonText (wire_form stamped)) None]>
                            (kv w)) ∅ None t [] []).
  transitivity
    (fst (get_working_memory working_memory_key
            index_all_messages_in_long_term_memory search
            (WorkingMemory.session_id d) (WorkingMemory.user_id d)
            (WorkingMemory.namespace d) None plain)).
  - apply (reads_only_get working_memory_key
             index_all_messages_in_long_term_memory search
             (WorkingMemory.session_id d) (WorkingMemory.user_id d)
             (WorkingMemory.namespace d) None); [exact Hf1 | done |].
    fold key. rewrite (read_key_ttl key _ _ t w1 _ Hkv).
    replace (t <? clock w + ttl * MICRO) with true by lia.
    unfold read_key, plain. simpl. by rewrite lookup_insert_eq.
  - rewrite (get_working_memory_reads_exact working_memory_key
               index_all_messages_in_long_term_memory search stamped);
      try done.
    unfold plain. simpl. apply lookup_insert_eq.
Qed.

Lemma set_get_before_expiry_witness :
  ∃ w1,
    set_working_memory sample_working_memory_key sample_document_ttl empty_world
    = (Ok (WorkingMemory.set_updated_at (clock empty_world) sample_document_ttl),
       w1)
    ∧ ∀ t, t < clock empty_world + 60 * MICRO →
        fst (get_working_memory sample_working_memory_key true sample_search
               "s1" (Some "alice") (Some "demo") None (at_instant t w1))
        = Ok (Some (read_back (clock empty_world) sample_document_ttl)).
Proof.
  apply (set_get_before_expiry sample_working_memory_key true sample_search
           sample_document_ttl 60 empty_world).
  - reflexivity.
  - reflexivity.
  - lia.
  - intros memory Hm. apply list_elem_of_singleton in Hm as ->. discriminate.
  - unfold exact_seconds, EXACT_SECONDS, MICRO. simpl. lia.
  - unfold exact_seconds, EXACT_SECONDS, MICRO. simpl. lia.
  - unfold exact_seconds, EXACT_SECONDS, MICRO. simpl. lia.
Defined.

(** X13: the last writer wins, with nothing left of what was there: after
    any call of [set_working_memory], whatever its document, its time to
    live and its outcome, a document set without a time to live is read
    back, at every later instant, as if it had been set on its own. As for
    the round trip, the [created_at] and the [last_accessed] of that
    document and the instant of the set are less than [2^34] seconds from
    the epoch. *)
Theorem set_overwrites {lowering : Lower}
    (working_memory_key : string → option string → option string → string)
    (index_all_messages_in_long_term_memory : bool)
    (search : SearchQuery → result (list MemoryRecord.t))
    (d1 d2 : WorkingMemory.t) (w : World) :
  fault w = None →
  WorkingMemory.ttl_seconds d2 = None →
  (∀ memory, memory ∈ WorkingMemory.memories d2 → MemoryRecord.id memory ≠ "") →
  exact_seconds (WorkingMemory.last_accessed d2) →
  exact_seconds (WorkingMemory.created_at d2) →
  exact_seconds (clock w) →
  let w1 := snd (set_working_memory working_memory_key d1 w) in
  ∃ w2,
    set_working_memory working_memory_key d2 w1
    = (Ok (WorkingMemory.set_updated_at (clock w) d2), w2)
    ∧ ∀ t,
        fst (get_working_memory working_memory_key
               index_all_messages_in_long_term_memory search
               (WorkingMemory.session_id d2) (WorkingMemory.user_id d2)
               (WorkingMemory.namespace d2) None (at_instant t w2))
        = Ok (Some (read_back (clock w) d2)).
Proof.
  intros Hf Httl Hids Hla Hca Hnow w1.
  destruct (set_working_memory_frame working_memory_key d1 w)
    as (Hf1 & Hc1 & _ & _).
  fold w1 in Hf1, Hc1. rewrite Hf in Hf1.
  destruct (set_working_memory_stores working_memory_key d2 w1 Hf1 Httl Hids)
    as (w2 & Hset & Hkv).
  rewrite Hc1 in Hset, Hkv.
  exists w2. split; [exact Hset|]. intros t.
  assert (fault w2 = None) as Hf2.
  { destruct (set_working_memory_frame working_memory_key d2 w1)
      as (Hf2 & _). rewrite Hset in Hf2. simpl in Hf2. congruence. }
  rewrite (get_working_memory_reads_exact working_memory_key
             index_all_messages_in_long_term_memory search
             (WorkingMemory.set_updated_at (clock w) d2)); try done.
  simpl. rewrite Hkv. apply lookup_insert_eq.
Qed.

Lemma set_overwrites_witness :
  let w1 := snd (set_working_memory sample_working_memory_key
                   sample_document_ttl empty_world) in
  ∃ w2,
    set_working_memory sample_working_memory_key second_document w1
    = (Ok (WorkingMemory.set_updated_at (clock empty_world) second_document), w2)
    ∧ ∀ t,
        fst (get_working_memory sample_working_memory_key false no_memories
               "s1" (Some "alice") (Some "demo") None (at_instant t w2))
        = Ok (Some (read_back (clock empty_world) second_document)).
Proof.
  apply (set_overwrites sample_working_memory_key false no_memories
           sample_document_ttl second_document empty_world).
  - reflexivity.
  - reflexivity.
  - intros memory Hm. by apply elem_of_nil in Hm.
  - unfold exact_seconds, EXACT_SECONDS, MICRO. simpl. lia.
  - unfold exact_seconds, EXACT_SECONDS, MICRO. simpl. lia.
  - unfold exact_seconds, EXACT_SECONDS, MICRO. simpl. lia.
Defined.

Lemma delete_working_memory_eq
    (working_memory_key : string → option string → option string → string)
    (session_id : string) (user_id namespace : option string) (w : World) :
  let key := working_memory_key session_id user_id namespace in
  delete_working_memory working_memory_key session_id user_id namespace w
  = match fault w with
    | None =>
        (Ok (), with_log INFO ("Deleted working memory for session "
                               +:+ session_id)
                  (with_kv (delete key (kv w)) (with_io (DEL key) w)))
    | Some e =>
        (Raise e, with_log ERROR ("Error deleting working memory for session "
                                  +:+ session_id +:+ ": " +:+ exn_str e)
                    (with_io (DEL key) w))
    end.
Proof.
  intros key. unfold delete_working_memory, try_except. fold key.
  rewrite bind_unfold. unfold redis_delete, send.
  by destruct (fault w).
Qed.

(** X14: on a store that can be reached, [delete_working_memory] returns
    whether the key was there or not; after it the key is not there, every
    other key and every session index is as it was, and
    [get_working_memory] for the session is a miss: it returns what the
    reconstruction returns if it is enabled, [None] if not. *)
Theorem delete_working_memory_removes {lowering : Lower}
    (working_memory_key : string → option string → option string → string)
    (index_all_messages_in_long_term_memory : bool)
    (search : SearchQuery → result (list MemoryRecord.t)) (session_id : string)
    (user_id namespace : option string) (recent_messages_limit : option Z)
    (w : World) :
  fault w = None →
  let key := working_memory_key session_id user_id namespace in
  ∃ w',
    delete_working_memory working_memory_key session_id user_id namespace w
    = (Ok (), w')
    ∧ kv w' !! key = None
    ∧ (∀ k, k ≠ key → kv w' !! k = kv w !! k)
    ∧ zsets w' = zsets w
    ∧ fst (get_working_memory working_memory_key
             index_all_messages_in_long_term_memory search session_id user_id
             namespace recent_messages_limit w')
      = if index_all_messages_in_long_term_memory
        then fst (_reconstruct_working_memory_from_long_term search session_id
                    user_id namespace recent_messages_limit w')
        else Ok None.
Proof.
  intros Hf key. rewrite delete_working_memory_eq, Hf. fold key.
  eexists. split; [reflexivity|]. simpl.
  split; [apply lookup_delete_eq|].
  split; [intros k Hk; by apply lookup_delete_ne|].
  split; [done|].
  apply get_on_miss; [exact Hf|]. fold key.
  unfold read_key. simpl. by rewrite lookup_delete_eq.
Qed.

Lemma delete_working_memory_removes_witness :
  let key := sample_working_memory_key "s1" (Some "alice") (Some "demo") in
  ∃ w',
    delete_working_memory sample_working_memory_key "s1" (Some "alice")
      (Some "demo") stored_world
    = (Ok (), w')
    ∧ kv w' !! key = None
    ∧ (∀ k, k ≠ key → kv w' !! k = kv stored_world !! k)
    ∧ zsets w' = zsets stored_world
    ∧ fst (get_working_memory sample_working_memory_key false no_memories
             "s1" (Some "alice") (Some "demo") None w')
      = if false
        then fst (_reconstruct_working_memory_from_long_term no_memories "s1"
                    (Some "alice") (Some "demo") None w')
        else Ok None.
Proof.
  apply (delete_working_memory_removes sample_working_memory_key false
           no_memories "s1" (Some "alice") (Some "demo") None stored_world).
  reflexivity.
Defined.

(** X15: a store error is not swallowed by [delete_working_memory]: on a
    store that cannot be reached the call raises the error of the store
    after it has logged it, and the keyspace and the indexes are as they
    were. *)
Theorem delete_working_memory_propagates
    (working_memory_key : string → option string → option string → string)
    (session_id : string) (user_id namespace : option string) (w : World)
    (e : exn) :
  fault w = Some e →
  ∃ w',
    delete_working_memory working_memory_key session_id user_id namespace w
    = (Raise e, w')
    ∧ kv w' = kv w ∧ zsets w' = zsets w
    ∧ (ERROR, "Error deleting working memory for session "
              +:+ session_id +:+ ": " +:+ exn_str e) ∈ logs w'.
Proof.
  intros Hf. rewrite delete_working_memory_eq, Hf.
  eexists. split; [reflexivity|]. simpl. repeat split.
  rewrite elem_of_app. right. by left.
Qed.

Lemma delete_working_memory_propagates_witness :
  ∃ w',
    delete_working_memory sample_working_memory_key "s1" None None
      unreachable_world
    = (Raise (RedisError "Connection refused"), w')
    ∧ kv w' = kv unreachable_world ∧ zsets w' = zsets unreachable_world
    ∧ (ERROR, "Error deleting working memory for session "
              +:+ "s1" +:+ ": " +:+ exn_str (RedisError "Connection refused"))
      ∈ logs w'.
Proof.
  apply (delete_working_memory_propagates sample_working_memory_key "s1" None
           None unreachable_world (RedisError "Connection refused")).
  reflexivity.
Defined.

(** ** Hits: defaults and stored order *)

Lemma py_get_absent (kv0 : list (string * json)) (k : string) (dflt : json) :
  assoc k kv0 = None → py_get (JObj kv0) k dflt = Ok dflt.
Proof. intros H. unfold py_get. by rewrite H. Qed.

(** X16: a payload that is a JSON object with none of the names of a
    document (an empty object, or the object of another schema) is read as
    the default document: no messages, no memories, no context, no user,
    0 tokens, no time to live, no data, the default strategy, the three
    timestamps at the present second; the session and the namespace are
    those of the call, and names the reader does not know are ignored. *)
Theorem get_working_memory_defaults {lowering : Lower}
    (working_memory_key : string → option string → option string → string)
    (index_all_messages_in_long_term_memory : bool)
    (search : SearchQuery → result (list MemoryRecord.t)) (session_id : string)
    (user_id namespace : option string) (recent_messages_limit : option Z)
    (w : World) (payload : list (string * json)) :
  fault w = None →
  read_key (working_memory_key session_id user_id namespace) w
  = Some (JsonText (JObj payload)) →
  (∀ k, k ∈ document_keys → assoc k payload = None) →
  valid_datetime (clock w) →
  fst (get_working_memory working_memory_key
         index_all_messages_in_long_term_memory search session_id user_id
         namespace recent_messages_limit w)
  = Ok (Some (default_document session_id namespace (clock w))).
Proof.
  intros Hf Hread Habsent Hnow.
  assert (∀ k dflt, k ∈ document_keys → py_get (JObj payload) k dflt = Ok dflt)
    as Hget by (intros k dflt Hk; by apply py_get_absent, Habsent).
  erewrite get_returns; [reflexivity|].
  unfold get_working_memory_try.
  rewrite bind_unfold, redis_get_eq, Hf. cbv beta iota. rewrite Hread.
  change (negb (bytes_truthy (Some (JsonText (JObj payload))))) with false.
  cbv beta iota.
  change (json_loads (Some (JsonText (JObj payload)))) with (Ok (JObj payload)).
  rewrite bind_lift_Ok.
  rewrite (Hget "memories") by (unfold document_keys; set_solver).
  rewrite bind_lift_Ok.
  change (items ← py_iter (JList []); for_each MemoryRecord.validate items)
    with (Ok (@nil MemoryRecord.t)).
  rewrite bind_lift_Ok.
  rewrite (Hget "messages") by (unfold document_keys; set_solver).
  rewrite bind_lift_Ok.
  change (items ← py_iter (JList []); for_each MemoryMessage.validate items)
    with (Ok (@nil MemoryMessage.t)).
  rewrite bind_lift_Ok. cbv zeta.
  rewrite (Hget "long_term_memory_strategy") by (unfold document_keys; set_solver).
  rewrite bind_lift_Ok. change (py_truthy JNull) with false. cbv iota.
  rewrite bind_lift_Ok.
  rewrite (Hget "context") by (unfold document_keys; set_solver).
  rewrite bind_lift_Ok.
  rewrite (Hget "user_id") by (unfold document_keys; set_solver).
  rewrite bind_lift_Ok.
  rewrite (Hget "tokens") by (unfold document_keys; set_solver).
  rewrite bind_lift_Ok.
  rewrite (Hget "ttl_seconds") by (unfold document_keys; set_solver).
  rewrite bind_lift_Ok.
  rewrite (Hget "data") by (unfold document_keys; set_solver).
  rewrite bind_lift_Ok.
  rewrite bind_time_int.
  rewrite (Hget "last_accessed") by (unfold document_keys; set_solver).
  change (clock (with_io _ w)) with (clock w).
  change (x ← Ok (JInt (timestamp_int (clock w))); fromtimestamp x)
    with (fromtimestamp (JInt (timestamp_int (clock w)))).
  rewrite (fromtimestamp_timestamp_int _ Hnow), bind_lift_Ok.
  rewrite bind_time_int.
  rewrite (Hget "created_at") by (unfold document_keys; set_solver).
  change (clock (with_io _ w)) with (clock w).
  change (x ← Ok (JInt (timestamp_int (clock w))); fromtimestamp x)
    with (fromtimestamp (JInt (timestamp_int (clock w)))).
  rewrite (fromtimestamp_timestamp_int _ Hnow), bind_lift_Ok.
  rewrite bind_time_int.
  rewrite (Hget "updated_at") by (unfold document_keys; set_solver).
  change (clock (with_io _ w)) with (clock w).
  change (x ← Ok (JInt (timestamp_int (clock w))); fromtimestamp x)
    with (fromtimestamp (JInt (timestamp_int (clock w)))).
  rewrite (fromtimestamp_timestamp_int _ Hnow), bind_lift_Ok.
  assert (match recent_messages_limit with
          | Some n =>
              if 0 <? n
              then slice_from (- n)
                     (list_sort MemoryMessage.created_at false [])
              else []
          | None => []
          end = @nil MemoryMessage.t) as ->.
  { destruct recent_messages_limit as [n|]; [|done].
    destruct (0 <? n); [|done]. unfold slice_from. simpl. apply drop_nil. }
  reflexivity.
Qed.

Lemma get_working_memory_defaults_witness :
  fst (get_working_memory sample_working_memory_key true search_down
         "s1" None None (Some 5) bare_world)
  = Ok (Some (default_document "s1" None (clock bare_world))).
Proof.
  apply (get_working_memory_defaults sample_working_memory_key true search_down
           "s1" None None (Some 5) bare_world
           [("version", JInt 2); ("session_id", JStr "other")]).
  - reflexivity.
  - reflexivity.
  - intros k Hk. unfold document_keys in Hk.
    repeat (apply elem_of_cons in Hk as [->|Hk]; [reflexivity|]).
    by apply elem_of_nil in Hk.
  - unfold valid_datetime, MIN_SECONDS, MAX_SECONDS, MICRO. simpl. lia.
Defined.

(** X17: on a hit with no limit, or with a limit that is not positive, the
    messages of the document are the messages of the payload, all of them
    and in the order the payload has them: nothing is sorted. *)
Theorem get_working_memory_stored_order {lowering : Lower}
    (working_memory_key : string → option string → option string → string)
    (index_all_messages_in_long_term_memory : bool)
    (search : SearchQuery → result (list MemoryRecord.t)) (session_id : string)
    (user_id namespace : option string) (recent_messages_limit : option Z)
    (w w' : World) (doc : WorkingMemory.t) :
  let data := read_key (working_memory_key session_id user_id namespace) w in
  bytes_truthy data = true →
  default 0 recent_messages_limit ≤ 0 →
  get_working_memory working_memory_key index_all_messages_in_long_term_memory
    search session_id user_id namespace recent_messages_limit w
  = (Ok (Some doc), w') →
  stored_messages data = Ok (WorkingMemory.messages doc).
Proof.
  intros data Hhit Hlim H. apply get_Some_inv in H.
  destruct (fault w) as [e|] eqn:Hf.
  { rewrite (try_block_fault _ _ _ _ _ _ _ _ e Hf) in H. discriminate. }
  apply try_block_hit_inv in H as
    (payload & messages & stored & _ & Hm & Hdoc & _); [|done|done].
  fold data in Hm. rewrite Hm, Hdoc.
  destruct recent_messages_limit as [n|]; [|done]. simpl in Hlim.
  by replace (0 <? n) with false by lia.
Qed.

Lemma get_working_memory_stored_order_witness :
  stored_messages (read_key (sample_working_memory_key "s1" None None)
                     foreign_world)
  = Ok (WorkingMemory.messages
          (foreign_document
             [MemoryMessage.mk "b" "user" "second" 20000000 None;
              MemoryMessage.mk "c" "user" "third" 30000000 None;
              MemoryMessage.mk "a" "user" "first" 10000000 None])).
Proof.
  apply (get_working_memory_stored_order sample_working_memory_key false
           no_memories "s1" None None (Some 0) foreign_world
           (snd (get_working_memory sample_working_memory_key false no_memories
                   "s1" None None (Some 0) foreign_world))).
  - vm_compute. reflexivity.
  - simpl. lia.
  - vm_compute. reflexivity.
Defined.

(** X18: with no limit, or a limit of 0, the reconstruction asks the
    search for at most 1000 records and, when one of those it gets stands
    for a message, returns a document for the session, the user and the
    namespace of the call with all the messages of the records, oldest
    first. *)
Theorem reconstruct_without_limit {lowering : Lower}
    (search : SearchQuery → result (list MemoryRecord.t)) (session_id : string)
    (user_id namespace : option string) (recent_messages_limit : option Z)
    (results : list MemoryRecord.t) (w : World) :
  default 0 recent_messages_limit = 0 →
  search (search_query session_id user_id namespace recent_messages_limit)
  = Ok results →
  omap message_of results ≠ [] →
  q_limit (search_query session_id user_id namespace recent_messages_limit)
  = 1000
  ∧ ∃ doc,
      fst (_reconstruct_working_memory_from_long_term search session_id
             user_id namespace recent_messages_limit w) = Ok (Some doc)
      ∧ WorkingMemory.messages doc ≡ₚ omap message_of results
      ∧ chronological (WorkingMemory.messages doc)
      ∧ WorkingMemory.session_id doc = session_id
      ∧ WorkingMemory.user_id doc = user_id
      ∧ WorkingMemory.namespace doc = namespace.
Proof.
  intros Hlim Hs Hne.
  assert (truthy_int recent_messages_limit = false) as Hfalsy.
  { destruct recent_messages_limit as [n|]; [|done]. simpl in Hlim.
    subst n. done. }
  split.
  - unfold search_query. simpl. by rewrite Hfalsy.
  - destruct (reconstruct_found search session_id user_id namespace
                recent_messages_limit w results Hs Hne) as [lines ->].
    eexists. split; [reflexivity|]. simpl.
    split; [|split; [apply most_recent_chronological | done]].
    unfold most_recent. rewrite Hfalsy. simpl.
    by rewrite reverse_Permutation, list_sort_perm.
Qed.

Lemma reconstruct_without_limit_witness :
  q_limit (search_query "s1" None None None) = 1000
  ∧ ∃ doc,
      fst (_reconstruct_working_memory_from_long_term sample_search "s1"
             None None None empty_world) = Ok (Some doc)
      ∧ WorkingMemory.messages doc ≡ₚ omap message_of sample_records
      ∧ chronological (WorkingMemory.messages doc)
      ∧ WorkingMemory.session_id doc = "s1"
      ∧ WorkingMemory.user_id doc = None
      ∧ WorkingMemory.namespace doc = None.
Proof.
  apply (reconstruct_without_limit sample_search "s1" None None None
           sample_records empty_world).
  - reflexivity.
  - reflexivity.
  - vm_compute. discriminate.
Defined.

(** X19: the rule on the ids of memory records is not checked on reading:
    a stored document with a memory record whose id is empty is returned by
    [get_working_memory], memory records and all, and handing what was
    read to [set_working_memory] is refused. *)
Theorem get_working_memory_accepts_empty_id {lowering : Lower}
    (working_memory_key : string → option string → option string → string)
    (index_all_messages_in_long_term_memory : bool)
    (search : SearchQuery → result (list MemoryRecord.t))
    (d : WorkingMemory.t) (w : World) :
  fault w = None →
  kv w !! working_memory_key (WorkingMemory.session_id d)
            (WorkingMemory.user_id d) (WorkingMemory.namespace d)
  = Some (mk_entry (JsonText (whole_seconds_form d)) None) →
  valid_datetime (WorkingMemory.last_accessed d) →
  valid_datetime (WorkingMemory.created_at d) →
  valid_datetime (WorkingMemory.updated_at d) →
  (∃ memory, memory ∈ WorkingMemory.memories d ∧ MemoryRecord.id memory = "") →
  ∃ doc w',
    get_working_memory working_memory_key
      index_all_messages_in_long_term_memory search
      (WorkingMemory.session_id d) (WorkingMemory.user_id d)
      (WorkingMemory.namespace d) None w = (Ok (Some doc), w')
    ∧ WorkingMemory.memories doc = WorkingMemory.memories d
    ∧ fst (set_working_memory working_memory_key doc w')
      = Raise (ValueError "All memory records in working memory must have an ID").
Proof.
  intros Hf Hkv Hla Hca Hua Hid.
  pose proof (get_working_memory_reads_wire working_memory_key
                index_all_messages_in_long_term_memory search d
                (WorkingMemory.session_id d) (WorkingMemory.user_id d)
                (WorkingMemory.namespace d) w Hf Hkv Hla Hca Hua) as Hget.
  destruct (get_working_memory working_memory_key
              index_all_messages_in_long_term_memory search
              (WorkingMemory.session_id d) (WorkingMemory.user_id d)
              (WorkingMemory.namespace d) None w) as [r w'].
  simpl in Hget. subst r. eexists _, w'. split; [reflexivity|].
  split; [reflexivity|].
  unfold set_working_memory. rewrite bind_unfold. unfold lift.
  simpl WorkingMemory.memories. by rewrite (check_ids_raise _ Hid).
Qed.

Lemma get_working_memory_accepts_empty_id_witness :
  ∃ doc w',
    get_working_memory sample_working_memory_key false no_memories
      "s1" (Some "alice") (Some "demo") None world_without_id
    = (Ok (Some doc), w')
    ∧ WorkingMemory.memories doc = WorkingMemory.memories document_without_id
    ∧ fst (set_working_memory sample_working_memory_key doc w')
      = Raise (ValueError "All memory records in working memory must have an ID").
Proof.
  apply (get_working_memory_accepts_empty_id sample_working_memory_key false
           no_memories document_without_id world_without_id).
  - reflexivity.
  - reflexivity.
  - unfold valid_datetime, MIN_SECONDS, MAX_SECONDS, MICRO. simpl. lia.
  - unfold valid_datetime, MIN_SECONDS, MAX_SECONDS, MICRO. simpl. lia.
  - unfold valid_datetime, MIN_SECONDS, MAX_SECONDS, MICRO. simpl. lia.
  - exists (MemoryRecord.mk "" "no id" 1699999981000000 None).
    split; [|reflexivity]. simpl. apply elem_of_cons. right.
    apply elem_of_cons. by left.
Defined.

(** ** Round trips to the store *)

Lemma quiet_lift {A} (r : result A) : quiet (lift r).
Proof. by intros w. Qed.

Lemma quiet_mret {A} (a : A) : quiet (mret a).
Proof. by intros w. Qed.

Lemma quiet_log (l : level) (msg : string) : quiet (log l msg).
Proof. by intros w. Qed.

Lemma quiet_now : quiet now.
Proof. by intros w. Qed.

Lemma quiet_time_int : quiet time_int.
Proof. by intros w. Qed.

Lemma quiet_bind {A B} (m : M A) (f : A → M B) :
  quiet m → (∀ a, quiet (f a)) → quiet (m ≫= f).
Proof.
  intros Hm Hf w. rewrite bind_unfold. specialize (Hm w).
  destruct (m w) as [[a|e|b0] w1]; simpl in *; [|done..].
  by rewrite (Hf a w1).
Qed.

Lemma quiet_try_except {A} (body : M A) (handler : exn → M A) :
  quiet body → (∀ e, quiet (handler e)) → quiet (try_except body handler).
Proof.
  intros Hm Hh w. unfold try_except. specialize (Hm w).
  destruct (body w) as [[a|e|b0] w1]; simpl in *; [done| |done].
  by rewrite (Hh e w1).
Qed.

Lemma quiet_parse_memories {lowering : Lower} (memories : list MemoryRecord.t)
    (messages : list MemoryMessage.t) :
  quiet (parse_memories memories messages).
Proof. intros w. by rewrite parse_memories_eq. Qed.

(** The steps of a coroutine that sends nothing, one after the other. *)
Ltac quiet_steps :=
  repeat first
    [ apply quiet_lift
    | apply quiet_mret
    | apply quiet_log
    | apply quiet_now
    | apply quiet_time_int
    | apply quiet_parse_memories
    | apply quiet_try_except; [|intros ?]
    | apply quiet_bind; [|intros ?]
    | match goal with
      | |- quiet (if ?b then _ else _) => destruct b
      | |- quiet (match ?o with Some _ => _ | None => _ end) => destruct o
      end ].

Lemma quiet_reconstruct {lowering : Lower} (search : SearchQuery → result (list MemoryRecord.t))
    (session_id : string) (user_id namespace : option string)
    (recent_messages_limit : option Z) :
  quiet (_reconstruct_working_memory_from_long_term search session_id user_id
           namespace recent_messages_limit).
Proof.
  unfold _reconstruct_working_memory_from_long_term. cbv zeta. quiet_steps.
Qed.

(** One GET, then coroutines that send nothing. *)
Lemma io_get_then {A} (key : string) (f : option bytes → M A)
    (handler : exn → M A) (w : World) :
  (∀ data, quiet (f data)) → (∀ e, quiet (handler e)) →
  io (snd (try_except (redis_get key ≫= f) handler w)) = io w ++ [GET key].
Proof.
  intros Hf Hh. unfold try_except. rewrite bind_unfold, redis_get_eq.
  destruct (fault w) as [e|].
  - by rewrite (Hh e).
  - pose proof (Hf (read_key key w) (with_io (GET key) w)) as Hio.
    destruct (f (read_key key w) (with_io (GET key) w)) as [[a|e|b0] w2];
      simpl in *; [done| |done].
    by rewrite (Hh e).
Qed.

(** X20: [get_working_memory] makes one round trip to the store, whatever
    happens: the only command it sends is the GET of the key of the call;
    a parse that fails and a reconstruction send nothing. *)
Theorem get_working_memory_single_read {lowering : Lower}
    (working_memory_key : string → option string → option string → string)
    (index_all_messages_in_long_term_memory : bool)
    (search : SearchQuery → result (list MemoryRecord.t)) (session_id : string)
    (user_id namespace : option string) (recent_messages_limit : option Z)
    (w : World) :
  io (snd (get_working_memory working_memory_key
             index_all_messages_in_long_term_memory search session_id user_id
             namespace recent_messages_limit w))
  = io w ++ [GET (working_memory_key session_id user_id namespace)].
Proof.
  unfold get_working_memory, get_working_memory_try. cbv zeta.
  apply io_get_then; [|intros e; quiet_steps].
  intros data. destruct (negb (bytes_truthy data)).
  - apply quiet_bind; [apply quiet_log|]. intros _.
    destruct index_all_messages_in_long_term_memory; [|apply quiet_mret].
    apply quiet_bind; [apply quiet_reconstruct|].
    intros [r|]; quiet_steps.
  - quiet_steps.
Qed.

(** X21: a document that passes the check of the ids is written in one
    command, whatever the store answers: SETEX, with the time to live and
    the value together, when the document has a time to live, and SET when
    it has none; the value is the wire form of the document, stamped with
    the instant of the call. *)
Theorem set_working_memory_single_write
    (working_memory_key : string → option string → option string → string)
    (d : WorkingMemory.t) (w : World) :
  (∀ memory, memory ∈ WorkingMemory.memories d → MemoryRecord.id memory ≠ "") →
  let key := working_memory_key (WorkingMemory.session_id d)
               (WorkingMemory.user_id d) (WorkingMemory.namespace d) in
  let payload :=
    json_dumps (wire_form (WorkingMemory.set_updated_at (clock w) d)) in
  io (snd (set_working_memory working_memory_key d w))
  = io w ++ [match WorkingMemory.ttl_seconds d with
             | Some ttl => SETEX key ttl payload
             | None => SET key payload
             end].
Proof.
  intros Hids key payload.
  destruct (check_ids_pass _ Hids) as [us Hus].
  destruct (set_working_memory working_memory_key d w) as [r w1] eqn:H.
  simpl. unfold set_working_memory in H.
  rewrite bind_unfold in H. unfold lift at 1 in H. rewrite Hus in H.
  cbv beta iota in H. rewrite bind_unfold in H. unfold now at 1 in H.
  cbv beta iota zeta in H. rewrite bind_unfold in H. unfold try_except in H.
  change (WorkingMemory.ttl_seconds (WorkingMemory.set_updated_at (clock w) d))
    with (WorkingMemory.ttl_seconds d) in H.
  change (working_memory_key
            (WorkingMemory.session_id (WorkingMemory.set_updated_at (clock w) d))
            (WorkingMemory.user_id (WorkingMemory.set_updated_at (clock w) d))
            (WorkingMemory.namespace (WorkingMemory.set_updated_at (clock w) d)))
    with key in H.
  fold payload in H.
  destruct (WorkingMemory.ttl_seconds d) as [ttl|];
    rewrite bind_unfold in H; unfold redis_setex, redis_set, send in H;
    destruct (fault w) eqn:Hf; cbv beta iota in H;
    try destruct (0 <? ttl); simpl in H; injection H as _ <-; reflexivity.
Qed.

Lemma set_working_memory_single_write_witness :
  let key := sample_working_memory_key "s1" (Some "alice") (Some "demo") in
  let payload :=
    json_dumps (wire_form (WorkingMemory.set_updated_at (clock empty_world)
                             sample_document_ttl)) in
  io (snd (set_working_memory sample_working_memory_key sample_document_ttl
             empty_world))
  = io empty_world ++ [match WorkingMemory.ttl_seconds sample_document_ttl with
                       | Some ttl => SETEX key ttl payload
                       | None => SET key payload
                       end].
Proof.
  apply (set_working_memory_single_write sample_working_memory_key
           sample_document_ttl empty_world).
  intros memory Hm. apply list_elem_of_singleton in Hm as ->. discriminate.
Defined.
